(** * Tolman IV field equations, validity checks and profile generation

    Shallow embedding of [scripts/viejos/tolmanIV_modular.py] (classes
    [TolmanIVCore], [TolmanIVAnalysis], [TolmanIVData], function
    [analyze_tolman_iv]) and of [process_single_case] from
    [scripts/viejos/main_tolman_iv.py]; then of the loop of
    [run_parameter_study] and of the variants of the same equations in
    [scripts/viejos/tolman_iv_complete.py], [scripts/tolman_IV.py],
    [scripts/tolmanIV.py], [scripts/tolmanIV_corrected.py] and
    [scripts/tolmanIV_V1.py], and of the checks of
    [notebooks/explora_tolmanIV.py].

    The Python code computes on binary64 numbers.  Every function is
    written once, over an abstract number interface [PyFloat], and is read
    in two ways:

    - [Exact]: the numbers are the real numbers; this is the arithmetic in
      which the formulas of the program are identities, and the one in which
      the properties quantified over all parameters are proved;
    - [Binary64]: the numbers are IEEE-754 binary64 values (primitive
      floats), on which the program is run on concrete parameters.

    Conventions of the embedding:
    - [x ** 2] is [x * x].  On the real numbers the two are the same; on
      binary64 the power of the C library can differ from the product in the
      last bit, and Python's power raises [OverflowError] where the square of
      a finite number is infinite (magnitudes above about 1.3e154), which is
      not modelled: the statements on binary64 are evaluations at concrete
      parameters far from that range;
    - a division whose divisor is zero raises [ZeroDivisionError], as the
      division of Python floats does (in the field functions a zero divisor
      can only be [A ** 2] or [R ** 2], both plain Python floats);
    - [print] calls are dropped; dictionaries with fixed keys are records;
      a pandas [DataFrame] built from a list of rows is that list;
    - [np.linspace] follows numpy's implementation, and [np.mean] numpy's
      pairwise summation; [dropna] drops the entries that are not a number.

    The statements quantified over all parameters are statements of exact
    arithmetic, unless they say that they hold in any arithmetic.  The
    former do not extend to binary64 as they stand: where one fails on
    binary64 (underflow of a square, overflow of an inverse, rounding of
    nearly equal numbers), the failing parameters are evaluated below. *)

From Stdlib Require Import Floats.
From Stdlib Require Import ZArith List Bool Lia Sorted Reals Lra Psatz.
Import ListNotations.

Set Implicit Arguments.

(** ** Exceptions *)

Inductive exn : Type :=
| ZeroDivisionError
| ValueError
| TypeError.

Inductive result (T : Type) : Type :=
| Ok (v : T)
| Raise (e : exn).

Arguments Ok {T} v.
Arguments Raise {T} e.

Definition bind {T U : Type} (m : result T) (k : T -> result U) : result U :=
  match m with
  | Ok v => k v
  | Raise e => Raise e
  end.

Notation "'let*' x ':=' m 'in' k" := (bind m (fun x => k))
  (at level 10, x pattern, m at level 100, k at level 200).

(** [try: ... except Exception: return None] *)
Definition except_Exception {T : Type} (m : result (option T)) : option T :=
  match m with
  | Ok v => v
  | Raise _ => None
  end.

(** [try: ... except ValueError: return None]; any other exception goes on. *)
Definition except_ValueError {T : Type} (m : result (option T)) : result (option T) :=
  match m with
  | Raise ValueError => Ok None
  | other => other
  end.

(** ** The number interface *)

Class PyFloat (F : Type) : Type := {
  f_of_Z : Z -> F;
  f_pi : F;
  f_add : F -> F -> F;
  f_sub : F -> F -> F;
  f_mul : F -> F -> F;
  f_div : F -> F -> F;
  f_sqrt : F -> F;
  f_abs : F -> F;
  f_eqb : F -> F -> bool;
  f_ltb : F -> F -> bool;
  f_leb : F -> F -> bool
}.

Declare Scope py_scope.
Delimit Scope py_scope with py.
Notation "x + y" := (f_add x y) : py_scope.
Notation "x - y" := (f_sub x y) : py_scope.
Notation "x * y" := (f_mul x y) : py_scope.
Notation "x <? y" := (f_ltb x y) : py_scope.
Notation "x <=? y" := (f_leb x y) : py_scope.

(** ** Rows and reports *)

Section Data.
Variable F : Type.

(** [self.A], [self.R] *)
Record TolmanIVCore : Type := { self_A : F; self_R : F }.

(** one row of the table built by [generate_eos_data] *)
Record RadialPoint : Type := {
  row_r : F;
  row_rho : F;
  row_p : F;
  row_p_over_rho : F;
  row_cs2 : F
}.

(** the dictionary of [check_validity_conditions] *)
Record Conditions : Type := {
  cond_R_gt_A : bool;
  cond_pc_gt_0 : bool;
  cond_ratio : F;
  cond_sqrt3_A : F
}.

(** the dictionary returned by [analyze_solution] *)
Record Analysis : Type := {
  an_valid : bool;
  an_rho_c : F;
  an_p_c : F;
  an_rb : F
}.

(** the dictionary returned by [verify_equation_of_state] *)
Record EosVerification : Type := {
  mean_error : option F;
  max_error : option F
}.

(** the dictionary returned by [check_physical_conditions] *)
Record PhysicalChecks : Type := {
  energy_condition : bool;
  positive_pressure : bool;
  positive_density : bool;
  causality : bool;
  max_p_over_rho : option F;
  pressure_monotonic : bool;
  density_monotonic : bool
}.

(** the summary of [process_single_case], with the table it wrote *)
Record CaseSummary : Type := {
  cs_A : F;
  cs_R : F;
  cs_data_points : nat;
  cs_file : list RadialPoint;
  cs_central_pressure : F;
  cs_central_density : F;
  cs_boundary_radius : F;
  cs_physical_checks : PhysicalChecks;
  cs_eos_error : option F
}.

(** the dictionary returned by [analyze_tolman_iv] *)
Record FullAnalysis : Type := {
  fa_data : list RadialPoint;
  fa_analysis : Analysis;
  fa_physical_checks : PhysicalChecks;
  fa_eos_verification : option EosVerification
}.
End Data.

(** ** The program *)

Section Program.
Context {F : Type} {PF : PyFloat F}.
Local Open Scope py_scope.

Definition lit (z : Z) : F := f_of_Z z.

(** a decimal literal [n / d], as [0.999 = 999 / 1000] *)
Definition dec (n d : Z) : F := f_div (lit n) (lit d).

Definition sq (x : F) : F := x * x.

Definition pydiv (x y : F) : result F :=
  if f_eqb y (lit 0) then Raise ZeroDivisionError else Ok (f_div x y).

(** [8 * np.pi] *)
Definition eight_pi : F := lit 8 * f_pi.

(** *** TolmanIVCore *)

Definition TolmanIVCore_init (A R : F) : result (TolmanIVCore F) :=
  if R <=? A then Raise ValueError
  else Ok {| self_A := A; self_R := R |}.

Definition pressure (self : TolmanIVCore F) (r : F) : result F :=
  let r2 := sq r in
  let A2 := sq (self_A self) in
  let R2 := sq (self_R self) in
  let* inv_A2 := pydiv (lit 1) A2 in
  let* A2_R2 := pydiv A2 R2 in
  let* r2_R2 := pydiv (lit 3 * r2) R2 in
  let* r2_A2 := pydiv (lit 2 * r2) A2 in
  let* eight_pi_p := pydiv (inv_A2 * (lit 1 - A2_R2 - r2_R2)) (lit 1 + r2_A2) in
  pydiv eight_pi_p eight_pi.

Definition density (self : TolmanIVCore F) (r : F) : result F :=
  let r2 := sq r in
  let A2 := sq (self_A self) in
  let R2 := sq (self_R self) in
  let* inv_A2 := pydiv (lit 1) A2 in
  let* A2_R2 := pydiv (lit 3 * A2) R2 in
  let* r2_R2 := pydiv (lit 3 * r2) R2 in
  let* r2_A2 := pydiv (lit 2 * r2) A2 in
  let* term1 := pydiv (inv_A2 * (lit 1 + A2_R2 + r2_R2)) (lit 1 + r2_A2) in
  let* two_A2 := pydiv (lit 2) A2 in
  let* r2_R2' := pydiv r2 R2 in
  let* r2_A2' := pydiv (lit 2 * r2) A2 in
  let* term2 := pydiv (two_A2 * (lit 1 - r2_R2')) (sq (lit 1 + r2_A2')) in
  let eight_pi_rho := term1 + term2 in
  pydiv eight_pi_rho eight_pi.

Definition central_values (self : TolmanIVCore F) : result (F * F) :=
  let A2 := sq (self_A self) in
  let R2 := sq (self_R self) in
  let* a3 := pydiv (lit 3) A2 in
  let* b3 := pydiv (lit 3) R2 in
  let eight_pi_rho_c := a3 + b3 in
  let* rho_c := pydiv eight_pi_rho_c eight_pi in
  let* a1 := pydiv (lit 1) A2 in
  let* b1 := pydiv (lit 1) R2 in
  let eight_pi_p_c := a1 - b1 in
  let* p_c := pydiv eight_pi_p_c eight_pi in
  Ok (rho_c, p_c).

Definition boundary_radius (self : TolmanIVCore F) : result F :=
  let A2 := sq (self_A self) in
  let R2 := sq (self_R self) in
  let* q := pydiv A2 R2 in
  if lit 1 <=? q then Ok (lit 0)
  else
    let* s := pydiv (self_R self) (f_sqrt (lit 3)) in
    let* q' := pydiv A2 R2 in
    Ok (s * f_sqrt (lit 1 - q')).

Definition equation_of_state (self : TolmanIVCore F) (p : F) : result F :=
  let* (rho_c, p_c) := central_values self in
  let* t := pydiv (lit 8 * sq (p_c - p)) (rho_c + p_c) in
  Ok (rho_c - lit 5 * (p_c - p) + t).
End Program.

(** ** numpy helpers *)

Section Numpy.
Context {F : Type} {PF : PyFloat F}.
Local Open Scope py_scope.

(** [y[-1] = stop] *)
Definition set_last (y : list F) (stop : F) : list F :=
  removelast y ++ [stop].

(** [np.linspace(start, stop, num)] with [endpoint=True]: the indices
    [0 .. num-1] scaled by [step = (stop - start) / (num - 1)] and shifted
    by [start], the last entry overwritten with [stop]. *)
Definition linspace (start stop : F) (num : nat) : list F :=
  let div := (num - 1)%nat in
  let delta := stop - start in
  let y := map (fun i => lit (Z.of_nat i)) (seq 0 num) in
  let y :=
    if (0 <? div)%nat then
      let step := f_div delta (lit (Z.of_nat div)) in
      if f_eqb step (lit 0)
      then map (fun v => f_div v (lit (Z.of_nat div)) * delta) y
      else map (fun v => v * step) y
    else map (fun v => v * delta) y in
  let y := map (fun v => v + start) y in
  if (1 <? num)%nat then set_last y stop else y.

(** the unrolled loop of numpy's pairwise summation: eight accumulators take
    the entries eight at a time; they are then added in pairs, and the
    entries left over (fewer than eight) are added one by one *)
Fixpoint block_loop (r0 r1 r2 r3 r4 r5 r6 r7 : F) (l : list F) : F :=
  match l with
  | a0 :: a1 :: a2 :: a3 :: a4 :: a5 :: a6 :: a7 :: rest =>
      block_loop (r0 + a0) (r1 + a1) (r2 + a2) (r3 + a3)
                 (r4 + a4) (r5 + a5) (r6 + a6) (r7 + a7) rest
  | _ => fold_left f_add l (((r0 + r1) + (r2 + r3)) + ((r4 + r5) + (r6 + r7)))
  end.

(** a block of at most 128 entries: fewer than eight are added from left to
    right, starting from 0 *)
Definition block_sum (l : list F) : F :=
  match l with
  | r0 :: r1 :: r2 :: r3 :: r4 :: r5 :: r6 :: r7 :: rest =>
      block_loop r0 r1 r2 r3 r4 r5 r6 r7 rest
  | _ => fold_left f_add l (lit 0)
  end.

(** more than 128 entries are split at [n2 = n / 2 - (n / 2) % 8] and the
    sums of the two parts added; [fuel] bounds the depth of the splitting *)
Fixpoint pairwise_sum (fuel : nat) (l : list F) : F :=
  let n := length l in
  if (n <=? 128)%nat then block_sum l
  else
    match fuel with
    | O => block_sum l
    | S fuel' =>
        let n2 := (n / 2 - (n / 2) mod 8)%nat in
        pairwise_sum fuel' (firstn n2 l) + pairwise_sum fuel' (skipn n2 l)
    end.

(** [np.sum] of a one-dimensional float64 array: the reduction starts from 0
    and adds the pairwise sum of the entries *)
Definition np_sum (l : list F) : F := lit 0 + pairwise_sum (length l) l.

Definition np_mean (l : list F) : F :=
  f_div (np_sum l) (lit (Z.of_nat (length l))).

(** [np.maximum]: the first argument when it is at least the second or is
    not a number, the second otherwise *)
Definition f_max (a b : F) : F :=
  if (b <=? a) || negb (f_eqb a a) then a else b.

(** [np.max] of a list that is not empty ([None]: no entry) *)
Definition np_max (l : list F) : option F :=
  match l with
  | [] => None
  | x :: rest => Some (fold_left f_max rest x)
  end.

(** [series.diff()] without its first entry, which is not a number: each
    entry minus the one before it *)
Fixpoint diff (l : list F) : list F :=
  match l with
  | x :: (y :: _) as rest => (y - x) :: diff rest
  | _ => []
  end.

(** [series.dropna()]: the entries that are not a number (those that differ
    from themselves) are dropped *)
Definition dropna (l : list F) : list F := filter (fun x => f_eqb x x) l.
End Numpy.

(** ** TolmanIVAnalysis, TolmanIVData and the drivers *)

Section Analysis.
Context {F : Type} {PF : PyFloat F}.
Local Open Scope py_scope.

Definition check_validity_conditions (self : TolmanIVCore F) : result (Conditions F) :=
  let A := self_A self in
  let R := self_R self in
  let R_gt_A := A <? R in
  let pc_gt_0 := R <? f_sqrt (lit 3) * A in
  let* ratio := pydiv R A in
  Ok {| cond_R_gt_A := R_gt_A;
        cond_pc_gt_0 := pc_gt_0;
        cond_ratio := ratio;
        cond_sqrt3_A := f_sqrt (lit 3) * A |}.

Definition analyze_solution (self : TolmanIVCore F) : result (Analysis F) :=
  let* _ := pydiv (self_R self) (self_A self) in
  let* conditions := check_validity_conditions self in
  let* (rho_c, p_c) := central_values self in
  let* _ := if lit 0 <? rho_c then pydiv p_c rho_c else Ok (lit 0) in
  let* rb := boundary_radius self in
  let* _ :=
    if lit 0 <? rb then
      let* rho_b := density self rb in
      let* p_b := pressure self rb in
      Ok (rho_b, p_b)
    else Ok (lit 0, lit 0) in
  Ok {| an_valid := cond_R_gt_A conditions && cond_pc_gt_0 conditions;
        an_rho_c := rho_c;
        an_p_c := p_c;
        an_rb := rb |}.

(** the loop of [verify_equation_of_state] *)
Fixpoint eos_errors (self : TolmanIVCore F) (r_values errors : list F)
  : result (list F) :=
  match r_values with
  | [] => Ok errors
  | r :: rest =>
      let* p_direct := pressure self r in
      let* rho_direct := density self r in
      let* rho_eos := equation_of_state self p_direct in
      if lit 0 <? rho_direct then
        let* q := pydiv (f_abs (rho_eos - rho_direct)) rho_direct in
        eos_errors self rest (errors ++ [q * lit 100])
      else eos_errors self rest errors
  end.

Definition verify_equation_of_state (self : TolmanIVCore F) (n_points : nat)
  : result (option (EosVerification F)) :=
  let* rb := boundary_radius self in
  if rb <=? lit 0 then Ok None
  else
    let r_values := linspace (lit 0) (rb * dec 99 100) n_points in
    let* errors := eos_errors self r_values [] in
    Ok (Some {| mean_error := match errors with [] => None | _ => Some (np_mean errors) end;
                max_error := np_max errors |}).

(** [check_physical_conditions] on a table that is not empty, which is what
    its callers pass; on an empty DataFrame the column lookups of pandas
    raise [KeyError], which is not embedded: the statements below use the
    checks on tables with at least one row only.  A pandas [max] skips the
    entries that are not a number. *)
Definition check_physical_conditions (data_df : list (RadialPoint F))
  : PhysicalChecks F :=
  {| energy_condition := forallb (fun row => row_p row <=? row_rho row) data_df;
     positive_pressure := forallb (fun row => lit 0 <=? row_p row) data_df;
     positive_density := forallb (fun row => lit 0 <? row_rho row) data_df;
     causality := forallb (fun row => row_p_over_rho row <=? lit 1) data_df;
     max_p_over_rho := np_max (dropna (map (@row_p_over_rho F) data_df));
     pressure_monotonic :=
       forallb (fun d => d <=? lit 0) (dropna (diff (map (@row_p F) data_df)));
     density_monotonic :=
       forallb (fun d => d <=? lit 0) (dropna (diff (map (@row_rho F) data_df))) |}.

(** the finite-difference sound speed against the last retained row *)
Definition sound_speed (i : nat) (data : list (RadialPoint F)) (p rho : F)
  : result F :=
  match rev data with
  | prev :: _ =>
      if (0 <? i)%nat then
        let dp := p - row_p prev in
        let drho := rho - row_rho prev in
        if dec 1 10000000000 <? f_abs drho then pydiv dp drho else Ok (lit 0)
      else Ok (lit 0)
  | [] => Ok (lit 0)
  end.

(** the loop of [generate_eos_data] over [enumerate(r_values)] *)
Fixpoint eos_rows (self : TolmanIVCore F) (r_values : list (nat * F))
  (data : list (RadialPoint F)) : result (list (RadialPoint F)) :=
  match r_values with
  | [] => Ok data
  | (i, r) :: rest =>
      let* p := pressure self r in
      let* rho := density self r in
      if (lit 0 <=? p) && (lit 0 <? rho) then
        let* cs2 := sound_speed i data p rho in
        let* p_over_rho := if lit 0 <? rho then pydiv p rho else Ok (lit 0) in
        eos_rows self rest
          (data ++ [{| row_r := r; row_rho := rho; row_p := p;
                       row_p_over_rho := p_over_rho; row_cs2 := cs2 |}])
      else eos_rows self rest data
  end.

Definition enumerate (l : list F) : list (nat * F) :=
  combine (seq 0 (length l)) l.

Definition generate_eos_data (self : TolmanIVCore F) (n_points : nat)
  : result (list (RadialPoint F)) :=
  let* rb := boundary_radius self in
  if rb <=? lit 0 then Ok []
  else
    let r_values := linspace (lit 0) (rb * dec 999 1000) n_points in
    eos_rows self (enumerate r_values) [].

(** [process_single_case] of main_tolman_iv.py; [None] is its [return None] *)
Definition process_single_case (A R : F) (n_points : nat)
  : option (CaseSummary F) :=
  except_Exception (
    let* core := TolmanIVCore_init A R in
    let* analysis_results := analyze_solution core in
    if negb (an_valid analysis_results) then Ok None
    else
      let* df := generate_eos_data core n_points in
      if (length df =? 0)%nat then Ok None
      else
        let physical_checks := check_physical_conditions df in
        let* eos_verification := verify_equation_of_state core 20 in
        let* _ :=
          match eos_verification with
          | Some v =>
              match mean_error v, max_error v with
              | Some _, Some _ => Ok (lit 0)
              | _, _ => Raise TypeError
              end
          | None => Ok (lit 0)
          end in
        Ok (Some {| cs_A := A;
                    cs_R := R;
                    cs_data_points := length df;
                    cs_file := df;
                    cs_central_pressure := an_p_c analysis_results;
                    cs_central_density := an_rho_c analysis_results;
                    cs_boundary_radius := an_rb analysis_results;
                    cs_physical_checks := physical_checks;
                    cs_eos_error :=
                      match eos_verification with
                      | Some v => mean_error v
                      | None => None
                      end |})).

(** [analyze_tolman_iv] of tolmanIV_modular.py *)
Definition analyze_tolman_iv (A R : F) (n_points : nat)
  : result (option (FullAnalysis F)) :=
  except_ValueError (
    let* core := TolmanIVCore_init A R in
    let* results := analyze_solution core in
    let* df := generate_eos_data core n_points in
    if (0 <? length df)%nat then
      let physical_checks := check_physical_conditions df in
      let* eos_verification := verify_equation_of_state core 20 in
      Ok (Some {| fa_data := df;
                  fa_analysis := results;
                  fa_physical_checks := physical_checks;
                  fa_eos_verification := eos_verification |})
    else Ok None).
End Analysis.

(** ** The two readings of the numbers *)

Definition Rleb (x y : R) : bool := if Rle_dec x y then true else false.
Definition Rltb (x y : R) : bool := if Rlt_dec x y then true else false.
Definition Reqb (x y : R) : bool := if Req_dec_T x y then true else false.

#[export] Instance Exact : PyFloat R := {|
  f_of_Z := IZR;
  f_pi := PI;
  f_add := Rplus;
  f_sub := Rminus;
  f_mul := Rmult;
  f_div := Rdiv;
  f_sqrt := sqrt;
  f_abs := Rabs;
  f_eqb := Reqb;
  f_ltb := Rltb;
  f_leb := Rleb
|}.

(** conversion of a Python [int] to binary64 *)
Definition float_of_Z (z : Z) : float :=
  match z with
  | Z0 => PrimFloat.of_uint63 (Uint63.of_Z 0)
  | Zpos _ => PrimFloat.of_uint63 (Uint63.of_Z z)
  | Zneg q => PrimFloat.opp (PrimFloat.of_uint63 (Uint63.of_Z (Zpos q)))
  end.

(** [np.pi] *)
Definition np_pi : float := 0x1.921fb54442d18p+1%float.

#[export] Instance Binary64 : PyFloat float := {|
  f_of_Z := float_of_Z;
  f_pi := np_pi;
  f_add := PrimFloat.add;
  f_sub := PrimFloat.sub;
  f_mul := PrimFloat.mul;
  f_div := PrimFloat.div;
  f_sqrt := PrimFloat.sqrt;
  f_abs := PrimFloat.abs;
  f_eqb := PrimFloat.eqb;
  f_ltb := PrimFloat.ltb;
  f_leb := PrimFloat.leb
|}.

Definition core64 (A R : float) : TolmanIVCore float := {| self_A := A; self_R := R |}.

(** the binary64 numbers that Python reads from the literals [1e-200],
    [1.5e-200], [3e-162], [3.2e-162], [1e-160], [2e-160],
    [5.0000000000001] and [1e8] *)
Definition f64_1e_200 : float := 0x1.87e92154ef7acp-665%float.
Definition f64_1_5e_200 : float := 0x1.25eed8ffb39c1p-664%float.
Definition f64_3e_162 : float := 0x1.59843e8c86a09p-537%float.
Definition f64_3_2e_162 : float := 0x1.708d0f84d3de7p-537%float.
Definition f64_1e_160 : float := 0x1.67e9c127b6e74p-532%float.
Definition f64_2e_160 : float := 0x1.67e9c127b6e74p-531%float.
Definition f64_5_0000000000001 : float := 0x1.4000000000071p+2%float.
Definition f64_1e8 : float := 100000000%float.

(** ** Exact arithmetic: the values of the field functions *)

Section ExactValues.
Local Open Scope R_scope.



Definition core (A RR : R) : TolmanIVCore R := {| self_A := A; self_R := RR |}.

(** the value [pressure] computes when no division fails *)
Definition pressure_value (A RR r : R) : R :=
  (1 / sq A * (1 - sq A / sq RR - 3 * sq r / sq RR) / (1 + 2 * sq r / sq A)) / eight_pi.

(** the value [density] computes when no division fails *)
Definition density_value (A RR r : R) : R :=
  (1 / sq A * (1 + 3 * sq A / sq RR + 3 * sq r / sq RR) / (1 + 2 * sq r / sq A)
   + 2 / sq A * (1 - sq r / sq RR) / sq (1 + 2 * sq r / sq A)) / eight_pi.

Definition rho_c_value (A RR : R) : R := (3 / sq A + 3 / sq RR) / eight_pi.
Definition p_c_value (A RR : R) : R := (1 / sq A - 1 / sq RR) / eight_pi.

Definition rb_value (A RR : R) : R := RR / sqrt 3 * sqrt (1 - sq A / sq RR).

Definition eos_value (A RR p : R) : R :=
  rho_c_value A RR - 5 * (p_c_value A RR - p)
  + 8 * sq (p_c_value A RR - p) / (rho_c_value A RR + p_c_value A RR).

End ExactValues.

(** ** Vocabulary of the statements *)

Section Vocabulary.
Context {F : Type} {PF : PyFloat F}.
Local Open Scope py_scope.

(** the test [p >= 0 and rho > 0] of [generate_eos_data] at radius [r] *)
Definition retained (self : TolmanIVCore F) (r : F) : bool :=
  match pressure self r, density self r with
  | Ok p, Ok rho => (lit 0 <=? p) && (lit 0 <? rho)
  | _, _ => false
  end.

(** a row holds the fields evaluated at its radius *)
Definition row_of_fields (self : TolmanIVCore F) (row : RadialPoint F) : Prop :=
  pressure self (row_r row) = Ok (row_p row)
  /\ density self (row_r row) = Ok (row_rho row)
  /\ pydiv (row_p row) (row_rho row) = Ok (row_p_over_rho row).
End Vocabulary.

(** each entry is at most the one before it *)
Definition non_increasing (l : list R) : Prop :=
  forall i x y, nth_error l i = Some x -> nth_error l (S i) = Some y -> (y <= x)%R.

(** what every row of a generated table satisfies *)
Definition physical_row (A RR stop : R) (row : RadialPoint R) : Prop :=
  (0 <= row_r row <= stop
   /\ row_p row = pressure_value A RR (row_r row)
   /\ row_rho row = density_value A RR (row_r row)
   /\ row_p_over_rho row = row_p row / row_rho row
   /\ 0 <= row_p row /\ 0 < row_rho row)%R.

Section Agreement.
Context {F : Type} {PF : PyFloat F}.
Local Open Scope py_scope.

(** [x] agrees with [y] to [k] significant digits: [|x - y| <= 10^-k * |y|] *)
Definition agree_digits (k : Z) (x y : F) : bool :=
  f_abs (x - y) <=? dec 1 (10 ^ k) * f_abs y.

(** at radius [r] the density obtained from [pressure(r)] through
    [equation_of_state] agrees with [density(r)] to a relative error of
    1e-6 percent, the tolerance of the verifier's report *)
Definition eos_agrees (self : TolmanIVCore F) (r : F) : Prop :=
  exists p rho rho_eos,
    pressure self r = Ok p
    /\ density self r = Ok rho
    /\ equation_of_state self p = Ok rho_eos
    /\ agree_digits 8 rho_eos rho = true.

(** [central_values()] agrees with [density(0)] and [pressure(0)] to ten digits *)
Definition central_values_agree (self : TolmanIVCore F) : Prop :=
  exists rho_c p_c rho_0 p_0,
    central_values self = Ok (rho_c, p_c)
    /\ density self (lit 0) = Ok rho_0
    /\ pressure self (lit 0) = Ok p_0
    /\ agree_digits 10 rho_c rho_0 = true
    /\ agree_digits 10 p_c p_0 = true.
End Agreement.

(** ** The loop of the parameter study of main_tolman_iv.py *)

Section Study.
Context {F : Type} {PF : PyFloat F}.

(** the loop of [run_parameter_study] (lines 110-120) with its list
    [results] and its counters [successful] and [failed]; the JSON dump and
    the printed table that follow it are not embedded *)
Fixpoint study_loop (parameter_sets : list (F * F)) (n_points : nat)
  (results : list (CaseSummary F)) (successful failed : nat)
  : list (CaseSummary F) * nat * nat :=
  match parameter_sets with
  | [] => (results, successful, failed)
  | (A, R) :: rest =>
      match process_single_case A R n_points with
      | Some result =>
          study_loop rest n_points (results ++ [result]) (S successful) failed
      | None => study_loop rest n_points results successful (S failed)
      end
  end.

(** the successful cases of a study, in the order of the input *)
Definition kept_cases (n_points : nat) (parameter_sets : list (F * F))
  : list (CaseSummary F) :=
  flat_map (fun AR => match process_single_case (fst AR) (snd AR) n_points with
                      | Some result => [result]
                      | None => []
                      end) parameter_sets.
End Study.

(** ** scripts/viejos/tolman_iv_complete.py

    [pressure], [density], [central_values], [boundary_radius] and the
    check of [__init__] of this class have the text of [TolmanIVCore]; the
    definitions above embed them. *)

Module Complete.
Section Complete.
Context {F : Type} {PF : PyFloat F}.
Local Open Scope py_scope.

Definition boundary_density (self : TolmanIVCore F) : result (option F) :=
  let* rb := boundary_radius self in
  if lit 0 <? rb then
    let* rho_b := density self rb in Ok (Some rho_b)
  else Ok None.

(** the finite difference against the last row; no test on the index *)
Definition sound_speed (data : list (RadialPoint F)) (p rho : F) : result F :=
  match rev data with
  | prev :: _ =>
      let dp := p - row_p prev in
      let drho := rho - row_rho prev in
      if dec 1 10000000000 <? f_abs drho then pydiv dp drho else Ok (lit 0)
  | [] => Ok (lit 0)
  end.

Fixpoint eos_rows (self : TolmanIVCore F) (r_values : list F)
  (data : list (RadialPoint F)) : result (list (RadialPoint F)) :=
  match r_values with
  | [] => Ok data
  | r :: rest =>
      let* p := pressure self r in
      let* rho := density self r in
      if (lit 0 <=? p) && (lit 0 <? rho) then
        let* cs2 := sound_speed data p rho in
        let* p_over_rho := if lit 0 <? rho then pydiv p rho else Ok (lit 0) in
        eos_rows self rest
          (data ++ [{| row_r := r; row_rho := rho; row_p := p;
                       row_p_over_rho := p_over_rho; row_cs2 := cs2 |}])
      else eos_rows self rest data
  end.

Definition generate_eos_data (self : TolmanIVCore F) (n_points : nat)
  : result (list (RadialPoint F)) :=
  let* rb := boundary_radius self in
  if rb <=? lit 0 then Ok []
  else
    let r_values := linspace (lit 0) (rb * dec 999 1000) n_points in
    eos_rows self r_values [].
End Complete.
End Complete.

(** ** scripts/tolman_IV.py

    [__init__], [pressure], [density] and [boundary_radius] of this class
    have the text of [TolmanIVCore] too. *)

Module Simple.
Section Simple.
Context {F : Type} {PF : PyFloat F}.
Local Open Scope py_scope.

(** a row of [generate_data]: no sound speed *)
Record Row : Type := {
  row_r : F;
  row_rho : F;
  row_p : F;
  row_p_over_rho : F
}.

Fixpoint data_rows (self : TolmanIVCore F) (r_values : list F) (data : list Row)
  : result (list Row) :=
  match r_values with
  | [] => Ok data
  | r :: rest =>
      let* p := pressure self r in
      let* rho := density self r in
      if (lit 0 <=? p) && (lit 0 <? rho) then
        let* p_over_rho := pydiv p rho in
        data_rows self rest
          (data ++ [{| row_r := r; row_rho := rho; row_p := p;
                       row_p_over_rho := p_over_rho |}])
      else data_rows self rest data
  end.

(** [None] is the [return None] of the case without boundary *)
Definition generate_data (self : TolmanIVCore F) (n_points : nat)
  : result (option (list Row)) :=
  let* rb := boundary_radius self in
  if rb <=? lit 0 then Ok None
  else
    let r_values := linspace (lit 0) (rb * dec 999 1000) n_points in
    let* data := data_rows self r_values [] in
    Ok (Some data).
End Simple.
End Simple.

(** ** scripts/tolmanIV.py: the variant with [p = term1 - term2] *)

Module Improved.
Section Improved.
Context {F : Type} {PF : PyFloat F}.
Local Open Scope py_scope.

Definition calculate_metric (self : TolmanIVCore F) (r : F) : result F :=
  let r2 := sq r in
  let A2 := sq (self_A self) in
  let R2 := sq (self_R self) in
  let* a := pydiv (lit 2 * r2) A2 in
  let* b := pydiv r2 R2 in
  let* c := pydiv r2 A2 in
  pydiv (lit 1 + a) ((lit 1 - b) * (lit 1 + c)).

Definition pressure (self : TolmanIVCore F) (r : F) : result F :=
  let r2 := sq r in
  let A2 := sq (self_A self) in
  let R2 := sq (self_R self) in
  let* inv_A2 := pydiv (lit 1) A2 in
  let* A2_R2 := pydiv (lit 3 * A2) R2 in
  let* r2_R2 := pydiv (lit 3 * r2) R2 in
  let* r2_A2 := pydiv (lit 2 * r2) A2 in
  let* term1 := pydiv (inv_A2 * (lit 1 + A2_R2 + r2_R2)) (lit 1 + r2_A2) in
  let* two_A2 := pydiv (lit 2) A2 in
  let* r2_R2' := pydiv r2 R2 in
  let* r2_A2' := pydiv (lit 2 * r2) A2 in
  let* term2 := pydiv (two_A2 * (lit 1 - r2_R2')) (sq (lit 1 + r2_A2')) in
  let p_8pi := term1 - term2 in
  pydiv p_8pi eight_pi.

Definition density (self : TolmanIVCore F) (r : F) : result F :=
  let r2 := sq r in
  let A2 := sq (self_A self) in
  let R2 := sq (self_R self) in
  let* inv_A2 := pydiv (lit 1) A2 in
  let* A2_R2 := pydiv (lit 3 * A2) R2 in
  let* r2_R2 := pydiv (lit 3 * r2) R2 in
  let* r2_A2 := pydiv (lit 2 * r2) A2 in
  let* rho_8pi := pydiv (inv_A2 * (lit 1 + A2_R2 + r2_R2)) (lit 1 + r2_A2) in
  pydiv rho_8pi eight_pi.
End Improved.
End Improved.

(** ** scripts/tolmanIV_corrected.py *)

Module Corrected.
Section Corrected.
Context {F : Type} {PF : PyFloat F}.
Local Open Scope py_scope.

Definition pressure (self : TolmanIVCore F) (r : F) : result F :=
  let r2 := sq r in
  let A2 := sq (self_A self) in
  let R2 := sq (self_R self) in
  let* A2_R2 := pydiv A2 R2 in
  let* r2_R2 := pydiv (lit 3 * r2) R2 in
  let numerator1 := lit 1 - A2_R2 - r2_R2 in
  let* r2_A2 := pydiv (lit 2 * r2) A2 in
  let denominator1 := A2 * (lit 1 + r2_A2) in
  let* r2_R2' := pydiv r2 R2 in
  let numerator2 := lit 2 * (lit 1 - r2_R2') in
  let* r2_A2' := pydiv (lit 2 * r2) A2 in
  let denominator2 := A2 * sq (lit 1 + r2_A2') in
  let* eight_pi_p := pydiv numerator1 denominator1 in
  pydiv eight_pi_p eight_pi.

Definition density (self : TolmanIVCore F) (r : F) : result F :=
  let r2 := sq r in
  let A2 := sq (self_A self) in
  let R2 := sq (self_R self) in
  let* A2_R2 := pydiv (lit 3 * A2) R2 in
  let* r2_R2 := pydiv (lit 3 * r2) R2 in
  let numerator := lit 1 + A2_R2 + r2_R2 in
  let* r2_A2 := pydiv (lit 2 * r2) A2 in
  let denominator := A2 * (lit 1 + r2_A2) in
  let* r2_R2' := pydiv r2 R2 in
  let numerator2 := lit 2 * (lit 1 - r2_R2') in
  let* r2_A2' := pydiv (lit 2 * r2) A2 in
  let denominator2 := A2 * sq (lit 1 + r2_A2') in
  let* t1 := pydiv numerator denominator in
  let* t2 := pydiv numerator2 denominator2 in
  let eight_pi_rho := t1 + t2 in
  pydiv eight_pi_rho eight_pi.

(** the boolean returned: [p_central > 0] *)
Definition find_valid_parameters (self : TolmanIVCore F) : result bool :=
  let* p_central := pressure self (lit 0) in
  let* rho_central := density self (lit 0) in
  let* _ := pydiv (self_R self) (self_A self) in
  Ok (lit 0 <? p_central).
End Corrected.
End Corrected.

(** ** Section 4 of notebooks/explora_tolmanIV.py, as a function of the
    table [df] it reads: a table that is not empty, with the columns r, rho,
    p, p_over_rho and cs2 *)

Section Notebook.
Context {F : Type} {PF : PyFloat F}.
Local Open Scope py_scope.

Record NotebookChecks : Type := {
  nb_energy_condition : bool;
  nb_positive_pressure : bool;
  nb_positive_density : bool;
  nb_causality : bool;
  nb_sound_speed_ok : bool;
  nb_pressure_monotonic : bool;
  nb_density_monotonic : bool;
  nb_acceptable : bool
}.

Definition notebook_checks (df : list (RadialPoint F)) : NotebookChecks :=
  let energy_condition := forallb (fun row => row_p row <=? row_rho row) df in
  let positive_pressure := forallb (fun row => lit 0 <=? row_p row) df in
  let positive_density := forallb (fun row => lit 0 <? row_rho row) df in
  {| nb_energy_condition := energy_condition;
     nb_positive_pressure := positive_pressure;
     nb_positive_density := positive_density;
     nb_causality := forallb (fun row => row_p_over_rho row <=? lit 1) df;
     nb_sound_speed_ok :=
       forallb (fun row => row_cs2 row <=? lit 1) df
       && forallb (fun row => lit 0 <=? row_cs2 row) df;
     nb_pressure_monotonic :=
       forallb (fun d => d <=? lit 0) (dropna (diff (map (@row_p F) df)));
     nb_density_monotonic :=
       forallb (fun d => d <=? lit 0) (dropna (diff (map (@row_rho F) df)));
     nb_acceptable := energy_condition && positive_pressure && positive_density |}.
End Notebook.

(** ** Vocabulary of the further statements *)

(** the sound speed of a row against the row before it ([None]: first
    row): the quotient of the differences when the density step exceeds
    1e-10 in absolute value, 0 otherwise *)
Definition cs2_step (prev : option (RadialPoint R)) (row : RadialPoint R) : Prop :=
  match prev with
  | None => row_cs2 row = 0%R
  | Some q =>
      if Rltb (1 / 10000000000) (Rabs (row_rho row - row_rho q))
      then row_cs2 row = ((row_p row - row_p q) / (row_rho row - row_rho q))%R
      else row_cs2 row = 0%R
  end.

Fixpoint cs2_chain (prev : option (RadialPoint R)) (rows : list (RadialPoint R))
  : Prop :=
  match rows with
  | [] => True
  | row :: rest => cs2_step prev row /\ cs2_chain (Some row) rest
  end.

(** a row of [Simple.generate_data] from a row of [generate_eos_data] *)
Definition drop_cs2 {F : Type} (row : RadialPoint F) : Simple.Row (F := F) :=
  {| Simple.row_r := row_r row;
     Simple.row_rho := row_rho row;
     Simple.row_p := row_p row;
     Simple.row_p_over_rho := row_p_over_rho row |}.

(** ** scripts/tolmanIV_V1.py: the script, as a function of its parameters
    [A], [R], [Npoints]; the divisions are numpy array divisions, which do
    not raise *)

Section V1.
Context {F : Type} {PF : PyFloat F}.
Local Open Scope py_scope.

Definition rho_tolmanIV (r A : F) : F :=
  f_div (lit 3 * sq A + sq r) (sq (sq A + sq r)).

Definition P_tolmanIV (r A : F) : F :=
  f_div (sq A - sq r) (sq (sq A + sq r)).

(** a line of the table written: r, rho, P, label *)
Definition v1_table (A R : F) (Npoints : nat) : list (F * F * F * nat) :=
  map (fun r =>
         let rho := rho_tolmanIV r A in
         let P := P_tolmanIV r A in
         (r, rho, P, if (lit 0 <=? rho) && (lit 0 <=? P) then 1%nat else 0%nat))
      (linspace (lit 0) R Npoints).
End V1.

(** ** Exact arithmetic: the values computed by the variants *)

Section VariantValues.
Local Open Scope R_scope.

(** [term1] and [term2] of scripts/tolmanIV.py *)
Definition term1_value (A RR r : R) : R :=
  1 / sq A * (1 + 3 * sq A / sq RR + 3 * sq r / sq RR) / (1 + 2 * sq r / sq A).

Definition term2_value (A RR r : R) : R :=
  2 / sq A * (1 - sq r / sq RR) / sq (1 + 2 * sq r / sq A).

Definition improved_pressure_value (A RR r : R) : R :=
  (term1_value A RR r - term2_value A RR r) / eight_pi.

Definition improved_density_value (A RR r : R) : R :=
  term1_value A RR r / eight_pi.

Definition metric_value (A RR r : R) : R :=
  (1 + 2 * sq r / sq A) / ((1 - sq r / sq RR) * (1 + sq r / sq A)).

Definition corrected_pressure_value (A RR r : R) : R :=
  (1 - sq A / sq RR - 3 * sq r / sq RR) / (sq A * (1 + 2 * sq r / sq A)) / eight_pi.

Definition corrected_density_value (A RR r : R) : R :=
  ((1 + 3 * sq A / sq RR + 3 * sq r / sq RR) / (sq A * (1 + 2 * sq r / sq A))
   + 2 * (1 - sq r / sq RR) / (sq A * sq (1 + 2 * sq r / sq A))) / eight_pi.
End VariantValues.

(** ** Exact arithmetic: the interface on the reals *)

Section ExactInterface.
Local Open Scope R_scope.

Lemma Rleb_true (x y : R) : Rleb x y = true <-> x <= y.
Proof. unfold Rleb; destruct (Rle_dec x y); split; intros; try easy; lra. Qed.

Lemma Rleb_false (x y : R) : Rleb x y = false <-> y < x.
Proof. unfold Rleb; destruct (Rle_dec x y); split; intros; try easy; lra. Qed.

Lemma Rltb_true (x y : R) : Rltb x y = true <-> x < y.
Proof. unfold Rltb; destruct (Rlt_dec x y); split; intros; try easy; lra. Qed.

Lemma Rltb_false (x y : R) : Rltb x y = false <-> y <= x.
Proof. unfold Rltb; destruct (Rlt_dec x y); split; intros; try easy; lra. Qed.

Lemma Reqb_true (x y : R) : Reqb x y = true <-> x = y.
Proof. unfold Reqb; destruct (Req_dec_T x y); split; intros; easy. Qed.

Lemma Reqb_false (x y : R) : Reqb x y = false <-> x <> y.
Proof. unfold Reqb; destruct (Req_dec_T x y); split; intros; easy. Qed.

Lemma dropna_exact (l : list R) : dropna l = l.
Proof.
  unfold dropna. induction l as [|x l IH]; [reflexivity|].
  cbn [filter]. rewrite IH.
  change (f_eqb x x) with (Reqb x x).
  assert (E : Reqb x x = true) by now apply Reqb_true.
  now rewrite E.
Qed.

Lemma f_max_exact (a b : R) : f_max a b = if Rleb b a then a else b.
Proof.
  unfold f_max.
  change (f_eqb a a) with (Reqb a a). change (f_leb b a) with (Rleb b a).
  assert (E : Reqb a a = true) by now apply Reqb_true.
  rewrite E. cbn [negb]. now rewrite orb_false_r.
Qed.

Lemma pydiv_ok (x y : R) : y <> 0 -> pydiv x y = Ok (x / y).
Proof.
  intros Hy. unfold pydiv, lit; simpl.
  apply Reqb_false in Hy. now rewrite Hy.
Qed.

Lemma pydiv_zero (x : R) : pydiv x 0 = Raise ZeroDivisionError.
Proof.
  unfold pydiv, lit; simpl.
  assert (H : Reqb 0 0 = true) by now apply Reqb_true.
  now rewrite H.
Qed.

Lemma eight_pi_pos : 0 < eight_pi.
Proof. unfold eight_pi, lit; simpl. generalize PI_RGT_0; lra. Qed.

Lemma eight_pi_neq : eight_pi <> 0.
Proof. generalize eight_pi_pos; lra. Qed.

Lemma sq_neq (x : R) : x <> 0 -> sq x <> 0.
Proof. unfold sq; simpl. nra. Qed.

Lemma sq_pos (x : R) : x <> 0 -> 0 < sq x.
Proof. unfold sq; simpl. nra. Qed.

Lemma sq_nonneg (x : R) : 0 <= sq x.
Proof. unfold sq; simpl. nra. Qed.

(** the denominator [1 + 2*r2/A2] of the field equations *)
Lemma denom_pos (A r : R) : A <> 0 -> 0 < 1 + 2 * sq r / sq A.
Proof.
  intros HA. pose proof (sq_pos HA). pose proof (sq_nonneg r).
  assert (0 <= 2 * sq r / sq A).
  { apply Rmult_le_pos; [lra | left; now apply Rinv_0_lt_compat]. }
  lra.
Qed.

End ExactInterface.

Ltac exact_norm := unfold sq, eight_pi, lit in *; simpl in *.

(** run the divisions of a field function whose divisors are known non-zero *)
Ltac run_divisions :=
  repeat (rewrite pydiv_ok by (assumption || lra); simpl).

Section ExactClosedForms.
Local Open Scope R_scope.

Lemma field_side_conditions (A RR r : R) :
  A <> 0 -> RR <> 0 ->
  A * A <> 0 /\ RR * RR <> 0 /\ 0 < 1 + 2 * (r * r) / (A * A) /\ 8 * PI <> 0
  /\ (1 + 2 * (r * r) / (A * A)) * (1 + 2 * (r * r) / (A * A)) <> 0.
Proof.
  intros HA HR.
  pose proof (sq_neq HA). pose proof (sq_neq HR).
  pose proof (denom_pos r HA). pose proof eight_pi_neq.
  exact_norm. repeat split; try assumption. nra.
Qed.

Lemma pressure_exact (A RR r : R) :
  A <> 0 -> RR <> 0 -> pressure (core A RR) r = Ok (pressure_value A RR r).
Proof.
  intros HA HR.
  destruct (field_side_conditions r HA HR) as (? & ? & ? & ? & ?).
  unfold pressure, pressure_value, core. exact_norm.
  run_divisions. reflexivity.
Qed.

Lemma density_exact (A RR r : R) :
  A <> 0 -> RR <> 0 -> density (core A RR) r = Ok (density_value A RR r).
Proof.
  intros HA HR.
  destruct (field_side_conditions r HA HR) as (? & ? & ? & ? & ?).
  unfold density, density_value, core. exact_norm.
  run_divisions. reflexivity.
Qed.

Lemma central_values_exact (A RR : R) :
  A <> 0 -> RR <> 0 ->
  central_values (core A RR) = Ok (rho_c_value A RR, p_c_value A RR).
Proof.
  intros HA HR.
  destruct (field_side_conditions 0 HA HR) as (? & ? & ? & ? & ?).
  unfold central_values, rho_c_value, p_c_value, core. exact_norm.
  run_divisions. reflexivity.
Qed.

Lemma sqrt3_pos : 0 < sqrt 3.
Proof. apply sqrt_lt_R0; lra. Qed.

Lemma boundary_radius_exact (A RR : R) :
  RR <> 0 ->
  boundary_radius (core A RR) =
  Ok (if Rleb 1 (sq A / sq RR) then 0 else rb_value A RR).
Proof.
  intros HR. pose proof (sq_neq HR). pose proof sqrt3_pos.
  unfold boundary_radius, rb_value, core. exact_norm.
  run_divisions.
  destruct (Rleb 1 (A * A / (RR * RR))); [reflexivity|].
  run_divisions. reflexivity.
Qed.

Lemma boundary_radius_R0 (A : R) :
  boundary_radius (core A 0) = Raise ZeroDivisionError.
Proof.
  unfold boundary_radius, core. exact_norm.
  replace (0 * 0) with 0 by ring. now rewrite pydiv_zero.
Qed.

Lemma sum_central_pos (A RR : R) :
  A <> 0 -> RR <> 0 -> 0 < rho_c_value A RR + p_c_value A RR.
Proof.
  intros HA HR. pose proof (sq_pos HA). pose proof (sq_pos HR).
  pose proof eight_pi_pos.
  unfold rho_c_value, p_c_value.
  replace ((3 / sq A + 3 / sq RR) / eight_pi + (1 / sq A - 1 / sq RR) / eight_pi)
    with ((4 / sq A + 2 / sq RR) / eight_pi) by (field; lra).
  apply Rdiv_lt_0_compat; [|assumption].
  assert (0 < 4 / sq A) by (apply Rdiv_lt_0_compat; lra).
  assert (0 < 2 / sq RR) by (apply Rdiv_lt_0_compat; lra).
  lra.
Qed.

Lemma equation_of_state_exact (A RR p : R) :
  A <> 0 -> RR <> 0 ->
  equation_of_state (core A RR) p = Ok (eos_value A RR p).
Proof.
  intros HA HR. unfold equation_of_state.
  rewrite central_values_exact by assumption. simpl.
  pose proof (sum_central_pos HA HR).
  rewrite pydiv_ok by lra. reflexivity.
Qed.

End ExactClosedForms.

(** ** Exact arithmetic: algebra of the field functions *)

Section ExactFields.
Local Open Scope R_scope.

Lemma center_pressure (A RR : R) :
  A <> 0 -> RR <> 0 -> pressure_value A RR 0 = p_c_value A RR.
Proof.
  intros HA HR. unfold pressure_value, p_c_value. exact_norm.
  pose proof PI_RGT_0. field. repeat split; try lra; nra.
Qed.

Lemma center_density (A RR : R) :
  A <> 0 -> RR <> 0 -> density_value A RR 0 = rho_c_value A RR.
Proof.
  intros HA HR. unfold density_value, rho_c_value. exact_norm.
  pose proof PI_RGT_0. field. repeat split; try lra; nra.
Qed.

Lemma eos_identity (A RR r : R) :
  A <> 0 -> RR <> 0 ->
  eos_value A RR (pressure_value A RR r) = density_value A RR r.
Proof.
  intros HA HR.
  unfold eos_value, rho_c_value, p_c_value, pressure_value, density_value.
  exact_norm. pose proof PI_RGT_0.
  assert (0 < A * A) by nra. assert (0 < RR * RR) by nra.
  assert (0 <= r * r) by nra.
  field. repeat split; try lra; try nra.
Qed.

Lemma fraction_denominator_pos (a b x : R) :
  0 < a -> 0 < b -> 0 <= x -> 0 < b * (a + 2 * x) * (8 * PI).
Proof.
  intros Ha Hb Hx. pose proof PI_RGT_0.
  apply Rmult_lt_0_compat; [apply Rmult_lt_0_compat|]; lra.
Qed.

Lemma frac_le (n1 d1 n2 d2 : R) :
  0 < d1 -> 0 < d2 -> n1 * d2 <= n2 * d1 -> n1 / d1 <= n2 / d2.
Proof.
  intros H1 H2 H.
  replace (n1 / d1) with (n1 * d2 / (d1 * d2)) by (field; lra).
  replace (n2 / d2) with (n2 * d1 / (d1 * d2)) by (field; lra).
  apply Rmult_le_compat_r; [|assumption].
  left. apply Rinv_0_lt_compat. nra.
Qed.

(** [pressure] as one fraction *)
Lemma pressure_fraction (A RR r : R) :
  A <> 0 -> RR <> 0 ->
  pressure_value A RR r =
  (RR * RR - A * A - 3 * (r * r)) / (RR * RR * (A * A + 2 * (r * r)) * (8 * PI)).
Proof.
  intros HA HR. unfold pressure_value. exact_norm. pose proof PI_RGT_0.
  assert (0 < A * A) by nra. assert (0 < RR * RR) by nra.
  assert (0 <= r * r) by nra.
  field. repeat split; try lra; nra.
Qed.

(** [density] as a sum of two fractions *)
Lemma density_fraction (A RR r : R) :
  A <> 0 -> RR <> 0 ->
  density_value A RR r =
  (RR * RR + 3 * (A * A) + 3 * (r * r)) / (RR * RR * (A * A + 2 * (r * r)) * (8 * PI))
  + 2 * (A * A) * (RR * RR - r * r)
    / (RR * RR * ((A * A + 2 * (r * r)) * (A * A + 2 * (r * r))) * (8 * PI)).
Proof.
  intros HA HR. unfold density_value. exact_norm. pose proof PI_RGT_0.
  assert (0 < A * A) by nra. assert (0 < RR * RR) by nra.
  assert (0 <= r * r) by nra.
  field. repeat split; try lra; nra.
Qed.

Lemma pressure_sign (A RR r : R) :
  A <> 0 -> RR <> 0 ->
  (0 <= pressure_value A RR r <-> 3 * (r * r) <= RR * RR - A * A).
Proof.
  intros HA HR. rewrite pressure_fraction by assumption.
  pose proof PI_RGT_0.
  assert (0 < A * A) by nra. assert (0 < RR * RR) by nra.
  assert (0 <= r * r) by nra.
  assert (Hd : 0 < RR * RR * (A * A + 2 * (r * r)) * (8 * PI)).
  { now apply fraction_denominator_pos. }
  split; intros Hp.
  - destruct (Rle_dec (3 * (r * r)) (RR * RR - A * A)) as [|Hn]; [assumption|].
    exfalso. apply Rnot_le_lt in Hn.
    assert ((RR * RR - A * A - 3 * (r * r))
            / (RR * RR * (A * A + 2 * (r * r)) * (8 * PI)) < 0).
    { apply Rmult_neg_pos; [lra | now apply Rinv_0_lt_compat]. }
    lra.
  - apply Rmult_le_pos; [lra | left; now apply Rinv_0_lt_compat].
Qed.

Lemma pressure_decreasing (A RR r1 r2 : R) :
  A <> 0 -> RR <> 0 -> 0 <= r1 <= r2 ->
  pressure_value A RR r2 <= pressure_value A RR r1.
Proof.
  intros HA HR [H1 H2]. rewrite !pressure_fraction by assumption.
  pose proof PI_RGT_0.
  assert (0 < A * A) by nra. assert (0 < RR * RR) by nra.
  assert (0 <= r1 * r1) by nra. assert (r1 * r1 <= r2 * r2) by nra.
  set (x1 := r1 * r1) in *. set (x2 := r2 * r2) in *.
  set (a := A * A) in *. set (b := RR * RR) in *.
  clearbody x1 x2 a b.
  apply frac_le.
  - apply fraction_denominator_pos; lra.
  - apply fraction_denominator_pos; lra.
  - assert (0 <= (x2 - x1) * (2 * b + a) * b * (8 * PI)).
    { apply Rmult_le_pos; [apply Rmult_le_pos; [apply Rmult_le_pos|]|]; lra. }
    nra.
Qed.

Lemma density_decreasing (A RR r1 r2 : R) :
  A <> 0 -> RR <> 0 -> 0 <= r1 <= r2 -> r2 * r2 <= RR * RR ->
  density_value A RR r2 <= density_value A RR r1.
Proof.
  intros HA HR [H1 H2] Hb. rewrite !density_fraction by assumption.
  pose proof PI_RGT_0.
  assert (0 < A * A) by nra. assert (0 < RR * RR) by nra.
  assert (0 <= r1 * r1) by nra. assert (r1 * r1 <= r2 * r2) by nra.
  set (x1 := r1 * r1) in *. set (x2 := r2 * r2) in *.
  set (a := A * A) in *. set (b := RR * RR) in *.
  clearbody x1 x2 a b.
  apply Rplus_le_compat.
  - apply frac_le; try (apply fraction_denominator_pos; lra).
    assert (0 <= (x2 - x1) * (2 * b + 3 * a) * b * (8 * PI)).
    { apply Rmult_le_pos; [apply Rmult_le_pos; [apply Rmult_le_pos|]|]; lra. }
    nra.
  - assert (Hd : forall x, 0 <= x -> 0 < b * ((a + 2 * x) * (a + 2 * x)) * (8 * PI)).
    { intros x Hx.
      apply Rmult_lt_0_compat; [apply Rmult_lt_0_compat;
        [|apply Rmult_lt_0_compat]|]; lra. }
    apply frac_le; try (apply Hd; lra).
    assert (Hs : (a + 2 * x1) * (a + 2 * x1) <= (a + 2 * x2) * (a + 2 * x2)) by nra.
    assert (0 <= (b - x2) * ((a + 2 * x2) * (a + 2 * x2) - (a + 2 * x1) * (a + 2 * x1))).
    { apply Rmult_le_pos; lra. }
    assert (0 <= (x2 - x1) * ((a + 2 * x1) * (a + 2 * x1))).
    { apply Rmult_le_pos; [lra|nra]. }
    assert (Hk : 0 < 2 * a * b * (8 * PI)).
    { apply Rmult_lt_0_compat; [apply Rmult_lt_0_compat|]; lra. }
    assert (Hn : (b - x2) * ((a + 2 * x1) * (a + 2 * x1))
                 <= (b - x1) * ((a + 2 * x2) * (a + 2 * x2))) by nra.
    replace (2 * a * (b - x2) * (b * ((a + 2 * x1) * (a + 2 * x1)) * (8 * PI)))
      with (2 * a * b * (8 * PI) * ((b - x2) * ((a + 2 * x1) * (a + 2 * x1)))) by ring.
    replace (2 * a * (b - x1) * (b * ((a + 2 * x2) * (a + 2 * x2)) * (8 * PI)))
      with (2 * a * b * (8 * PI) * ((b - x1) * ((a + 2 * x2) * (a + 2 * x2)))) by ring.
    apply Rmult_le_compat_l; lra.
Qed.

(** energy condition, as long as the radius stays inside [R] *)
Lemma density_above_pressure (A RR r : R) :
  A <> 0 -> RR <> 0 -> r * r <= RR * RR ->
  pressure_value A RR r < density_value A RR r.
Proof.
  intros HA HR Hb.
  rewrite pressure_fraction, density_fraction by assumption.
  pose proof PI_RGT_0.
  assert (0 < A * A) by nra. assert (0 < RR * RR) by nra.
  assert (0 <= r * r) by nra.
  set (x := r * r) in *. set (a := A * A) in *. set (b := RR * RR) in *.
  clearbody x a b.
  assert (Hd : 0 < b * (a + 2 * x) * (8 * PI)) by (apply fraction_denominator_pos; lra).
  assert (Hd2 : 0 < b * ((a + 2 * x) * (a + 2 * x)) * (8 * PI)).
  { apply Rmult_lt_0_compat; [apply Rmult_lt_0_compat;
      [|apply Rmult_lt_0_compat]|]; lra. }
  assert (0 <= 2 * a * (b - x) / (b * ((a + 2 * x) * (a + 2 * x)) * (8 * PI))).
  { apply Rmult_le_pos; [|left; now apply Rinv_0_lt_compat].
    apply Rmult_le_pos; lra. }
  assert ((b - a - 3 * x) / (b * (a + 2 * x) * (8 * PI))
          < (b + 3 * a + 3 * x) / (b * (a + 2 * x) * (8 * PI))).
  { apply Rmult_lt_compat_r; [now apply Rinv_0_lt_compat | lra]. }
  lra.
Qed.

Lemma density_positive (A RR r : R) :
  A <> 0 -> RR <> 0 -> r * r <= RR * RR -> 0 < density_value A RR r.
Proof.
  intros HA HR Hb. rewrite density_fraction by assumption.
  pose proof PI_RGT_0.
  assert (0 < A * A) by nra. assert (0 < RR * RR) by nra.
  assert (0 <= r * r) by nra.
  set (x := r * r) in *. set (a := A * A) in *. set (b := RR * RR) in *.
  clearbody x a b.
  assert (Hd : 0 < b * (a + 2 * x) * (8 * PI)) by (apply fraction_denominator_pos; lra).
  assert (Hd2 : 0 < b * ((a + 2 * x) * (a + 2 * x)) * (8 * PI)).
  { apply Rmult_lt_0_compat; [apply Rmult_lt_0_compat;
      [|apply Rmult_lt_0_compat]|]; lra. }
  assert (0 <= 2 * a * (b - x) / (b * ((a + 2 * x) * (a + 2 * x)) * (8 * PI))).
  { apply Rmult_le_pos; [|left; now apply Rinv_0_lt_compat].
    apply Rmult_le_pos; lra. }
  assert (0 < (b + 3 * a + 3 * x) / (b * (a + 2 * x) * (8 * PI))).
  { apply Rdiv_lt_0_compat; lra. }
  lra.
Qed.

Lemma ratio_lt_1 (A RR : R) :
  RR <> 0 -> (sq A / sq RR < 1 <-> sq A < sq RR).
Proof.
  intros HR. pose proof (sq_pos HR) as Hp.
  split; intros H.
  - apply Rmult_lt_compat_r with (r := sq RR) in H; [|assumption].
    unfold Rdiv in H. rewrite Rmult_assoc, Rinv_l in H; lra.
  - apply Rmult_lt_reg_r with (r := sq RR); [assumption|].
    unfold Rdiv. rewrite Rmult_assoc, Rinv_l; lra.
Qed.

Lemma boundary_radius_cases (A RR : R) :
  RR <> 0 ->
  boundary_radius (core A RR) =
  Ok (if Rltb (sq A) (sq RR) then rb_value A RR else 0).
Proof.
  intros HR. rewrite boundary_radius_exact by assumption.
  pose proof (ratio_lt_1 A HR) as Hq.
  destruct (Rleb 1 (sq A / sq RR)) eqn:E1, (Rltb (sq A) (sq RR)) eqn:E2;
    try reflexivity.
  - apply Rleb_true in E1. apply Rltb_true in E2. apply Hq in E2. lra.
  - apply Rleb_false in E1. apply Rltb_false in E2. apply Hq in E1. lra.
Qed.

Lemma rb_square (A RR : R) :
  RR <> 0 -> sq A < sq RR ->
  rb_value A RR * rb_value A RR = (RR * RR - A * A) / 3.
Proof.
  intros HR Hlt. pose proof (proj2 (ratio_lt_1 A HR) Hlt) as Hq.
  unfold rb_value.
  assert (H3 : sqrt 3 * sqrt 3 = 3) by (apply sqrt_sqrt; lra).
  assert (Hs : sqrt (1 - sq A / sq RR) * sqrt (1 - sq A / sq RR) = 1 - sq A / sq RR)
    by (apply sqrt_sqrt; lra).
  pose proof sqrt3_pos.
  replace (RR / sqrt 3 * sqrt (1 - sq A / sq RR) * (RR / sqrt 3 * sqrt (1 - sq A / sq RR)))
    with (RR * RR / (sqrt 3 * sqrt 3)
          * (sqrt (1 - sq A / sq RR) * sqrt (1 - sq A / sq RR))) by (field; lra).
  rewrite H3, Hs. exact_norm. field. assumption.
Qed.

Lemma rb_positive (A RR : R) : 0 < RR -> sq A < sq RR -> 0 < rb_value A RR.
Proof.
  intros HR Hlt.
  assert (HR0 : RR <> 0) by lra.
  pose proof (proj2 (ratio_lt_1 A HR0) Hlt) as Hq.
  unfold rb_value. apply Rmult_lt_0_compat.
  - apply Rdiv_lt_0_compat; [assumption | apply sqrt3_pos].
  - apply sqrt_lt_R0. lra.
Qed.

Lemma rb_below_R (A RR : R) :
  0 < RR -> sq A < sq RR -> rb_value A RR < RR.
Proof.
  intros HR Hlt. assert (HR0 : RR <> 0) by lra.
  pose proof (rb_square HR0 Hlt) as Hsq. pose proof (rb_positive HR Hlt) as Hp.
  assert (0 <= A * A) by nra.
  destruct (Rlt_dec (rb_value A RR) RR) as [|Hn]; [assumption|].
  apply Rnot_lt_le in Hn.
  assert (RR * RR <= rb_value A RR * rb_value A RR) by nra.
  assert (0 < RR * RR) by nra.
  lra.
Qed.

Lemma pressure_at_rb (A RR : R) :
  A <> 0 -> RR <> 0 -> sq A < sq RR ->
  pressure_value A RR (rb_value A RR) = 0.
Proof.
  intros HA HR Hlt. rewrite pressure_fraction by assumption.
  rewrite (rb_square HR Hlt).
  replace (RR * RR - A * A - 3 * ((RR * RR - A * A) / 3)) with 0 by field.
  unfold Rdiv. ring.
Qed.

Lemma sq_lt_of_lt (A RR : R) : 0 < A -> A < RR -> sq A < sq RR.
Proof. intros. exact_norm. nra. Qed.

Lemma central_pressure_positive (A RR : R) :
  0 < A -> A < RR -> 0 < p_c_value A RR.
Proof.
  intros HA HR. unfold p_c_value. pose proof eight_pi_pos.
  pose proof (sq_lt_of_lt HA HR).
  assert (0 < sq A) by (apply sq_pos; lra).
  apply Rdiv_lt_0_compat; [|assumption].
  assert (1 / sq RR < 1 / sq A).
  { unfold Rdiv. rewrite !Rmult_1_l. apply Rinv_lt_contravar; nra. }
  lra.
Qed.

End ExactFields.

(** ** Exact arithmetic: the sampling grid *)

Section ExactGrid.
Local Open Scope R_scope.

(** the evenly spaced grid [i * (stop / (n - 1))], [i = 0 .. n-1] *)
Lemma linspace_exact (stop : R) (n : nat) :
  linspace 0 stop n =
  map (fun i => INR i * (stop / INR (n - 1))) (seq 0 n).
Proof.
  unfold linspace, lit. cbn [f_of_Z f_sub f_add f_mul f_div f_eqb Exact].
  rewrite Rminus_0_r.
  assert (Hmap : forall g,
            (forall i, g (IZR (Z.of_nat i)) = INR i * (stop / INR (n - 1))) ->
            map (fun v => v + 0) (map g (map (fun i => IZR (Z.of_nat i)) (seq 0 n)))
            = map (fun i => INR i * (stop / INR (n - 1))) (seq 0 n)).
  { intros g Hg. rewrite !map_map. apply map_ext. intros i.
    rewrite Hg. ring. }
  destruct n as [|[|m]].
  - reflexivity.
  - simpl. unfold Rdiv. rewrite Rinv_0. f_equal. ring.
  - replace (0 <? S (S m) - 1)%nat with true by reflexivity.
    replace (1 <? S (S m))%nat with true by reflexivity.
    replace (S (S m) - 1)%nat with (S m) in * by lia.
    assert (Hm : INR (S m) <> 0) by (apply not_0_INR; lia).
    match goal with
    | |- set_last (map _ ?y) stop = _ =>
        assert (Hy : map (fun v => v + 0) y
                     = map (fun i => INR i * (stop / INR (S m))) (seq 0 (S (S m))))
    end.
    { destruct (Reqb (stop / IZR (Z.of_nat (S m))) 0).
      - apply Hmap.
        intros i. rewrite <- !INR_IZR_INZ. field. assumption.
      - apply Hmap.
        intros i. rewrite <- !INR_IZR_INZ. reflexivity. }
    rewrite Hy.
    unfold set_last. rewrite (seq_S (S m) 0), !map_app.
    cbn [map]. rewrite removelast_last.
    do 2 f_equal. cbn [Nat.add]. field. assumption.
Qed.

Lemma linspace_length (stop : R) (n : nat) : length (linspace 0 stop n) = n.
Proof. now rewrite linspace_exact, length_map, length_seq. Qed.

Lemma linspace_bounds (stop : R) (n : nat) :
  0 <= stop -> Forall (fun r => 0 <= r <= stop) (linspace 0 stop n).
Proof.
  intros Hs. rewrite linspace_exact. apply Forall_forall. intros r Hr.
  apply in_map_iff in Hr. destruct Hr as (i & <- & Hi).
  apply in_seq in Hi.
  destruct (Nat.eq_dec (n - 1) 0) as [E|E].
  - assert (i = 0)%nat by lia. subst i. simpl. lra.
  - assert (Hn : 0 < INR (n - 1)) by (apply lt_0_INR; lia).
    assert (Hi' : INR i <= INR (n - 1)) by (apply le_INR; lia).
    assert (0 <= INR i) by apply pos_INR.
    assert (Hq : 0 <= stop / INR (n - 1)).
    { apply Rmult_le_pos; [assumption | left; now apply Rinv_0_lt_compat]. }
    split; [now apply Rmult_le_pos|].
    replace stop with (INR (n - 1) * (stop / INR (n - 1))) at 2 by (field; lra).
    now apply Rmult_le_compat_r.
Qed.

Lemma sorted_map_seq (f : nat -> R) (n a : nat) :
  (forall i j, (a <= i < j)%nat -> (j < a + n)%nat -> f i < f j) ->
  StronglySorted Rlt (map f (seq a n)).
Proof.
  revert a. induction n as [|n IH]; intros a Hf; simpl.
  - constructor.
  - constructor.
    + apply IH. intros i j Hij Hj. apply Hf; lia.
    + apply Forall_forall. intros y Hy. apply in_map_iff in Hy.
      destruct Hy as (j & <- & Hj). apply in_seq in Hj. apply Hf; lia.
Qed.

Lemma linspace_sorted (stop : R) (n : nat) :
  0 < stop -> StronglySorted Rlt (linspace 0 stop n).
Proof.
  intros Hs. rewrite linspace_exact. apply sorted_map_seq.
  intros i j Hij Hj.
  assert (Hn : 0 < INR (n - 1)) by (apply lt_0_INR; lia).
  assert (Hq : 0 < stop / INR (n - 1)) by (now apply Rdiv_lt_0_compat).
  apply Rmult_lt_compat_r; [assumption|]. apply lt_INR. lia.
Qed.

End ExactGrid.

(** ** Exact arithmetic: the generated table *)

Section ExactProfile.
Local Open Scope R_scope.

Lemma sound_speed_returns (i : nat) (data : list (RadialPoint R)) (p rho : R) :
  exists c, sound_speed i data p rho = Ok c.
Proof.
  unfold sound_speed. destruct (rev data) as [|prev ?]; [now eexists|].
  destruct (0 <? i)%nat; [|now eexists].
  destruct (f_ltb (dec 1 10000000000) (f_abs (f_sub rho (row_rho prev)))) eqn:E;
    [|now eexists].
  unfold dec, lit in E. simpl in E. apply Rltb_true in E.
  rewrite pydiv_ok.
  - now eexists.
  - intros H0. simpl in H0. rewrite H0, Rabs_R0 in E. lra.
Qed.

Lemma retained_exact (A RR r : R) :
  A <> 0 -> RR <> 0 ->
  retained (core A RR) r
  = Rleb 0 (pressure_value A RR r) && Rltb 0 (density_value A RR r).
Proof.
  intros HA HR. unfold retained.
  now rewrite pressure_exact, density_exact by assumption.
Qed.

Lemma eos_rows_exact (A RR : R) (irs : list (nat * R)) :
  A <> 0 -> RR <> 0 ->
  forall data, exists out,
    eos_rows (core A RR) irs data = Ok (data ++ out)
    /\ map (@row_r R) out = filter (retained (core A RR)) (map snd irs)
    /\ Forall (row_of_fields (core A RR)) out.
Proof.
  intros HA HR. induction irs as [|[i r] rest IH]; intros data.
  - exists []. simpl. rewrite app_nil_r. repeat split. constructor.
  - cbn [eos_rows map snd filter].
    rewrite retained_exact by assumption.
    rewrite pressure_exact, density_exact by assumption. cbn [bind].
    change (f_leb (lit 0) (pressure_value A RR r)) with (Rleb 0 (pressure_value A RR r)).
    change (f_ltb (lit 0) (density_value A RR r)) with (Rltb 0 (density_value A RR r)).
    destruct (Rleb 0 (pressure_value A RR r)) eqn:Ep;
      [destruct (Rltb 0 (density_value A RR r)) eqn:Ed|]; cbn [andb].
    + destruct (sound_speed_returns i data (pressure_value A RR r) (density_value A RR r))
        as [c Hc].
      rewrite Hc. cbn [bind].
      apply Rltb_true in Ed.
      assert (Hq : pydiv (pressure_value A RR r) (density_value A RR r)
                   = Ok (pressure_value A RR r / density_value A RR r))
        by (apply pydiv_ok; lra).
      rewrite Hq. cbn [bind].
      destruct (IH (data ++ [{| row_r := r; row_rho := density_value A RR r;
                                row_p := pressure_value A RR r;
                                row_p_over_rho := pressure_value A RR r / density_value A RR r;
                                row_cs2 := c |}])) as (out & Ho & Hr & Hf).
      eexists (_ :: out). rewrite Ho, <- app_assoc. split; [reflexivity|].
      split; [cbn [map row_r]; now rewrite Hr|].
      constructor; [|assumption].
      unfold row_of_fields. cbn [row_r row_p row_rho row_p_over_rho].
      rewrite pressure_exact, density_exact by assumption. auto.
    + apply IH.
    + apply IH.
Qed.

Lemma enumerate_snd (l : list R) : map snd (enumerate l) = l.
Proof.
  unfold enumerate. generalize 0%nat.
  induction l as [|x l IH]; intros a; simpl; [reflexivity|]. now rewrite IH.
Qed.

Lemma generate_eos_data_exact (A RR : R) (n : nat) :
  A <> 0 -> RR <> 0 ->
  exists rb out,
    boundary_radius (core A RR) = Ok rb
    /\ generate_eos_data (core A RR) n = Ok out
    /\ (rb <= 0 -> out = [])
    /\ (0 < rb ->
        map (@row_r R) out
        = filter (retained (core A RR)) (linspace 0 (rb * (999 / 1000)) n)
        /\ Forall (row_of_fields (core A RR)) out).
Proof.
  intros HA HR. unfold generate_eos_data.
  rewrite boundary_radius_cases by assumption. cbn [bind].
  set (rb := if Rltb (sq A) (sq RR) then rb_value A RR else 0).
  exists rb.
  change (f_leb rb (lit 0)) with (Rleb rb 0).
  destruct (Rleb rb 0) eqn:E.
  - apply Rleb_true in E. exists []. repeat split; try reflexivity; intros; lra.
  - apply Rleb_false in E.
    destruct (eos_rows_exact
                (enumerate (linspace (lit 0) (f_mul rb (dec 999 1000)) n)) HA HR [])
      as (out & Ho & Hr & Hf).
    exists out. rewrite enumerate_snd in Hr.
    repeat split; try assumption. intros; lra.
Qed.


Lemma rows_physical (A RR stop : R) (n : nat) (out : list (RadialPoint R)) :
  A <> 0 -> RR <> 0 -> 0 <= stop ->
  map (@row_r R) out = filter (retained (core A RR)) (linspace 0 stop n) ->
  Forall (row_of_fields (core A RR)) out ->
  Forall (physical_row A RR stop) out.
Proof.
  intros HA HR Hs Hr Hf. rewrite Forall_forall in *. intros row Hin.
  assert (Hg : In (row_r row) (filter (retained (core A RR)) (linspace 0 stop n))).
  { rewrite <- Hr. now apply in_map. }
  apply filter_In in Hg. destruct Hg as [Hg Hk].
  pose proof (linspace_bounds n Hs) as Hb. rewrite Forall_forall in Hb.
  specialize (Hb _ Hg).
  rewrite retained_exact in Hk by assumption.
  apply andb_true_iff in Hk. destruct Hk as [Hp Hd].
  apply Rleb_true in Hp. apply Rltb_true in Hd.
  destruct (Hf _ Hin) as (H1 & H2 & H3).
  rewrite pressure_exact in H1 by assumption.
  rewrite density_exact in H2 by assumption.
  injection H1 as H1. injection H2 as H2.
  rewrite pydiv_ok in H3 by (rewrite <- H2; lra). injection H3 as H3.
  unfold physical_row. rewrite H1, H2 in *. repeat split; solve [lra | auto].
Qed.

Lemma diff_nonpos (l : list R) :
  forallb (fun d => Rleb d 0) (diff l) = true <-> non_increasing l.
Proof.
  unfold non_increasing. induction l as [|a [|b l] IH].
  - split; [intros _ [|i] x y H; discriminate | reflexivity].
  - split; [|reflexivity]. intros _ [|[|i]] x y H1 H2; simpl in *; discriminate.
  - change (diff (a :: b :: l)) with (f_sub b a :: diff (b :: l)).
    cbn [forallb f_sub Exact]. rewrite andb_true_iff, IH, Rleb_true. split.
    + intros [Hab Hl] [|i] x y H1 H2.
      * simpl in H1, H2. injection H1 as <-. injection H2 as <-. lra.
      * apply (Hl i); assumption.
    + intros H. split.
      * specialize (H 0%nat a b eq_refl eq_refl). lra.
      * intros i x y H1 H2. apply (H (S i)); assumption.
Qed.

Lemma rows_monotone (A RR stop : R) (out : list (RadialPoint R)) :
  A <> 0 -> RR <> 0 ->
  Forall (physical_row A RR stop) out ->
  StronglySorted Rlt (map (@row_r R) out) ->
  non_increasing (map (@row_p R) out) /\ non_increasing (map (@row_rho R) out).
Proof.
  intros HA HR Hf Hs. rewrite <- !diff_nonpos.
  induction out as [|a [|b rest] IH]; [split; reflexivity .. |].
  inversion Hf as [|? ? Ha Hf']; subst.
  inversion Hs as [|? ? Hs' Hlt]; subst.
  destruct (IH Hf' Hs') as [IHp IHr].
  inversion Hf' as [|? ? Hb _]; subst.
  inversion Hlt as [|? ? Hab _]; subst.
  destruct Ha as ([Ha0 _] & Hap & Har & _).
  destruct Hb as (_ & Hbp & Hbr & _ & Hbpos & _).
  assert (Hin : row_r b * row_r b <= RR * RR).
  { rewrite Hbp in Hbpos. apply pressure_sign in Hbpos; [|assumption ..].
    assert (0 <= row_r b * row_r b) by nra. assert (0 <= A * A) by nra. lra. }
  assert (Hord : 0 <= row_r a <= row_r b) by lra.
  pose proof (pressure_decreasing HA HR Hord) as Hp.
  pose proof (density_decreasing HA HR Hord Hin) as Hd.
  cbn [map] in *.
  change (diff (row_p a :: row_p b :: map (@row_p R) rest))
    with (f_sub (row_p b) (row_p a) :: diff (row_p b :: map (@row_p R) rest)).
  change (diff (row_rho a :: row_rho b :: map (@row_rho R) rest))
    with (f_sub (row_rho b) (row_rho a) :: diff (row_rho b :: map (@row_rho R) rest)).
  cbn [forallb f_sub Exact]. rewrite IHp, IHr, !andb_true_r.
  split; apply Rleb_true; lra.
Qed.

Lemma rows_energy (A RR stop : R) (out : list (RadialPoint R)) :
  A <> 0 -> RR <> 0 ->
  Forall (physical_row A RR stop) out ->
  Forall (fun row => row_p row <= row_rho row
                     /\ 0 <= row_p_over_rho row <= 1) out.
Proof.
  intros HA HR Hf. eapply Forall_impl; [|exact Hf].
  intros row (_ & Hp & Hr & Hq & Hp0 & Hr0).
  assert (Hin : row_r row * row_r row <= RR * RR).
  { rewrite Hp in Hp0. apply pressure_sign in Hp0; [|assumption ..].
    assert (0 <= row_r row * row_r row) by nra. assert (0 <= A * A) by nra. lra. }
  pose proof (density_above_pressure HA HR Hin) as Hlt.
  rewrite <- Hp, <- Hr in Hlt.
  split; [lra|]. rewrite Hq. split.
  - apply Rmult_le_pos; [assumption | left; now apply Rinv_0_lt_compat].
  - apply Rmult_le_reg_r with (r := row_rho row); [assumption|].
    unfold Rdiv. rewrite Rmult_assoc, Rinv_l; lra.
Qed.

Lemma inside_boundary (A RR r : R) :
  0 < A -> A < RR -> 0 <= r <= rb_value A RR ->
  3 * (r * r) <= RR * RR - A * A /\ r * r <= RR * RR.
Proof.
  intros HA HR [H0 Hr].
  assert (HR0 : RR <> 0) by lra.
  pose proof (sq_lt_of_lt HA HR) as Hlt.
  pose proof (rb_square HR0 Hlt) as Hsq.
  assert (r * r <= rb_value A RR * rb_value A RR) by nra.
  assert (0 < A * A) by nra. assert (0 < RR * RR) by nra.
  split; lra.
Qed.

Lemma sample_retained (A RR r : R) :
  0 < A -> A < RR -> 0 <= r <= rb_value A RR ->
  retained (core A RR) r = true.
Proof.
  intros HA HR Hr.
  assert (HA0 : A <> 0) by lra. assert (HR0 : RR <> 0) by lra.
  destruct (inside_boundary HA HR Hr) as [H3 Hin].
  rewrite retained_exact by assumption. apply andb_true_iff. split.
  - apply Rleb_true. now apply pressure_sign.
  - apply Rltb_true. now apply density_positive.
Qed.

Lemma filter_all (T : Type) (f : T -> bool) (l : list T) :
  Forall (fun x => f x = true) l -> filter f l = l.
Proof.
  induction 1 as [|x l Hx _ IH]; simpl; [reflexivity|]. now rewrite Hx, IH.
Qed.

Lemma boundary_radius_valid (A RR : R) :
  0 < A -> A < RR -> boundary_radius (core A RR) = Ok (rb_value A RR).
Proof.
  intros HA HR. rewrite boundary_radius_cases by lra.
  pose proof (sq_lt_of_lt HA HR) as Hlt. apply Rltb_true in Hlt.
  now rewrite Hlt.
Qed.

(** with valid parameters no sample is discarded *)
Lemma generate_eos_data_valid (A RR : R) (n : nat) :
  0 < A -> A < RR ->
  exists out,
    generate_eos_data (core A RR) n = Ok out
    /\ map (@row_r R) out = linspace 0 (rb_value A RR * (999 / 1000)) n
    /\ Forall (physical_row A RR (rb_value A RR * (999 / 1000))) out.
Proof.
  intros HA HR.
  assert (HA0 : A <> 0) by lra. assert (HR0 : RR <> 0) by lra.
  destruct (generate_eos_data_exact n HA0 HR0) as (rb & out & Hb & Hg & _ & Hpos).
  rewrite boundary_radius_valid in Hb by assumption. injection Hb as <-.
  pose proof (rb_positive (A := A) (RR := RR)) as Hrb.
  specialize (Hrb ltac:(lra) (sq_lt_of_lt HA HR)).
  destruct (Hpos Hrb) as [Hr Hf].
  assert (Hstop : 0 <= rb_value A RR * (999 / 1000)) by lra.
  exists out. split; [assumption|]. split.
  - rewrite Hr. apply filter_all.
    eapply Forall_impl; [|apply (linspace_bounds n Hstop)].
    intros r Hr'. apply sample_retained; try assumption. simpl in Hr'. lra.
  - eapply rows_physical; eassumption.
Qed.

End ExactProfile.

(** ** Exact arithmetic: the consistency verifier *)

Section ExactVerifier.
Local Open Scope R_scope.

Lemma eos_errors_exact (A RR : R) (rs : list R) :
  A <> 0 -> RR <> 0 ->
  Forall (fun r => r * r <= RR * RR) rs ->
  forall errors,
    eos_errors (core A RR) rs errors = Ok (errors ++ repeat 0 (length rs)).
Proof.
  intros HA HR Hrs. induction Hrs as [|r rs Hr _ IH]; intros errors.
  - simpl. now rewrite app_nil_r.
  - cbn [eos_errors length repeat].
    rewrite pressure_exact, density_exact by assumption. cbn [bind].
    rewrite equation_of_state_exact, eos_identity by assumption. cbn [bind].
    pose proof (density_positive HA HR Hr) as Hd.
    change (f_ltb (lit 0) (density_value A RR r)) with (Rltb 0 (density_value A RR r)).
    apply Rltb_true in Hd. rewrite Hd. apply Rltb_true in Hd.
    rewrite pydiv_ok by lra. cbn [bind].
    rewrite IH, <- app_assoc. do 2 f_equal. cbn [app]. f_equal.
    unfold lit. simpl. rewrite Rminus_diag, Rabs_R0. unfold Rdiv. ring.
Qed.

Lemma fold_add_zeros (l : list R) (x : R) :
  Forall (eq 0) l -> fold_left f_add l x = x.
Proof.
  intros H. revert x. induction H as [|y l <- _ IH]; intros x; simpl; [reflexivity|].
  rewrite IH. ring.
Qed.

Lemma block_loop_zeros (n : nat) : forall (l : list R),
  (length l <= n)%nat -> Forall (eq 0) l -> block_loop 0 0 0 0 0 0 0 0 l = 0.
Proof.
  induction n as [|n IH]; intros l Hlen Hz.
  - destruct l; [|simpl in Hlen; lia]. simpl. ring.
  - destruct l as [|a0 [|a1 [|a2 [|a3 [|a4 [|a5 [|a6 [|a7 rest]]]]]]]];
      try (cbn [block_loop]; rewrite fold_add_zeros by assumption; simpl; ring).
    repeat match goal with H : Forall _ (_ :: _) |- _ => inversion H as [|? ? <- ?]; subst; clear H end.
    cbn [block_loop]. simpl f_add. replace (0 + 0) with 0 by ring.
    apply IH; [simpl in Hlen; lia | assumption].
Qed.

Lemma block_sum_zeros (l : list R) : Forall (eq 0) l -> block_sum l = 0.
Proof.
  intros Hz. unfold block_sum.
  destruct l as [|a0 [|a1 [|a2 [|a3 [|a4 [|a5 [|a6 [|a7 rest]]]]]]]];
    try (rewrite fold_add_zeros by assumption; reflexivity).
  repeat match goal with H : Forall _ (_ :: _) |- _ => inversion H as [|? ? <- ?]; subst; clear H end.
  now apply (block_loop_zeros (n := length rest)).
Qed.

Lemma pairwise_sum_zeros (fuel : nat) : forall (l : list R),
  Forall (eq 0) l -> pairwise_sum fuel l = 0.
Proof.
  induction fuel as [|fuel IH]; intros l Hz; cbn [pairwise_sum].
  - destruct (length l <=? 128)%nat; now apply block_sum_zeros.
  - destruct (length l <=? 128)%nat; [now apply block_sum_zeros|].
    set (n2 := (length l / 2 - (length l / 2) mod 8)%nat).
    rewrite <- (firstn_skipn n2 l) in Hz. apply Forall_app in Hz.
    destruct Hz as [H1 H2]. rewrite !IH by assumption. simpl. ring.
Qed.

Lemma np_sum_zeros (n : nat) : np_sum (repeat 0 n) = 0.
Proof.
  unfold np_sum. rewrite pairwise_sum_zeros.
  - unfold lit. simpl. ring.
  - apply Forall_forall. intros x Hx. symmetry. eapply repeat_spec; eassumption.
Qed.

Lemma np_mean_zeros (n : nat) : np_mean (repeat 0 n) = 0.
Proof. unfold np_mean. rewrite np_sum_zeros. simpl. unfold Rdiv. ring. Qed.

Lemma np_max_zeros (n : nat) : np_max (repeat 0 (S n)) = Some 0.
Proof.
  simpl. f_equal. induction n as [|n IH]; simpl; [reflexivity|].
  rewrite (f_max_exact 0 0).
  assert (E : Rleb 0 0 = true) by (apply Rleb_true; lra).
  now rewrite E.
Qed.

(** in exact arithmetic the two density formulas agree at every sample *)
Lemma verify_equation_of_state_exact (A RR : R) (n : nat) :
  0 < A -> A < RR ->
  verify_equation_of_state (core A RR) (S n)
  = Ok (Some {| mean_error := Some 0; max_error := Some 0 |}).
Proof.
  intros HA HR.
  assert (HA0 : A <> 0) by lra. assert (HR0 : RR <> 0) by lra.
  unfold verify_equation_of_state.
  rewrite boundary_radius_valid by assumption. cbn [bind].
  pose proof (rb_positive (A := A) (RR := RR)) as Hrb.
  specialize (Hrb ltac:(lra) (sq_lt_of_lt HA HR)).
  change (f_leb (rb_value A RR) (lit 0)) with (Rleb (rb_value A RR) 0).
  assert (E : Rleb (rb_value A RR) 0 = false) by (apply Rleb_false; lra).
  rewrite E.
  change (linspace (lit 0) (f_mul (rb_value A RR) (dec 99 100)) (S n))
    with (linspace 0 (rb_value A RR * (99 / 100)) (S n)).
  rewrite eos_errors_exact; try assumption.
  - cbn [bind app]. rewrite linspace_length.
    rewrite np_max_zeros. cbn [repeat]. do 3 f_equal.
    change (0 :: repeat 0 n) with (repeat 0 (S n)). now rewrite np_mean_zeros.
  - assert (Hstop : 0 <= rb_value A RR * (99 / 100)) by lra.
    eapply Forall_impl; [|apply (linspace_bounds (S n) Hstop)].
    intros r Hr. simpl in Hr.
    apply (inside_boundary HA HR). lra.
Qed.

End ExactVerifier.

(** ** Exact arithmetic: construction, analysis and the drivers *)

Section ExactDrivers.
Local Open Scope R_scope.

Lemma init_raises (A RR : R) :
  RR <= A -> TolmanIVCore_init A RR = Raise ValueError.
Proof.
  intros H. unfold TolmanIVCore_init. simpl.
  apply Rleb_true in H. now rewrite H.
Qed.

Lemma init_returns (A RR : R) :
  A < RR -> TolmanIVCore_init A RR = Ok (core A RR).
Proof.
  intros H. unfold TolmanIVCore_init. simpl.
  apply Rleb_false in H. now rewrite H.
Qed.

Lemma rho_c_positive (A RR : R) : A <> 0 -> RR <> 0 -> 0 < rho_c_value A RR.
Proof.
  intros HA HR. unfold rho_c_value.
  pose proof (sq_pos HA). pose proof (sq_pos HR). pose proof eight_pi_pos.
  apply Rdiv_lt_0_compat; [|assumption].
  assert (0 < 3 / sq A) by (apply Rdiv_lt_0_compat; lra).
  assert (0 < 3 / sq RR) by (apply Rdiv_lt_0_compat; lra).
  lra.
Qed.

Lemma check_validity_conditions_exact (A RR : R) :
  A <> 0 ->
  check_validity_conditions (core A RR)
  = Ok {| cond_R_gt_A := Rltb A RR;
          cond_pc_gt_0 := Rltb RR (sqrt 3 * A);
          cond_ratio := RR / A;
          cond_sqrt3_A := sqrt 3 * A |}.
Proof.
  intros HA. unfold check_validity_conditions, core, lit. simpl.
  now rewrite pydiv_ok by assumption.
Qed.

Lemma analyze_solution_exact (A RR : R) :
  0 < A -> A < RR ->
  analyze_solution (core A RR)
  = Ok {| an_valid := Rltb A RR && Rltb RR (sqrt 3 * A);
          an_rho_c := rho_c_value A RR;
          an_p_c := p_c_value A RR;
          an_rb := rb_value A RR |}.
Proof.
  intros HA HR.
  assert (HA0 : A <> 0) by lra. assert (HR0 : RR <> 0) by lra.
  unfold analyze_solution.
  rewrite check_validity_conditions_exact by assumption.
  rewrite central_values_exact, boundary_radius_valid by assumption.
  change (self_R (core A RR)) with RR. change (self_A (core A RR)) with A.
  rewrite pydiv_ok by assumption. cbn [bind].
  pose proof (rho_c_positive HA0 HR0) as Hc.
  change (f_ltb (lit 0) (rho_c_value A RR)) with (Rltb 0 (rho_c_value A RR)).
  apply Rltb_true in Hc. rewrite Hc. apply Rltb_true in Hc.
  rewrite pydiv_ok by lra. cbn [bind].
  destruct (f_ltb (lit 0) (rb_value A RR)).
  - rewrite density_exact, pressure_exact by assumption. reflexivity.
  - reflexivity.
Qed.

Lemma sqrt3_below_2 : sqrt 3 < 2.
Proof.
  replace 2 with (sqrt 4).
  - apply sqrt_lt_1; lra.
  - replace 4 with (2 * 2) by ring. apply sqrt_square. lra.
Qed.

Lemma sqrt3_above_3_2 : 3 / 2 < sqrt 3.
Proof.
  replace (3 / 2) with (sqrt (9 / 4)).
  - apply sqrt_lt_1; lra.
  - replace (9 / 4) with (3 / 2 * (3 / 2)) by field. apply sqrt_square. lra.
Qed.

(** the driver stops at the validity gate when [R >= sqrt(3) * A] *)
Lemma process_single_case_gate (A RR : R) (n : nat) :
  0 < A -> A < RR -> sqrt 3 * A <= RR ->
  process_single_case A RR n = None.
Proof.
  intros HA HR Hv. unfold process_single_case.
  rewrite init_returns by assumption. cbn [bind].
  rewrite analyze_solution_exact by assumption. cbn [bind an_valid].
  apply Rltb_false in Hv. rewrite Hv, andb_false_r. reflexivity.
Qed.

Lemma process_single_case_config_error (A RR : R) (n : nat) :
  RR <= A -> process_single_case A RR n = None.
Proof.
  intros H. unfold process_single_case. now rewrite init_raises.
Qed.

Lemma analyze_tolman_iv_config_error (A RR : R) (n : nat) :
  RR <= A -> analyze_tolman_iv A RR n = Ok None.
Proof.
  intros H. unfold analyze_tolman_iv. now rewrite init_raises.
Qed.

Lemma agree_digits_refl (k : Z) (x : R) : agree_digits k x x = true.
Proof.
  unfold agree_digits, dec, lit. simpl. apply Rleb_true.
  rewrite Rminus_diag, Rabs_R0.
  apply Rmult_le_pos; [|apply Rabs_pos].
  destruct (Z_lt_le_dec k 0) as [Hneg|Hnn].
  - rewrite Z.pow_neg_r by assumption. unfold Rdiv. rewrite Rinv_0. lra.
  - left. apply Rdiv_lt_0_compat; [lra|]. apply IZR_lt.
    apply Z.pow_pos_nonneg; lia.
Qed.

End ExactDrivers.

(** ** Any arithmetic: what the loops keep *)

Section AnyArithmetic.
Context {F : Type} {PF : PyFloat F}.

Lemma bind_ok (T U : Type) (m : result T) (k : T -> result U) (u : U) :
  bind m k = Ok u -> exists t, m = Ok t /\ k t = Ok u.
Proof. destruct m as [t|e]; simpl; [eauto | discriminate]. Qed.

Lemma set_last_length (y : list F) (stop : F) :
  y <> [] -> length (set_last y stop) = length y.
Proof.
  intros Hy. unfold set_last. rewrite length_app. simpl.
  destruct (exists_last Hy) as (l & a & ->).
  rewrite removelast_last, length_app. reflexivity.
Qed.

Lemma linspace_length_any (start stop : F) (n : nat) :
  length (linspace start stop n) = n.
Proof.
  unfold linspace.
  set (y0 := map (fun i => lit (Z.of_nat i)) (seq 0 n)).
  assert (H0 : length y0 = n) by (unfold y0; now rewrite length_map, length_seq).
  match goal with
  | |- length (if _ then set_last ?y _ else _) = _ =>
      assert (Hy : length y = n)
  end.
  { rewrite length_map.
    destruct (0 <? n - 1)%nat; [destruct (f_eqb _ _)|]; now rewrite length_map. }
  destruct (1 <? n)%nat eqn:E; [|assumption].
  rewrite set_last_length; [assumption|].
  apply Nat.ltb_lt in E. intros Hnil. rewrite Hnil in Hy. simpl in Hy. lia.
Qed.

(** the index test of [sound_speed] is redundant once rows exist *)
Lemma sound_speed_index (i : nat) (data : list (RadialPoint F)) (p rho : F) :
  (0 < i)%nat \/ data = [] ->
  sound_speed i data p rho = Complete.sound_speed data p rho.
Proof.
  intros [Hi | ->]; [|reflexivity].
  unfold sound_speed, Complete.sound_speed.
  destruct (rev data); [reflexivity|].
  apply Nat.ltb_lt in Hi. now rewrite Hi.
Qed.

Lemma eos_rows_index (self : TolmanIVCore F) (l : list F) :
  forall a data,
    (0 < a)%nat \/ data = [] ->
    eos_rows self (combine (seq a (length l)) l) data
    = Complete.eos_rows self l data.
Proof.
  induction l as [|r l IH]; intros a data Ha; [reflexivity|].
  cbn [length seq combine eos_rows Complete.eos_rows].
  destruct (pressure self r) as [p|e]; [|reflexivity]. cbn [bind].
  destruct (density self r) as [rho|e]; [|reflexivity]. cbn [bind].
  destruct (f_leb (lit 0) p && f_ltb (lit 0) rho).
  - rewrite (sound_speed_index _ _ Ha).
    destruct (Complete.sound_speed data p rho) as [c|e]; [|reflexivity]. cbn [bind].
    destruct (if f_ltb (lit 0) rho then pydiv p rho else Ok (lit 0)) as [q|e];
      [|reflexivity].
    cbn [bind]. apply IH. left. lia.
  - apply IH. destruct Ha as [Ha | ->].
    + left. lia.
    + right. reflexivity.
Qed.

Lemma eos_rows_any (self : TolmanIVCore F) (irs : list (nat * F)) :
  forall data out,
    eos_rows self irs data = Ok out ->
    exists new,
      out = data ++ new
      /\ map (@row_r F) new = filter (retained self) (map snd irs)
      /\ Forall (fun row => row_of_fields self row
                            /\ f_leb (lit 0) (row_p row) = true
                            /\ f_ltb (lit 0) (row_rho row) = true) new.
Proof.
  induction irs as [|[i r] rest IH]; intros data out H.
  - injection H as <-. exists []. rewrite app_nil_r. repeat split. constructor.
  - cbn [eos_rows map snd filter] in *. unfold retained at 1.
    destruct (pressure self r) as [p|e] eqn:Ep; [|discriminate]. cbn [bind] in H.
    destruct (density self r) as [rho|e] eqn:Ed; [|discriminate]. cbn [bind] in H.
    destruct (f_leb (lit 0) p) eqn:Hp; [destruct (f_ltb (lit 0) rho) eqn:Hd|];
      cbn [andb] in *; try (apply IH; assumption).
    apply bind_ok in H. destruct H as (c & _ & H).
    apply bind_ok in H. destruct H as (q & Hq & H).
    destruct (IH _ _ H) as (new & -> & Hr & Hf).
    eexists (_ :: new). rewrite <- app_assoc. split; [reflexivity|].
    split; [cbn [map row_r]; now rewrite Hr|].
    constructor; [|assumption].
    unfold row_of_fields. cbn [row_r row_p row_rho row_p_over_rho]. auto.
Qed.

Lemma enumerate_snd_any (l : list F) : map snd (enumerate l) = l.
Proof.
  unfold enumerate. generalize 0%nat.
  induction l as [|x l IH]; intros a; simpl; [reflexivity|]. now rewrite IH.
Qed.

Lemma data_rows_of_eos_rows (self : TolmanIVCore F) (l : list F) :
  forall data out,
    Complete.eos_rows self l data = Ok out ->
    Simple.data_rows self l (map drop_cs2 data) = Ok (map drop_cs2 out).
Proof.
  induction l as [|r l IH]; intros data out H.
  - injection H as <-. reflexivity.
  - cbn [Complete.eos_rows Simple.data_rows] in *.
    destruct (pressure self r) as [p|e]; [|discriminate]. cbn [bind] in *.
    destruct (density self r) as [rho|e]; [|discriminate]. cbn [bind] in *.
    destruct (f_leb (lit 0) p) eqn:Hp; [destruct (f_ltb (lit 0) rho) eqn:Hd|];
      cbn [andb] in *; try (apply IH; assumption).
    apply bind_ok in H. destruct H as (c & _ & H).
    apply bind_ok in H. destruct H as (q & Hq & H).
    rewrite Hq. cbn [bind].
    apply IH in H. rewrite map_app in H. exact H.
Qed.
End AnyArithmetic.

Section AnyArithmeticDrivers.
Context {F : Type} {PF : PyFloat F}.

Lemma study_loop_spec (n : nat) (sets : list (F * F)) :
  forall res s f,
    study_loop sets n res s f
    = (res ++ kept_cases n sets,
       (s + length (kept_cases n sets))%nat,
       (f + (length sets - length (kept_cases n sets)))%nat).
Proof.
  assert (Hle : forall l, (length (kept_cases n l) <= length l)%nat).
  { induction l as [|[A R] l IH]; simpl; [lia|].
    destruct (process_single_case A R n); simpl; rewrite ?length_app; simpl; lia. }
  induction sets as [|[A R] rest IH]; intros res s f.
  - simpl. rewrite app_nil_r. apply f_equal2; [apply f_equal2|]; try reflexivity; lia.
  - cbn [study_loop kept_cases flat_map fst snd].
    fold (kept_cases n rest). specialize (Hle rest).
    destruct (process_single_case A R n) as [result|]; rewrite IH.
    + rewrite <- app_assoc. cbn [app length]. apply f_equal2; [apply f_equal2|]; try reflexivity; lia.
    + cbn [app length]. apply f_equal2; [apply f_equal2|]; try reflexivity; lia.
Qed.

Lemma linspace_no_points (start stop : F) : linspace start stop 0 = [].
Proof. reflexivity. Qed.

Lemma generate_eos_data_no_points (self : TolmanIVCore F) (out : list (RadialPoint F)) :
  generate_eos_data self 0 = Ok out -> out = [].
Proof.
  unfold generate_eos_data. intros H.
  apply bind_ok in H. destruct H as (rb & _ & H).
  destruct (f_leb rb (lit 0)); [now injection H|].
  rewrite linspace_no_points in H. now injection H.
Qed.

Lemma process_single_case_no_points (A R : F) : process_single_case A R 0 = None.
Proof.
  unfold process_single_case.
  destruct (TolmanIVCore_init A R) as [self|e]; [|reflexivity]. cbn [bind].
  destruct (analyze_solution self) as [a|e]; [|reflexivity]. cbn [bind].
  destruct (negb (an_valid a)); [reflexivity|].
  destruct (generate_eos_data self 0) as [out|e] eqn:E; [|reflexivity].
  apply generate_eos_data_no_points in E. subst out. reflexivity.
Qed.
End AnyArithmeticDrivers.

(** ** Exact arithmetic: sound speed, end points and the whole pipeline *)

Section ExactMore.
Local Open Scope R_scope.

Lemma pydiv_inv (x y c : R) : pydiv x y = Ok c -> y <> 0 /\ c = x / y.
Proof.
  intros H. destruct (Req_dec_T y 0) as [->|Hy].
  - rewrite pydiv_zero in H. discriminate.
  - rewrite pydiv_ok in H by assumption. injection H as <-. now split.
Qed.

Lemma sound_speed_step (data : list (RadialPoint R)) (p rho c d1 d2 : R) :
  Complete.sound_speed data p rho = Ok c ->
  cs2_step (hd_error (rev data))
    {| row_r := d1; row_rho := rho; row_p := p; row_p_over_rho := d2; row_cs2 := c |}.
Proof.
  unfold Complete.sound_speed, cs2_step.
  destruct (rev data) as [|prev ?]; cbn [hd_error row_cs2 row_p row_rho].
  - intros H. now injection H as <-.
  - change (f_ltb (dec 1 10000000000) (f_abs (f_sub rho (row_rho prev))))
      with (Rltb (1 / 10000000000) (Rabs (rho - row_rho prev))).
    destruct (Rltb _ _); intros H.
    + apply pydiv_inv in H. apply H.
    + now injection H as <-.
Qed.

Lemma eos_rows_cs2 (A RR : R) (r_values : list R) :
  forall data out,
    Complete.eos_rows (core A RR) r_values data = Ok out ->
    exists new, out = data ++ new /\ cs2_chain (hd_error (rev data)) new.
Proof.
  induction r_values as [|r rest IH]; intros data out H.
  - injection H as <-. exists []. now rewrite app_nil_r.
  - cbn [Complete.eos_rows] in H.
    apply bind_ok in H. destruct H as (p & _ & H).
    apply bind_ok in H. destruct H as (rho & _ & H).
    destruct (f_leb (lit 0) p && f_ltb (lit 0) rho); [|now apply IH].
    apply bind_ok in H. destruct H as (c & Hc & H).
    apply bind_ok in H. destruct H as (q & _ & H).
    destruct (IH _ _ H) as (new & -> & Hn).
    rewrite rev_app_distr in Hn. cbn [rev app hd_error] in Hn.
    eexists (_ :: new). rewrite <- app_assoc. split; [reflexivity|].
    split; [|exact Hn]. now apply sound_speed_step.
Qed.

(** slope of the equation of state between two pressures below [pc] *)
Lemma eos_slope (rc pc p1 p2 : R) :
  0 < pc -> 4 * pc < rc + pc ->
  0 <= p1 <= pc -> 0 <= p2 <= pc ->
  let rho p := rc - 5 * (pc - p) + 8 * ((pc - p) * (pc - p)) / (rc + pc) in
  rho p2 - rho p1 <> 0 ->
  1 / 5 <= (p2 - p1) / (rho p2 - rho p1) < 1.
Proof.
  intros Hpc Hs H1 H2 rho Hd.
  set (s := rc + pc) in *. assert (Hs0 : 0 < s) by lra.
  set (k := 5 - 8 * (2 * pc - p1 - p2) / s).
  assert (Hk : rho p2 - rho p1 = (p2 - p1) * k).
  { unfold rho, k. fold s. field. lra. }
  assert (Hq : 0 <= 8 * (2 * pc - p1 - p2) / s < 4).
  { split.
    - apply Rmult_le_pos; [lra | left; now apply Rinv_0_lt_compat].
    - apply Rmult_lt_reg_r with (r := s); [assumption|].
      unfold Rdiv. rewrite Rmult_assoc, Rinv_l; lra. }
  assert (Hk1 : 1 < k <= 5) by (unfold k; lra).
  rewrite Hk in *.
  assert (Hp : p2 - p1 <> 0) by (intros E; apply Hd; rewrite E; ring).
  replace ((p2 - p1) / ((p2 - p1) * k)) with (/ k) by (field; lra).
  split.
  - replace (1 / 5) with (/ 5) by lra. apply Rinv_le_contravar; lra.
  - rewrite <- Rinv_1. apply Rinv_lt_contravar; lra.
Qed.

Lemma central_ratio_below_third (A RR : R) :
  A <> 0 -> RR <> 0 -> 4 * p_c_value A RR < rho_c_value A RR + p_c_value A RR.
Proof.
  intros HA HR. unfold rho_c_value, p_c_value.
  pose proof (sq_pos HA). pose proof (sq_pos HR). pose proof eight_pi_pos.
  assert (0 < 6 / sq RR / eight_pi).
  { apply Rdiv_lt_0_compat; [apply Rdiv_lt_0_compat|]; lra. }
  replace ((3 / sq A + 3 / sq RR) / eight_pi + (1 / sq A - 1 / sq RR) / eight_pi)
    with (4 * ((1 / sq A - 1 / sq RR) / eight_pi) + 6 / sq RR / eight_pi)
    by (field; lra).
  lra.
Qed.

Lemma pressure_below_center (A RR r : R) :
  A <> 0 -> RR <> 0 -> 0 <= r -> pressure_value A RR r <= p_c_value A RR.
Proof.
  intros HA HR Hr. rewrite <- center_pressure by assumption.
  apply pressure_decreasing; try assumption. lra.
Qed.

Lemma rows_sound_speed (A RR stop : R) (out : list (RadialPoint R)) :
  0 < A -> A < RR ->
  Forall (physical_row A RR stop) out ->
  forall prev,
    match prev with Some q => physical_row A RR stop q | None => True end ->
    cs2_chain prev out ->
    Forall (fun row => row_cs2 row = 0 \/ 1 / 5 <= row_cs2 row < 1) out.
Proof.
  intros HA HR Hf.
  assert (HA0 : A <> 0) by lra. assert (HR0 : RR <> 0) by lra.
  induction Hf as [|row rest Hrow _ IH]; intros prev Hprev Hc; [constructor|].
  destruct Hc as [Hstep Hc]. constructor; [|now apply (IH (Some row))].
  destruct prev as [q|]; [|now left]. cbn [cs2_step] in Hstep.
  destruct (Rltb (1 / 10000000000) (Rabs (row_rho row - row_rho q))) eqn:Eg;
    [|now left].
  apply Rltb_true in Eg.
  assert (Hd : row_rho row - row_rho q <> 0).
  { intros E0. rewrite E0, Rabs_R0 in Eg. lra. }
  right. rewrite Hstep.
  destruct Hrow as ([Hr0 _] & Hp & Hrho & _ & Hp0 & _).
  destruct Hprev as ([Hq0 _] & Hqp & Hqrho & _ & Hqp0 & _).
  pose proof (pressure_below_center HA0 HR0 Hr0) as Hle.
  pose proof (pressure_below_center HA0 HR0 Hq0) as Hqle.
  rewrite <- Hp in Hle. rewrite <- Hqp in Hqle.
  assert (E1 : row_rho row = eos_value A RR (row_p row)).
  { rewrite Hrho, Hp. symmetry. now apply eos_identity. }
  assert (E2 : row_rho q = eos_value A RR (row_p q)).
  { rewrite Hqrho, Hqp. symmetry. now apply eos_identity. }
  rewrite E1, E2 in *. unfold eos_value, sq in *. simpl in *.
  apply eos_slope; try assumption; try lra.
  - now apply central_pressure_positive.
  - now apply central_ratio_below_third.
Qed.

Lemma generate_cs2_chain (A RR : R) (n : nat) (out : list (RadialPoint R)) :
  0 < A -> A < RR ->
  generate_eos_data (core A RR) n = Ok out -> cs2_chain None out.
Proof.
  intros HA HR H. unfold generate_eos_data in H.
  rewrite boundary_radius_valid in H by assumption. cbn [bind] in H.
  pose proof (rb_positive (A := A) (RR := RR)) as Hrb.
  specialize (Hrb ltac:(lra) (sq_lt_of_lt HA HR)).
  change (f_leb (rb_value A RR) (lit 0)) with (Rleb (rb_value A RR) 0) in H.
  assert (E : Rleb (rb_value A RR) 0 = false) by (apply Rleb_false; lra).
  rewrite E in H. unfold enumerate in H.
  rewrite eos_rows_index in H by now right.
  apply eos_rows_cs2 in H.
  destruct H as (new & -> & Hc). exact Hc.
Qed.

Lemma pressure_positive_inside (A RR r : R) :
  0 < A -> A < RR -> 0 <= r < rb_value A RR -> 0 < pressure_value A RR r.
Proof.
  intros HA HR [H0 Hr].
  assert (HA0 : A <> 0) by lra. assert (HR0 : RR <> 0) by lra.
  pose proof (rb_square HR0 (sq_lt_of_lt HA HR)) as Hsq.
  assert (r * r < rb_value A RR * rb_value A RR) by nra.
  rewrite pressure_fraction by assumption.
  assert (0 < A * A) by nra. assert (0 < RR * RR) by nra.
  assert (0 <= r * r) by nra.
  apply Rdiv_lt_0_compat; [lra|].
  apply fraction_denominator_pos; lra.
Qed.

Lemma linspace_first (stop : R) (n : nat) :
  exists rest, linspace 0 stop (S n) = 0 :: rest.
Proof.
  rewrite linspace_exact. cbn [seq map]. eexists. f_equal.
  simpl. ring.
Qed.

Lemma linspace_last (stop : R) (n : nat) :
  last (linspace 0 stop (S (S n))) 0 = stop.
Proof.
  rewrite linspace_exact, (seq_S (S n) 0), map_app. cbn [map].
  rewrite last_last. cbn [Nat.add].
  replace (S (S n) - 1)%nat with (S n) by lia.
  field. apply not_0_INR. lia.
Qed.

Lemma rows_checks (A RR stop : R) (out : list (RadialPoint R)) :
  A <> 0 -> RR <> 0 ->
  Forall (physical_row A RR stop) out ->
  StronglySorted Rlt (map (@row_r R) out) ->
  check_physical_conditions out
  = {| energy_condition := true;
       positive_pressure := true;
       positive_density := true;
       causality := true;
       max_p_over_rho := np_max (map (@row_p_over_rho R) out);
       pressure_monotonic := true;
       density_monotonic := true |}.
Proof.
  intros HA HR Hf Hs.
  pose proof (rows_energy HA HR Hf) as He.
  destruct (rows_monotone HA HR Hf Hs) as [Hp Hd].
  apply diff_nonpos in Hp. apply diff_nonpos in Hd.
  unfold check_physical_conditions. rewrite !dropna_exact.
  change (forallb (fun d => f_leb d (lit 0)) (diff (map (@row_p R) out)))
    with (forallb (fun d => Rleb d 0) (diff (map (@row_p R) out))).
  change (forallb (fun d => f_leb d (lit 0)) (diff (map (@row_rho R) out)))
    with (forallb (fun d => Rleb d 0) (diff (map (@row_rho R) out))).
  rewrite Hp, Hd.
  rewrite Forall_forall in He, Hf.
  assert (E1 : forallb (fun row => f_leb (row_p row) (row_rho row)) out = true).
  { apply forallb_forall. intros row Hin. apply Rleb_true. now apply He. }
  assert (E2 : forallb (fun row => f_leb (lit 0) (row_p row)) out = true).
  { apply forallb_forall. intros row Hin. apply Rleb_true.
    now destruct (Hf row Hin) as (_ & _ & _ & _ & ? & _). }
  assert (E3 : forallb (fun row => f_ltb (lit 0) (row_rho row)) out = true).
  { apply forallb_forall. intros row Hin. apply Rltb_true.
    now destruct (Hf row Hin) as (_ & _ & _ & _ & _ & ?). }
  assert (E4 : forallb (fun row => f_leb (row_p_over_rho row) (lit 1)) out = true).
  { apply forallb_forall. intros row Hin. apply Rleb_true. now apply He. }
  now rewrite E1, E2, E3, E4.
Qed.

Lemma process_single_case_valid (A RR : R) (n : nat) :
  0 < A -> A < RR -> RR < sqrt 3 * A ->
  exists out,
    generate_eos_data (core A RR) (S n) = Ok out
    /\ length out = S n
    /\ check_physical_conditions out
       = {| energy_condition := true;
            positive_pressure := true;
            positive_density := true;
            causality := true;
            max_p_over_rho := np_max (map (@row_p_over_rho R) out);
            pressure_monotonic := true;
            density_monotonic := true |}
    /\ process_single_case A RR (S n)
       = Some {| cs_A := A;
                 cs_R := RR;
                 cs_data_points := S n;
                 cs_file := out;
                 cs_central_pressure := p_c_value A RR;
                 cs_central_density := rho_c_value A RR;
                 cs_boundary_radius := rb_value A RR;
                 cs_physical_checks := check_physical_conditions out;
                 cs_eos_error := Some 0 |}.
Proof.
  intros HA HR Hv.
  assert (HA0 : A <> 0) by lra. assert (HR0 : RR <> 0) by lra.
  destruct (generate_eos_data_valid (S n) HA HR) as (out & Hg & Hr & Hf).
  assert (Hlen : length out = S n).
  { now rewrite <- (length_map (@row_r R)), Hr, linspace_length. }
  pose proof (rb_positive (A := A) (RR := RR)) as Hrb.
  specialize (Hrb ltac:(lra) (sq_lt_of_lt HA HR)).
  assert (Hs : StronglySorted Rlt (map (@row_r R) out)).
  { rewrite Hr. apply linspace_sorted. lra. }
  exists out. split; [assumption|]. split; [assumption|].
  split; [now apply (rows_checks HA0 HR0 Hf Hs)|].
  unfold process_single_case.
  rewrite init_returns by assumption. cbn [bind].
  rewrite analyze_solution_exact by assumption. cbn [bind an_valid].
  assert (E1 : Rltb A RR = true) by now apply Rltb_true.
  assert (E2 : Rltb RR (sqrt 3 * A) = true) by now apply Rltb_true.
  rewrite E1, E2. cbn [andb negb].
  rewrite Hg. cbn [bind]. rewrite Hlen. cbn [Nat.eqb].
  rewrite (verify_equation_of_state_exact 19 HA HR). cbn [bind mean_error max_error].
  reflexivity.
Qed.

Lemma sq_zero : sq (0 : R) = 0.
Proof. unfold sq. simpl. ring. Qed.

Lemma pressure_raises (A RR r : R) :
  A = 0 \/ RR = 0 -> pressure (core A RR) r = Raise ZeroDivisionError.
Proof.
  intros H. unfold pressure, core. cbn [self_A self_R].
  destruct (Req_dec_T A 0) as [->|HA].
  - now rewrite sq_zero, pydiv_zero.
  - destruct H as [H| ->]; [contradiction|].
    rewrite pydiv_ok by now apply sq_neq. cbn [bind].
    now rewrite sq_zero, pydiv_zero.
Qed.

Lemma density_raises (A RR r : R) :
  A = 0 \/ RR = 0 -> density (core A RR) r = Raise ZeroDivisionError.
Proof.
  intros H. unfold density, core. cbn [self_A self_R].
  destruct (Req_dec_T A 0) as [->|HA].
  - now rewrite sq_zero, pydiv_zero.
  - destruct H as [H| ->]; [contradiction|].
    rewrite pydiv_ok by now apply sq_neq. cbn [bind].
    now rewrite sq_zero, pydiv_zero.
Qed.

Lemma central_values_raises (A RR : R) :
  A = 0 \/ RR = 0 -> central_values (core A RR) = Raise ZeroDivisionError.
Proof.
  intros H. unfold central_values, core. cbn [self_A self_R].
  destruct (Req_dec_T A 0) as [->|HA].
  - now rewrite sq_zero, pydiv_zero.
  - destruct H as [H| ->]; [contradiction|].
    rewrite pydiv_ok by now apply sq_neq. cbn [bind].
    now rewrite sq_zero, pydiv_zero.
Qed.

Lemma analyze_solution_general (A RR : R) :
  A <> 0 -> RR <> 0 ->
  analyze_solution (core A RR)
  = Ok {| an_valid := Rltb A RR && Rltb RR (sqrt 3 * A);
          an_rho_c := rho_c_value A RR;
          an_p_c := p_c_value A RR;
          an_rb := if Rltb (sq A) (sq RR) then rb_value A RR else 0 |}.
Proof.
  intros HA0 HR0.
  unfold analyze_solution.
  rewrite check_validity_conditions_exact by assumption.
  rewrite central_values_exact, boundary_radius_cases by assumption.
  change (self_R (core A RR)) with RR. change (self_A (core A RR)) with A.
  rewrite pydiv_ok by assumption. cbn [bind].
  pose proof (rho_c_positive HA0 HR0) as Hc.
  change (f_ltb (lit 0) (rho_c_value A RR)) with (Rltb 0 (rho_c_value A RR)).
  apply Rltb_true in Hc. rewrite Hc. apply Rltb_true in Hc.
  rewrite pydiv_ok by lra. cbn [bind].
  destruct (f_ltb (lit 0) _).
  - rewrite density_exact, pressure_exact by assumption. reflexivity.
  - reflexivity.
Qed.

Lemma analyze_solution_raises (RR : R) :
  analyze_solution (core 0 RR) = Raise ZeroDivisionError.
Proof.
  unfold analyze_solution. change (self_A (core 0 RR)) with 0.
  now rewrite pydiv_zero.
Qed.

Lemma boundary_radius_A0 (RR : R) :
  RR <> 0 -> boundary_radius (core 0 RR) = Ok (RR / sqrt 3).
Proof.
  intros HR. rewrite boundary_radius_cases by assumption.
  pose proof (sq_pos HR) as Hp. rewrite sq_zero.
  apply Rltb_true in Hp. rewrite Hp. unfold rb_value.
  rewrite sq_zero. unfold Rdiv at 2. rewrite Rmult_0_l, Rminus_0_r, sqrt_1.
  f_equal. ring.
Qed.

Lemma generate_eos_data_A0 (RR : R) (n : nat) :
  0 < RR -> generate_eos_data (core 0 RR) (S n) = Raise ZeroDivisionError.
Proof.
  intros HR. unfold generate_eos_data.
  rewrite boundary_radius_A0 by lra. cbn [bind].
  pose proof sqrt3_pos.
  assert (Hrb : 0 < RR / sqrt 3) by now apply Rdiv_lt_0_compat.
  change (f_leb (RR / sqrt 3) (lit 0)) with (Rleb (RR / sqrt 3) 0).
  assert (E : Rleb (RR / sqrt 3) 0 = false) by (apply Rleb_false; lra).
  rewrite E.
  change (linspace (lit 0) (f_mul (RR / sqrt 3) (dec 999 1000)) (S n))
    with (linspace 0 (RR / sqrt 3 * (999 / 1000)) (S n)).
  destruct (linspace_first (RR / sqrt 3 * (999 / 1000)) n) as [rest ->].
  unfold enumerate. cbn [length seq combine eos_rows].
  now rewrite pressure_raises by now left.
Qed.
Lemma improved_pressure_exact (A RR r : R) :
  A <> 0 -> RR <> 0 ->
  Improved.pressure (core A RR) r = Ok (improved_pressure_value A RR r).
Proof.
  intros HA HR.
  destruct (field_side_conditions r HA HR) as (? & ? & ? & ? & ?).
  unfold Improved.pressure, improved_pressure_value, term1_value, term2_value, core.
  exact_norm. run_divisions. reflexivity.
Qed.

Lemma improved_density_exact (A RR r : R) :
  A <> 0 -> RR <> 0 ->
  Improved.density (core A RR) r = Ok (improved_density_value A RR r).
Proof.
  intros HA HR.
  destruct (field_side_conditions r HA HR) as (? & ? & ? & ? & ?).
  unfold Improved.density, improved_density_value, term1_value, core.
  exact_norm. run_divisions. reflexivity.
Qed.

Lemma improved_center_pressure (A RR : R) :
  A <> 0 -> RR <> 0 ->
  improved_pressure_value A RR 0
  = (3 * (A * A) - RR * RR) / (A * A * (RR * RR) * (8 * PI)).
Proof.
  intros HA HR. unfold improved_pressure_value, term1_value, term2_value.
  exact_norm. pose proof PI_RGT_0. field. repeat split; try lra; nra.
Qed.

Lemma improved_center_sign (A RR : R) :
  A <> 0 -> RR <> 0 ->
  (0 < improved_pressure_value A RR 0 <-> RR * RR < 3 * (A * A)).
Proof.
  intros HA HR. rewrite improved_center_pressure by assumption.
  pose proof PI_RGT_0.
  assert (0 < A * A) by nra. assert (0 < RR * RR) by nra.
  assert (Hd : 0 < A * A * (RR * RR) * (8 * PI)).
  { apply Rmult_lt_0_compat; [apply Rmult_lt_0_compat|]; lra. }
  split; intros Hp.
  - destruct (Rlt_dec (RR * RR) (3 * (A * A))) as [|Hn]; [assumption|].
    exfalso. apply Rnot_lt_le in Hn.
    assert ((3 * (A * A) - RR * RR) / (A * A * (RR * RR) * (8 * PI)) <= 0).
    { assert (0 < / (A * A * (RR * RR) * (8 * PI))) by now apply Rinv_0_lt_compat.
      unfold Rdiv. nra. }
    lra.
  - apply Rdiv_lt_0_compat; lra.
Qed.

Lemma below_sqrt3 (A RR : R) :
  0 < A -> 0 < RR -> (RR < sqrt 3 * A <-> RR * RR < 3 * (A * A)).
Proof.
  intros HA HR. pose proof sqrt3_pos as H3.
  assert (Hs : sqrt 3 * sqrt 3 = 3) by (apply sqrt_sqrt; lra).
  assert (Hsq : (sqrt 3 * A) * (sqrt 3 * A) = 3 * (A * A)).
  { replace (sqrt 3 * A * (sqrt 3 * A)) with (sqrt 3 * sqrt 3 * (A * A)) by ring.
    now rewrite Hs. }
  assert (0 < sqrt 3 * A) by now apply Rmult_lt_0_compat.
  split; intros H'.
  - rewrite <- Hsq. nra.
  - destruct (Rlt_dec RR (sqrt 3 * A)) as [|Hn]; [assumption|].
    exfalso. apply Rnot_lt_le in Hn. rewrite <- Hsq in H'. nra.
Qed.


Lemma corrected_pressure_exact (A RR r : R) :
  A <> 0 -> RR <> 0 ->
  Corrected.pressure (core A RR) r = Ok (corrected_pressure_value A RR r).
Proof.
  intros HA HR.
  destruct (field_side_conditions r HA HR) as (? & ? & ? & ? & ?).
  assert (A * A * (1 + 2 * (r * r) / (A * A)) <> 0) by nra.
  unfold Corrected.pressure, corrected_pressure_value, core.
  exact_norm. run_divisions. reflexivity.
Qed.

Lemma corrected_density_exact (A RR r : R) :
  A <> 0 -> RR <> 0 ->
  Corrected.density (core A RR) r = Ok (corrected_density_value A RR r).
Proof.
  intros HA HR.
  destruct (field_side_conditions r HA HR) as (? & ? & ? & ? & ?).
  assert (A * A * (1 + 2 * (r * r) / (A * A)) <> 0) by nra.
  assert (A * A * ((1 + 2 * (r * r) / (A * A)) * (1 + 2 * (r * r) / (A * A))) <> 0)
    by nra.
  unfold Corrected.density, corrected_density_value, core.
  exact_norm. run_divisions. reflexivity.
Qed.

Lemma corrected_same_values (A RR r : R) :
  A <> 0 -> RR <> 0 ->
  corrected_pressure_value A RR r = pressure_value A RR r
  /\ corrected_density_value A RR r = density_value A RR r.
Proof.
  intros HA HR.
  unfold corrected_pressure_value, corrected_density_value,
    pressure_value, density_value.
  exact_norm. pose proof PI_RGT_0.
  assert (0 < A * A) by nra. assert (0 < RR * RR) by nra.
  assert (0 <= r * r) by nra.
  split; field; repeat split; try lra; nra.
Qed.

Lemma central_pressure_sign (A RR : R) :
  A <> 0 -> RR <> 0 -> (0 < p_c_value A RR <-> A * A < RR * RR).
Proof.
  intros HA HR. rewrite <- center_pressure by assumption.
  rewrite pressure_fraction by assumption.
  pose proof PI_RGT_0.
  assert (0 < A * A) by nra. assert (0 < RR * RR) by nra.
  replace (RR * RR - A * A - 3 * (0 * 0)) with (RR * RR - A * A) by ring.
  replace (RR * RR * (A * A + 2 * (0 * 0)) * (8 * PI))
    with (RR * RR * (A * A) * (8 * PI)) by ring.
  assert (Hd : 0 < RR * RR * (A * A) * (8 * PI)).
  { apply Rmult_lt_0_compat; [apply Rmult_lt_0_compat|]; lra. }
  split; intros Hp.
  - destruct (Rlt_dec (A * A) (RR * RR)) as [|Hn]; [assumption|].
    exfalso. apply Rnot_lt_le in Hn.
    assert (0 < / (RR * RR * (A * A) * (8 * PI))) by now apply Rinv_0_lt_compat.
    unfold Rdiv in Hp. nra.
  - apply Rdiv_lt_0_compat; lra.
Qed.

Lemma find_valid_parameters_exact (A RR : R) :
  A <> 0 -> RR <> 0 ->
  Corrected.find_valid_parameters (core A RR) = Ok (Rltb (A * A) (RR * RR)).
Proof.
  intros HA HR. unfold Corrected.find_valid_parameters.
  change (lit 0) with 0.
  rewrite corrected_pressure_exact, corrected_density_exact by assumption.
  cbn [bind]. change (self_R (core A RR)) with RR. change (self_A (core A RR)) with A.
  rewrite pydiv_ok by assumption. cbn [bind]. f_equal.
  destruct (corrected_same_values 0 HA HR) as [-> _].
  rewrite center_pressure by assumption.
  pose proof (central_pressure_sign HA HR) as Hs.
  change (f_ltb 0 (p_c_value A RR)) with (Rltb 0 (p_c_value A RR)).
  destruct (Rltb 0 (p_c_value A RR)) eqn:E1, (Rltb (A * A) (RR * RR)) eqn:E2;
    try reflexivity.
  - apply Rltb_true in E1. apply Rltb_false in E2. apply Hs in E1. lra.
  - apply Rltb_false in E1. apply Rltb_true in E2. apply Hs in E2. lra.
Qed.

Lemma metric_exact (A RR r : R) :
  A <> 0 -> RR <> 0 -> r * r <> RR * RR ->
  Improved.calculate_metric (core A RR) r = Ok (metric_value A RR r).
Proof.
  intros HA HR Hr.
  destruct (field_side_conditions r HA HR) as (? & ? & ? & ? & ?).
  assert (0 < A * A) by nra. assert (0 <= r * r) by nra.
  assert (0 < 1 + r * r / (A * A)).
  { assert (0 <= r * r / (A * A)).
    { apply Rmult_le_pos; [lra | left; now apply Rinv_0_lt_compat]. }
    lra. }
  assert (1 - r * r / (RR * RR) <> 0).
  { intros E. apply Hr.
    assert (E' : r * r / (RR * RR) = 1) by lra.
    apply (f_equal (fun x => x * (RR * RR))) in E'.
    unfold Rdiv in E'. rewrite Rmult_assoc, Rinv_l in E'; lra. }
  assert ((1 - r * r / (RR * RR)) * (1 + r * r / (A * A)) <> 0) by nra.
  unfold Improved.calculate_metric, metric_value, core.
  exact_norm. run_divisions. reflexivity.
Qed.

Lemma metric_raises (A RR r : R) :
  A <> 0 -> RR <> 0 -> r * r = RR * RR ->
  Improved.calculate_metric (core A RR) r = Raise ZeroDivisionError.
Proof.
  intros HA HR Hr.
  destruct (field_side_conditions r HA HR) as (? & ? & ? & ? & ?).
  unfold Improved.calculate_metric, core. exact_norm.
  run_divisions.
  replace ((1 - r * r / (RR * RR)) * (1 + r * r / (A * A))) with 0.
  - apply pydiv_zero.
  - rewrite Hr. field. split; assumption || lra.
Qed.

Lemma metric_at_least_1 (A RR r : R) :
  A <> 0 -> RR <> 0 -> r * r < RR * RR -> 1 <= metric_value A RR r.
Proof.
  intros HA HR Hr. unfold metric_value. exact_norm.
  assert (0 < A * A) by nra. assert (0 < RR * RR) by nra.
  assert (0 <= r * r) by nra.
  set (x := r * r) in *. set (a := A * A) in *. set (b := RR * RR) in *.
  clearbody x a b.
  assert (Hxa : 0 <= x / a).
  { apply Rmult_le_pos; [lra | left; now apply Rinv_0_lt_compat]. }
  assert (Hxb : 0 <= x / b < 1).
  { split.
    - apply Rmult_le_pos; [lra | left; now apply Rinv_0_lt_compat].
    - apply Rmult_lt_reg_r with (r := b); [assumption|].
      unfold Rdiv. rewrite Rmult_assoc, Rinv_l; lra. }
  assert (Hd : 0 < (1 - x / b) * (1 + x / a)) by (apply Rmult_lt_0_compat; lra).
  apply Rmult_le_reg_r with (r := (1 - x / b) * (1 + x / a)); [assumption|].
  replace ((1 + 2 * x / a) / ((1 - x / b) * (1 + x / a)) * ((1 - x / b) * (1 + x / a)))
    with (1 + 2 * (x / a)) by (field; lra).
  assert (0 <= x / b * (x / a)) by now apply Rmult_le_pos.
  nra.
Qed.
Lemma central_density_above_5p (A RR : R) :
  0 < A -> A < RR -> RR <= 2 * A -> 5 * p_c_value A RR <= rho_c_value A RR.
Proof.
  intros HA HR H2. unfold rho_c_value, p_c_value. exact_norm.
  pose proof PI_RGT_0.
  assert (0 < A * A) by nra. assert (0 < RR * RR) by nra.
  assert (Hd : 0 <= (8 / (RR * RR) - 2 / (A * A)) / (8 * PI)).
  { apply Rmult_le_pos; [|left; apply Rinv_0_lt_compat; lra].
    assert (2 / (A * A) <= 8 / (RR * RR)).
    { apply frac_le; try lra. nra. }
    lra. }
  replace ((3 / (A * A) + 3 / (RR * RR)) / (8 * PI))
    with (5 * ((1 / (A * A) - 1 / (RR * RR)) / (8 * PI))
          + (8 / (RR * RR) - 2 / (A * A)) / (8 * PI)) by (field; lra).
  lra.
Qed.

Lemma ratio_below_center (A RR r : R) :
  0 < A -> A < RR -> RR <= 2 * A -> 0 <= r ->
  0 <= pressure_value A RR r -> 0 < density_value A RR r ->
  pressure_value A RR r / density_value A RR r <= p_c_value A RR / rho_c_value A RR.
Proof.
  intros HA HR H2 Hr Hp Hd.
  assert (HA0 : A <> 0) by lra. assert (HR0 : RR <> 0) by lra.
  pose proof (rho_c_positive HA0 HR0) as Hrc.
  pose proof (central_pressure_positive HA HR) as Hpc.
  pose proof (central_density_above_5p HA HR H2) as H5.
  pose proof (sum_central_pos HA0 HR0) as Hs.
  pose proof (pressure_below_center HA0 HR0 Hr) as Hle.
  apply frac_le; try assumption.
  rewrite <- (eos_identity r HA0 HR0) in *. unfold eos_value, sq in *. simpl in *.
  set (p := pressure_value A RR r) in *.
  set (pc := p_c_value A RR) in *. set (rc := rho_c_value A RR) in *.
  clearbody p pc rc.
  assert (Hq : 0 <= 8 * ((pc - p) * (pc - p)) / (rc + pc)).
  { apply Rmult_le_pos; [nra | left; now apply Rinv_0_lt_compat]. }
  set (t := 8 * ((pc - p) * (pc - p)) / (rc + pc)) in *. clearbody t.
  nra.
Qed.

Lemma fold_max_head (x : R) (l : list R) :
  Forall (fun y => y <= x) l -> fold_left f_max l x = x.
Proof.
  induction 1 as [|y l Hy _ IH]; simpl; [reflexivity|].
  rewrite (f_max_exact x y).
  assert (E : Rleb y x = true) by now apply Rleb_true.
  now rewrite E.
Qed.

Lemma table_first_row (A RR : R) (n : nat) (out : list (RadialPoint R)) :
  0 < A -> A < RR ->
  generate_eos_data (core A RR) (S n) = Ok out ->
  map (@row_r R) out = linspace 0 (rb_value A RR * (999 / 1000)) (S n) ->
  Forall (physical_row A RR (rb_value A RR * (999 / 1000))) out ->
  exists first rest,
    out = first :: rest
    /\ row_r first = 0
    /\ row_rho first = rho_c_value A RR
    /\ row_p first = p_c_value A RR
    /\ row_p_over_rho first = p_c_value A RR / rho_c_value A RR
    /\ row_cs2 first = 0.
Proof.
  intros HA HR Hg Hr Hf.
  assert (HA0 : A <> 0) by lra. assert (HR0 : RR <> 0) by lra.
  pose proof (generate_cs2_chain (S n) HA HR Hg) as Hc.
  destruct (linspace_first (rb_value A RR * (999 / 1000)) n) as [g Hl].
  rewrite Hl in Hr. destruct out as [|first rest]; [discriminate|].
  injection Hr as H0 _.
  inversion Hf as [|? ? (_ & Hp & Hd & Hq & _) _]; subst.
  destruct Hc as [Hc _]. simpl in Hc.
  rewrite H0 in Hp, Hd.
  rewrite center_pressure in Hp by assumption.
  rewrite center_density in Hd by assumption.
  exists first, rest. rewrite Hq, Hp, Hd. repeat split; assumption.
Qed.

End ExactMore.

(** ** The claims *)

Section Claims.
Local Open Scope R_scope.

(** C1 (amended): for 0 < A < R, [central_values()] returns
    rho_c = (3/A^2 + 3/R^2)/(8 pi) and p_c = (1/A^2 - 1/R^2)/(8 pi), and in
    exact arithmetic these are the values of [density(0)] and [pressure(0)],
    which therefore agree to ten (and any number of) significant digits. *)
Theorem central_values_are_center_limits (A RR : R) (HA : 0 < A) (HR : A < RR) :
  central_values (core A RR)
  = Ok ((3 / (A * A) + 3 / (RR * RR)) / (8 * PI),
        (1 / (A * A) - 1 / (RR * RR)) / (8 * PI))
  /\ density (core A RR) 0 = Ok ((3 / (A * A) + 3 / (RR * RR)) / (8 * PI))
  /\ pressure (core A RR) 0 = Ok ((1 / (A * A) - 1 / (RR * RR)) / (8 * PI))
  /\ central_values_agree (core A RR).
Proof.
  assert (HA0 : A <> 0) by lra. assert (HR0 : RR <> 0) by lra.
  unfold central_values_agree.
  change (lit 0) with 0.
  rewrite central_values_exact, density_exact, pressure_exact by assumption.
  rewrite center_density, center_pressure by assumption.
  repeat (split; [reflexivity|]).
  do 4 eexists. repeat (split; [reflexivity|]).
  split; apply agree_digits_refl.
Qed.

Lemma central_values_are_center_limits_witness :
  central_values (core 1 (3 / 2))
  = Ok ((3 / (1 * 1) + 3 / (3 / 2 * (3 / 2))) / (8 * PI),
        (1 / (1 * 1) - 1 / (3 / 2 * (3 / 2))) / (8 * PI))
  /\ density (core 1 (3 / 2)) 0 = Ok ((3 / (1 * 1) + 3 / (3 / 2 * (3 / 2))) / (8 * PI))
  /\ pressure (core 1 (3 / 2)) 0 = Ok ((1 / (1 * 1) - 1 / (3 / 2 * (3 / 2))) / (8 * PI))
  /\ central_values_agree (core 1 (3 / 2)).
Proof. apply central_values_are_center_limits; lra. Defined.

(** C1 as stated fails on binary64: at A = 3.0, R = 3 + 2^-30 the core is
    constructed, and [central_values().p_c] and [pressure(0)] differ in the
    eighth significant digit. *)
Lemma central_values_digits_counterexample :
  TolmanIVCore_init 3%float (3 + 0x1p-30)%float = Ok (core64 3 (3 + 0x1p-30))
  /\ ~ central_values_agree (core64 3 (3 + 0x1p-30)).
Proof.
  split; [vm_compute; reflexivity|].
  intros (rho_c & p_c & rho_0 & p_0 & Hc & _ & Hp & _ & Hagree).
  vm_compute in Hc. vm_compute in Hp.
  injection Hc as <- <-. injection Hp as <-.
  vm_compute in Hagree. discriminate.
Qed.
(** C2 (amended): in exact arithmetic, for 0 < A < R and
    0 <= r <= 0.99 * boundary_radius(), the density obtained from the
    pressure through [equation_of_state] is the density [density(r)], and
    the errors computed by [verify_equation_of_state] at its 20 samples are
    all 0.  On binary64, for A = 5.0, R = 8.0, the verifier computes 20
    errors, each below 1e-6 percent, and reports their mean and their
    maximum, both below 1e-6 percent. *)
Theorem equation_of_state_consistent (A RR rb r : R)
  (HA : 0 < A) (HR : A < RR)
  (Hb : boundary_radius (core A RR) = Ok rb)
  (Hr : 0 <= r <= 99 / 100 * rb) :
  (exists p rho,
      pressure (core A RR) r = Ok p
      /\ density (core A RR) r = Ok rho
      /\ equation_of_state (core A RR) p = Ok rho)
  /\ eos_agrees (core A RR) r
  /\ (exists errors,
         eos_errors (core A RR) (linspace 0 (rb * (99 / 100)) 20) [] = Ok errors
         /\ errors = repeat 0 20
         /\ verify_equation_of_state (core A RR) 20
            = Ok (Some {| mean_error := Some (np_mean errors);
                          max_error := np_max errors |})
         /\ np_mean errors = 0
         /\ np_max errors = Some 0)
  /\ (exists rb64 errors mean worst,
         boundary_radius (core64 5 8) = Ok rb64
         /\ eos_errors (core64 5 8)
              (linspace (lit 0) (f_mul rb64 (dec 99 100)) 20) [] = Ok errors
         /\ length errors = 20%nat
         /\ forallb (fun e => f_ltb e (dec 1 1000000)) errors = true
         /\ np_mean errors = mean
         /\ np_max errors = Some worst
         /\ verify_equation_of_state (core64 5 8) 20
            = Ok (Some {| mean_error := Some mean; max_error := Some worst |})
         /\ f_ltb mean (dec 1 1000000) = true
         /\ f_ltb worst (dec 1 1000000) = true).
Proof.
  assert (HA0 : A <> 0) by lra. assert (HR0 : RR <> 0) by lra.
  pose proof (rb_positive (A := A) (RR := RR)) as Hrb.
  specialize (Hrb ltac:(lra) (sq_lt_of_lt HA HR)).
  rewrite boundary_radius_valid in Hb by assumption. injection Hb as <-.
  split; [|split; [|split]].
  - exists (pressure_value A RR r), (density_value A RR r).
    rewrite pressure_exact, density_exact, equation_of_state_exact by assumption.
    now rewrite eos_identity.
  - exists (pressure_value A RR r), (density_value A RR r), (density_value A RR r).
    rewrite pressure_exact, density_exact, equation_of_state_exact by assumption.
    rewrite eos_identity by assumption.
    repeat (split; [reflexivity|]). apply agree_digits_refl.
  - exists (repeat 0 20).
    assert (He : eos_errors (core A RR) (linspace 0 (rb_value A RR * (99 / 100)) 20) []
                 = Ok (repeat 0 20)).
    { rewrite eos_errors_exact; try assumption.
      - now rewrite linspace_length.
      - assert (Hstop : 0 <= rb_value A RR * (99 / 100)) by lra.
        eapply Forall_impl; [|apply (linspace_bounds 20 Hstop)].
        intros x Hx. simpl in Hx. apply (inside_boundary HA HR). lra. }
    split; [exact He|]. split; [reflexivity|].
    rewrite np_mean_zeros, (np_max_zeros 19).
    split; [now apply verify_equation_of_state_exact|].
    split; reflexivity.
  - do 4 eexists.
    split; [vm_compute; reflexivity|].
    split; [vm_compute; reflexivity|].
    split; [reflexivity|].
    split; [vm_compute; reflexivity|].
    split; [vm_compute; reflexivity|].
    split; [vm_compute; reflexivity|].
    split; [vm_compute; reflexivity|].
    split; vm_compute; reflexivity.
Qed.

Lemma equation_of_state_consistent_witness :
  (exists p rho,
      pressure (core 5 8) 0 = Ok p
      /\ density (core 5 8) 0 = Ok rho
      /\ equation_of_state (core 5 8) p = Ok rho)
  /\ eos_agrees (core 5 8) 0
  /\ (exists errors,
         eos_errors (core 5 8) (linspace 0 (rb_value 5 8 * (99 / 100)) 20) [] = Ok errors
         /\ errors = repeat 0 20
         /\ verify_equation_of_state (core 5 8) 20
            = Ok (Some {| mean_error := Some (np_mean errors);
                          max_error := np_max errors |})
         /\ np_mean errors = 0
         /\ np_max errors = Some 0)
  /\ (exists rb64 errors mean worst,
         boundary_radius (core64 5 8) = Ok rb64
         /\ eos_errors (core64 5 8)
              (linspace (lit 0) (f_mul rb64 (dec 99 100)) 20) [] = Ok errors
         /\ length errors = 20%nat
         /\ forallb (fun e => f_ltb e (dec 1 1000000)) errors = true
         /\ np_mean errors = mean
         /\ np_max errors = Some worst
         /\ verify_equation_of_state (core64 5 8) 20
            = Ok (Some {| mean_error := Some mean; max_error := Some worst |})
         /\ f_ltb mean (dec 1 1000000) = true
         /\ f_ltb worst (dec 1 1000000) = true).
Proof.
  apply (@equation_of_state_consistent 5 8 (rb_value 5 8) 0).
  - lra.
  - lra.
  - apply boundary_radius_valid; lra.
  - assert (0 < rb_value 5 8) by (apply rb_positive; [lra | apply sq_lt_of_lt; lra]).
    lra.
Defined.

(** C2 as stated fails on binary64: at A = 1.0, R = 1e8 the core is
    constructed, and the two densities do not agree at
    r = 0.99 * boundary_radius(): the density obtained through
    [equation_of_state] is more than twice [density(r)].  There
    [verify_equation_of_state] reports a mean relative error above 38 percent
    and a maximal one above 130 percent. *)
Lemma equation_of_state_binary64_counterexample :
  TolmanIVCore_init 1%float f64_1e8 = Ok (core64 1 f64_1e8)
  /\ f_ltb (lit 0) 1%float = true
  /\ f_ltb 1%float f64_1e8 = true
  /\ exists rb r,
       boundary_radius (core64 1 f64_1e8) = Ok rb
       /\ r = f_mul rb (dec 99 100)
       /\ f_leb (lit 0) r = true
       /\ f_leb r (f_mul (dec 99 100) rb) = true
       /\ ~ eos_agrees (core64 1 f64_1e8) r
       /\ (exists p rho rho_eos,
              pressure (core64 1 f64_1e8) r = Ok p
              /\ density (core64 1 f64_1e8) r = Ok rho
              /\ equation_of_state (core64 1 f64_1e8) p = Ok rho_eos
              /\ f_ltb (lit 0) rho = true
              /\ f_ltb (f_mul (lit 2) rho) rho_eos = true)
       /\ (exists mean worst,
              verify_equation_of_state (core64 1 f64_1e8) 20
              = Ok (Some {| mean_error := Some mean; max_error := Some worst |})
              /\ f_ltb (lit 38) mean = true
              /\ f_ltb (lit 130) worst = true).
Proof.
  split; [vm_compute; reflexivity|].
  split; [vm_compute; reflexivity|].
  split; [vm_compute; reflexivity|].
  do 2 eexists.
  split; [vm_compute; reflexivity|].
  split; [reflexivity|].
  split; [vm_compute; reflexivity|].
  split; [vm_compute; reflexivity|].
  split; [|split].
  - intros (p & rho & rho_eos & Hp & Hd & He & Hagree).
    vm_compute in Hp. injection Hp as <-.
    vm_compute in Hd. injection Hd as <-.
    vm_compute in He. injection He as <-.
    vm_compute in Hagree. discriminate.
  - do 3 eexists.
    split; [vm_compute; reflexivity|].
    split; [vm_compute; reflexivity|].
    split; [vm_compute; reflexivity|].
    split; vm_compute; reflexivity.
  - do 2 eexists.
    split; [vm_compute; reflexivity|].
    split; vm_compute; reflexivity.
Qed.

(** C3 (amended): in exact arithmetic [boundary_radius()] raises
    [ZeroDivisionError] when R = 0 and otherwise returns
    (R/sqrt 3) * sqrt (1 - A^2/R^2) when A^2 < R^2 and 0 when not; and for
    parameters with A < R < sqrt(3) * A the returned radius lies strictly
    between 0 and R and the pressure there is exactly 0.  On binary64, for
    A = 5.0, R = 8.0, the radius returned is strictly between 0 and R and
    the pressure there is at most 1e-18 in absolute value. *)
Theorem boundary_radius_spec (A0 R0 A RR : R)
  (HR : A < RR) (Hs : RR < sqrt 3 * A) :
  boundary_radius (core A0 R0)
  = (if Reqb R0 0 then Raise ZeroDivisionError
     else Ok (if Rltb (A0 * A0) (R0 * R0)
              then R0 / sqrt 3 * sqrt (1 - A0 * A0 / (R0 * R0))
              else 0))
  /\ (exists rb,
         boundary_radius (core A RR) = Ok rb
         /\ 0 < rb < RR
         /\ pressure (core A RR) rb = Ok 0)
  /\ (exists rb64 p64,
         boundary_radius (core64 5 8) = Ok rb64
         /\ f_ltb (lit 0) rb64 = true
         /\ f_ltb rb64 (lit 8) = true
         /\ pressure (core64 5 8) rb64 = Ok p64
         /\ f_leb (f_abs p64) (dec 1 (10 ^ 18)) = true).
Proof.
  split; [|split].
  - destruct (Req_dec_T R0 0) as [E|E].
    + subst R0. rewrite boundary_radius_R0.
      assert (H : Reqb 0 0 = true) by now apply Reqb_true.
      now rewrite H.
    + rewrite boundary_radius_cases by assumption.
      apply Reqb_false in E. now rewrite E.
  - assert (HA : 0 < A).
    { pose proof sqrt3_above_3_2.
      destruct (Rlt_dec 0 A); [assumption|]. exfalso.
      assert (sqrt 3 * A <= A) by nra. lra. }
    pose proof (sq_lt_of_lt HA HR) as Hlt.
    exists (rb_value A RR). split; [now apply boundary_radius_valid|].
    split.
    + split; [apply rb_positive | apply rb_below_R]; (assumption || lra).
    + rewrite pressure_exact by lra. f_equal. apply pressure_at_rb; (assumption || lra).
  - do 2 eexists.
    split; [vm_compute; reflexivity|].
    split; [vm_compute; reflexivity|].
    split; [vm_compute; reflexivity|].
    split; vm_compute; reflexivity.
Qed.

Lemma boundary_radius_spec_witness :
  boundary_radius (core (-1) 0) = Raise ZeroDivisionError
  /\ (exists rb,
         boundary_radius (core 1 (3 / 2)) = Ok rb
         /\ 0 < rb < 3 / 2
         /\ pressure (core 1 (3 / 2)) rb = Ok 0)
  /\ (exists rb64 p64,
         boundary_radius (core64 5 8) = Ok rb64
         /\ f_ltb (lit 0) rb64 = true
         /\ f_ltb rb64 (lit 8) = true
         /\ pressure (core64 5 8) rb64 = Ok p64
         /\ f_leb (f_abs p64) (dec 1 (10 ^ 18)) = true).
Proof.
  assert (HR : 1 < 3 / 2) by lra.
  assert (Hs : 3 / 2 < sqrt 3 * 1) by (pose proof sqrt3_above_3_2; lra).
  destruct (@boundary_radius_spec (-1) 0 1 (3 / 2) HR Hs) as [Hb Hx].
  split; [|exact Hx].
  rewrite Hb. assert (E : Reqb 0 0 = true) by now apply Reqb_true.
  now rewrite E.
Defined.

(** C3 as stated fails on binary64.  At A = 1e-200, R = 1.5e-200 the core is
    constructed and A < R < sqrt(3) * A, but R ** 2 underflows to 0 and
    [boundary_radius()] raises [ZeroDivisionError].  At A = 3e-162,
    R = 3.2e-162, again with A < R < sqrt(3) * A, the two squares round to
    the same number and the radius returned is 0, not a number strictly
    between 0 and R. *)
Lemma boundary_radius_binary64_counterexample :
  (TolmanIVCore_init f64_1e_200 f64_1_5e_200 = Ok (core64 f64_1e_200 f64_1_5e_200)
   /\ f_ltb f64_1e_200 f64_1_5e_200 = true
   /\ f_ltb f64_1_5e_200 (f_mul (f_sqrt (lit 3)) f64_1e_200) = true
   /\ sq f64_1_5e_200 = 0%float
   /\ boundary_radius (core64 f64_1e_200 f64_1_5e_200) = Raise ZeroDivisionError)
  /\ (TolmanIVCore_init f64_3e_162 f64_3_2e_162 = Ok (core64 f64_3e_162 f64_3_2e_162)
      /\ f_ltb f64_3e_162 f64_3_2e_162 = true
      /\ f_ltb f64_3_2e_162 (f_mul (f_sqrt (lit 3)) f64_3e_162) = true
      /\ exists rb,
           boundary_radius (core64 f64_3e_162 f64_3_2e_162) = Ok rb
           /\ f_ltb (lit 0) rb = false).
Proof.
  split.
  - repeat split; vm_compute; reflexivity.
  - split; [vm_compute; reflexivity|].
    split; [vm_compute; reflexivity|].
    split; [vm_compute; reflexivity|].
    eexists. split; vm_compute; reflexivity.
Qed.

(** C4 at the failing input A = 5.0, R = 10.0 (R >= sqrt(3) * A): the entry
    ['pc > 0'] of [check_validity_conditions] is false, while the central
    pressure returned by [central_values()] is positive, in exact arithmetic
    and on binary64. *)
Theorem central_pressure_flag_mismatch :
  (exists rho_c p_c c,
      central_values (core 5 10) = Ok (rho_c, p_c)
      /\ 0 < p_c
      /\ sqrt 3 * 5 <= 10
      /\ check_validity_conditions (core 5 10) = Ok c
      /\ cond_pc_gt_0 c = false)
  /\ (exists rho_c p_c c,
         central_values (core64 5 10) = Ok (rho_c, p_c)
         /\ f_ltb (lit 0) p_c = true
         /\ check_validity_conditions (core64 5 10) = Ok c
         /\ cond_pc_gt_0 c = false).
Proof.
  split.
  - do 3 eexists.
    rewrite central_values_exact, check_validity_conditions_exact by lra.
    split; [reflexivity|].
    pose proof sqrt3_below_2.
    split; [apply central_pressure_positive; lra|].
    split; [lra|]. split; [reflexivity|].
    cbn [cond_pc_gt_0]. apply Rltb_false. lra.
  - do 3 eexists. repeat split; vm_compute; reflexivity.
Qed.



(** C6 (amended): in exact arithmetic, for 0 < A < R and at least one
    sample, the table of [generate_eos_data] is not empty, is in ascending r,
    and its p column and its rho column are both non-increasing: every row's
    pressure and density are at most those of the row before it; the checks
    [pressure_monotonic] and [density_monotonic] of
    [check_physical_conditions] are true.  On binary64, for A = 5.0,
    R = 8.0, the table of [generate_eos_data(100)] has 100 rows and the two
    checks are true. *)
Theorem profile_monotonic (A RR : R) (n : nat) (HA : 0 < A) (HR : A < RR) :
  exists profile,
    generate_eos_data (core A RR) (S n) = Ok profile
    /\ profile <> []
    /\ StronglySorted Rlt (map (@row_r R) profile)
    /\ non_increasing (map (@row_p R) profile)
    /\ non_increasing (map (@row_rho R) profile)
    /\ pressure_monotonic (check_physical_conditions profile) = true
    /\ density_monotonic (check_physical_conditions profile) = true
    /\ exists profile64,
         generate_eos_data (core64 5 8) 100 = Ok profile64
         /\ length profile64 = 100%nat
         /\ pressure_monotonic (check_physical_conditions profile64) = true
         /\ density_monotonic (check_physical_conditions profile64) = true.
Proof.
  assert (HA0 : A <> 0) by lra. assert (HR0 : RR <> 0) by lra.
  destruct (generate_eos_data_valid (S n) HA HR) as (out & Hg & Hr & Hf).
  pose proof (rb_positive (A := A) (RR := RR)) as Hrb.
  specialize (Hrb ltac:(lra) (sq_lt_of_lt HA HR)).
  assert (Hs : StronglySorted Rlt (map (@row_r R) out)).
  { rewrite Hr. apply linspace_sorted. lra. }
  destruct (rows_monotone HA0 HR0 Hf Hs) as [Hp Hd].
  exists out. split; [assumption|].
  split.
  { intros ->. apply (f_equal (@length R)) in Hr.
    rewrite linspace_length in Hr. discriminate. }
  repeat (split; [assumption|]).
  cbn [check_physical_conditions pressure_monotonic density_monotonic].
  rewrite !dropna_exact.
  split; [apply diff_nonpos; assumption|].
  split; [apply diff_nonpos; assumption|].
  eexists. split; [vm_compute; reflexivity|].
  split; [vm_compute; reflexivity|].
  split; vm_compute; reflexivity.
Qed.

Lemma profile_monotonic_witness :
  exists profile,
    generate_eos_data (core 5 8) (S 99) = Ok profile
    /\ profile <> []
    /\ StronglySorted Rlt (map (@row_r R) profile)
    /\ non_increasing (map (@row_p R) profile)
    /\ non_increasing (map (@row_rho R) profile)
    /\ pressure_monotonic (check_physical_conditions profile) = true
    /\ density_monotonic (check_physical_conditions profile) = true
    /\ exists profile64,
         generate_eos_data (core64 5 8) 100 = Ok profile64
         /\ length profile64 = 100%nat
         /\ pressure_monotonic (check_physical_conditions profile64) = true
         /\ density_monotonic (check_physical_conditions profile64) = true.
Proof. apply profile_monotonic; lra. Defined.

(** C6 as stated fails on binary64: at A = 5.0, R = 5.0000000000001 the core
    is constructed and [generate_eos_data(100)] returns 100 rows, whose
    density rises from the row of index 22 to the row of index 23;
    [density_monotonic] is false, also in the summary that
    [process_single_case] returns for this (valid) case. *)
Lemma profile_density_binary64_counterexample :
  TolmanIVCore_init 5%float f64_5_0000000000001
  = Ok (core64 5 f64_5_0000000000001)
  /\ f_ltb (lit 0) 5%float = true
  /\ f_ltb 5%float f64_5_0000000000001 = true
  /\ (exists profile x y,
         generate_eos_data (core64 5 f64_5_0000000000001) 100 = Ok profile
         /\ length profile = 100%nat
         /\ nth_error (map (@row_rho float) profile) 22 = Some x
         /\ nth_error (map (@row_rho float) profile) 23 = Some y
         /\ f_ltb x y = true
         /\ density_monotonic (check_physical_conditions profile) = false)
  /\ (exists s,
         process_single_case 5%float f64_5_0000000000001 100 = Some s
         /\ density_monotonic (cs_physical_checks s) = false).
Proof.
  split; [vm_compute; reflexivity|].
  split; [vm_compute; reflexivity|].
  split; [vm_compute; reflexivity|].
  split.
  - do 3 eexists.
    split; [vm_compute; reflexivity|].
    split; [vm_compute; reflexivity|].
    split; [vm_compute; reflexivity|].
    split; [vm_compute; reflexivity|].
    split; vm_compute; reflexivity.
  - eexists. split; vm_compute; reflexivity.
Qed.

(** C7 (amended): in exact arithmetic, for 0 < A < R and at least one
    sample, the table of [generate_eos_data] is not empty and every row
    satisfies the energy condition rho >= p and the causality condition
    0 <= p_over_rho <= 1; the checks [energy_condition] and [causality] of
    [check_physical_conditions] are true.  On binary64, for A = 5.0,
    R = 8.0, the table of [generate_eos_data(100)] has 100 rows, each with
    rho >= p and 0 <= p_over_rho <= 1, and the two checks are true. *)
Theorem profile_energy_causality (A RR : R) (n : nat) (HA : 0 < A) (HR : A < RR) :
  exists profile,
    generate_eos_data (core A RR) (S n) = Ok profile
    /\ profile <> []
    /\ Forall (fun row => row_p row <= row_rho row
                          /\ 0 <= row_p_over_rho row <= 1) profile
    /\ energy_condition (check_physical_conditions profile) = true
    /\ causality (check_physical_conditions profile) = true
    /\ exists profile64,
         generate_eos_data (core64 5 8) 100 = Ok profile64
         /\ length profile64 = 100%nat
         /\ forallb (fun row => f_leb (row_p row) (row_rho row)
                                && f_leb (lit 0) (row_p_over_rho row)
                                && f_leb (row_p_over_rho row) (lit 1))
              profile64 = true
         /\ energy_condition (check_physical_conditions profile64) = true
         /\ causality (check_physical_conditions profile64) = true.
Proof.
  assert (HA0 : A <> 0) by lra. assert (HR0 : RR <> 0) by lra.
  destruct (generate_eos_data_valid (S n) HA HR) as (out & Hg & Hr & Hf).
  pose proof (rows_energy HA0 HR0 Hf) as He.
  exists out. split; [assumption|].
  split.
  { intros ->. apply (f_equal (@length R)) in Hr.
    rewrite linspace_length in Hr. discriminate. }
  split; [assumption|].
  cbn [check_physical_conditions energy_condition causality].
  rewrite Forall_forall in He.
  split; [apply forallb_forall; intros row Hin;
          destruct (He row Hin) as [H1 [H2 H3]]; apply Rleb_true; assumption|].
  split; [apply forallb_forall; intros row Hin;
          destruct (He row Hin) as [H1 [H2 H3]]; apply Rleb_true; assumption|].
  eexists. split; [vm_compute; reflexivity|].
  split; [vm_compute; reflexivity|].
  split; [vm_compute; reflexivity|].
  split; vm_compute; reflexivity.
Qed.

Lemma profile_energy_causality_witness :
  exists profile,
    generate_eos_data (core 5 8) (S 99) = Ok profile
    /\ profile <> []
    /\ Forall (fun row => row_p row <= row_rho row
                          /\ 0 <= row_p_over_rho row <= 1) profile
    /\ energy_condition (check_physical_conditions profile) = true
    /\ causality (check_physical_conditions profile) = true
    /\ exists profile64,
         generate_eos_data (core64 5 8) 100 = Ok profile64
         /\ length profile64 = 100%nat
         /\ forallb (fun row => f_leb (row_p row) (row_rho row)
                                && f_leb (lit 0) (row_p_over_rho row)
                                && f_leb (row_p_over_rho row) (lit 1))
              profile64 = true
         /\ energy_condition (check_physical_conditions profile64) = true
         /\ causality (check_physical_conditions profile64) = true.
Proof. apply profile_energy_causality; lra. Defined.

(** C7 as stated fails on binary64: at A = 1e-160, R = 2e-160 the core is
    constructed, 1 / A ** 2 overflows, and [generate_eos_data(100)] returns
    100 rows whose pressure and density are infinite and whose p_over_rho is
    not a number: in every row both 0 <= p_over_rho and p_over_rho <= 1 are
    false, and [causality] is false. *)
Lemma profile_causality_binary64_counterexample :
  TolmanIVCore_init f64_1e_160 f64_2e_160 = Ok (core64 f64_1e_160 f64_2e_160)
  /\ f_ltb (lit 0) f64_1e_160 = true
  /\ f_ltb f64_1e_160 f64_2e_160 = true
  /\ exists profile,
       generate_eos_data (core64 f64_1e_160 f64_2e_160) 100 = Ok profile
       /\ length profile = 100%nat
       /\ forallb (fun row => negb (f_leb (lit 0) (row_p_over_rho row))
                              && negb (f_leb (row_p_over_rho row) (lit 1)))
            profile = true
       /\ causality (check_physical_conditions profile) = false.
Proof.
  split; [vm_compute; reflexivity|].
  split; [vm_compute; reflexivity|].
  split; [vm_compute; reflexivity|].
  eexists.
  split; [vm_compute; reflexivity|].
  split; [vm_compute; reflexivity|].
  split; vm_compute; reflexivity.
Qed.

(** C8: constructing the core with R <= A raises [ValueError] (the
    configuration error), so that [process_single_case] and
    [analyze_tolman_iv] return [None]: no table and no report; so it is for
    A = 1.0, R = 0.5 on binary64.  The field functions make no such check:
    on parameters [A1 >= R1] (non-zero) they return values. *)
Theorem config_error_at_construction (A RR A1 R1 r : R) (n : nat)
  (H : RR <= A) (H1 : R1 <= A1) (HA1 : A1 <> 0) (HR1 : R1 <> 0) :
  TolmanIVCore_init A RR = Raise ValueError
  /\ process_single_case A RR n = None
  /\ analyze_tolman_iv A RR n = Ok None
  /\ (exists p rho cv rb,
         pressure (core A1 R1) r = Ok p
         /\ density (core A1 R1) r = Ok rho
         /\ central_values (core A1 R1) = Ok cv
         /\ boundary_radius (core A1 R1) = Ok rb)
  /\ TolmanIVCore_init 1%float 0.5%float = Raise ValueError
  /\ process_single_case 1%float 0.5%float 100 = None
  /\ analyze_tolman_iv 1%float 0.5%float 100 = Ok None.
Proof.
  split; [now apply init_raises|].
  split; [now apply process_single_case_config_error|].
  split; [now apply analyze_tolman_iv_config_error|].
  split.
  - do 4 eexists.
    rewrite pressure_exact, density_exact, central_values_exact,
      boundary_radius_cases by assumption.
    repeat split; reflexivity.
  - repeat split; vm_compute; reflexivity.
Qed.

Lemma config_error_at_construction_witness :
  TolmanIVCore_init 1 (1 / 2) = Raise ValueError
  /\ process_single_case 1 (1 / 2) 100 = None
  /\ analyze_tolman_iv 1 (1 / 2) 100 = Ok None
  /\ (exists p rho cv rb,
         pressure (core 1 (1 / 2)) 0 = Ok p
         /\ density (core 1 (1 / 2)) 0 = Ok rho
         /\ central_values (core 1 (1 / 2)) = Ok cv
         /\ boundary_radius (core 1 (1 / 2)) = Ok rb)
  /\ TolmanIVCore_init 1%float 0.5%float = Raise ValueError
  /\ process_single_case 1%float 0.5%float 100 = None
  /\ analyze_tolman_iv 1%float 0.5%float 100 = Ok None.
Proof. apply config_error_at_construction; lra. Defined.

(** C9 (amended): for A = 1.0, R = 2.0 the report of [analyze_solution] has
    [valid] false and [process_single_case] returns [None] before any table
    is generated; [generate_eos_data] itself does not look at validity and,
    called on this configuration, returns all [n] sampled rows. *)
Theorem invalid_case_is_gated_by_driver :
  (exists a, analyze_solution (core 1 2) = Ok a /\ an_valid a = false)
  /\ (forall n, process_single_case (1 : R) 2 n = None)
  /\ (forall n, exists profile,
         generate_eos_data (core 1 2) n = Ok profile /\ length profile = n)
  /\ (exists a, analyze_solution (core64 1 2) = Ok a /\ an_valid a = false)
  /\ process_single_case 1%float 2%float 100 = None
  /\ (exists profile,
         generate_eos_data (core64 1 2) 100 = Ok profile
         /\ length profile = 100%nat).
Proof.
  pose proof sqrt3_below_2.
  split; [|split; [|split]].
  - eexists. rewrite analyze_solution_exact by lra. split; [reflexivity|].
    cbn [an_valid]. apply andb_false_iff. right. apply Rltb_false. lra.
  - intros n. apply process_single_case_gate; lra.
  - intros n.
    destruct (@generate_eos_data_valid 1 2 n ltac:(lra) ltac:(lra)) as (out & Hg & Hr & _).
    exists out. split; [assumption|].
    now rewrite <- (length_map (@row_r R)), Hr, linspace_length.
  - split; [eexists; split; vm_compute; reflexivity|].
    split; [vm_compute; reflexivity|].
    eexists. split; vm_compute; reflexivity.
Qed.

(** C9 as stated fails: at A = 1.0, R = 2.0 the validity report has [valid]
    false, but the table generated by [generate_eos_data(100)] is not
    empty. *)
Lemma invalid_case_profile_counterexample :
  ~ (exists a,
        analyze_solution (core64 1 2) = Ok a
        /\ an_valid a = false
        /\ generate_eos_data (core64 1 2) 100 = Ok []).
Proof.
  intros (a & _ & _ & Hg). vm_compute in Hg. discriminate.
Qed.

(** C10 (amended): in exact arithmetic, for 0 < A < R the core is
    constructed, A^2/R^2 < 1, so the test [A2/R2 >= 1] of
    [boundary_radius()] fails and the radius returned is strictly positive;
    the test [rb <= 0] of [generate_eos_data] fails too, and the table has
    all [n] rows.  On binary64, for A = 5.0, R = 8.0, both tests fail, the
    radius is positive and the table of [generate_eos_data(100)] has 100
    rows. *)
Theorem boundary_radius_positive (A RR : R) (n : nat) (HA : 0 < A) (HR : A < RR) :
  TolmanIVCore_init A RR = Ok (core A RR)
  /\ A * A / (RR * RR) < 1
  /\ Rleb 1 (A * A / (RR * RR)) = false
  /\ exists rb,
       boundary_radius (core A RR) = Ok rb
       /\ 0 < rb
       /\ Rleb rb 0 = false
       /\ (exists profile,
              generate_eos_data (core A RR) n = Ok profile
              /\ length profile = n)
       /\ exists q64 rb64 profile64,
            pydiv (sq 5%float) (sq 8%float) = Ok q64
            /\ f_leb (lit 1) q64 = false
            /\ boundary_radius (core64 5 8) = Ok rb64
            /\ f_ltb (lit 0) rb64 = true
            /\ f_leb rb64 (lit 0) = false
            /\ generate_eos_data (core64 5 8) 100 = Ok profile64
            /\ length profile64 = 100%nat.
Proof.
  assert (HR0 : RR <> 0) by lra.
  pose proof (sq_lt_of_lt HA HR) as Hlt.
  pose proof (proj2 (ratio_lt_1 A HR0) Hlt) as Hq.
  pose proof (rb_positive (A := A) (RR := RR)) as Hrb.
  specialize (Hrb ltac:(lra) Hlt).
  split; [now apply init_returns|].
  split; [exact Hq|].
  split; [apply Rleb_false; exact Hq|].
  exists (rb_value A RR).
  split; [now apply boundary_radius_valid|].
  split; [assumption|].
  split; [apply Rleb_false; assumption|].
  destruct (generate_eos_data_valid n HA HR) as (out & Hg & Hr & _).
  split.
  - exists out. split; [assumption|].
    now rewrite <- (length_map (@row_r R)), Hr, linspace_length.
  - do 3 eexists.
    split; [vm_compute; reflexivity|].
    split; [vm_compute; reflexivity|].
    split; [vm_compute; reflexivity|].
    split; [vm_compute; reflexivity|].
    split; [vm_compute; reflexivity|].
    split; vm_compute; reflexivity.
Qed.

Lemma boundary_radius_positive_witness :
  TolmanIVCore_init 5 10 = Ok (core 5 10)
  /\ 5 * 5 / (10 * 10) < 1
  /\ Rleb 1 (5 * 5 / (10 * 10)) = false
  /\ exists rb,
       boundary_radius (core 5 10) = Ok rb
       /\ 0 < rb
       /\ Rleb rb 0 = false
       /\ (exists profile,
              generate_eos_data (core 5 10) 100 = Ok profile
              /\ length profile = 100%nat)
       /\ exists q64 rb64 profile64,
            pydiv (sq 5%float) (sq 8%float) = Ok q64
            /\ f_leb (lit 1) q64 = false
            /\ boundary_radius (core64 5 8) = Ok rb64
            /\ f_ltb (lit 0) rb64 = true
            /\ f_leb rb64 (lit 0) = false
            /\ generate_eos_data (core64 5 8) 100 = Ok profile64
            /\ length profile64 = 100%nat.
Proof. apply boundary_radius_positive; lra. Defined.

(** C10 as stated fails on binary64: at A = 3e-162, R = 3.2e-162 the core is
    constructed with 0 < A < R, but A ** 2 and R ** 2 round to the same
    number, A2/R2 is 1, the test [A2/R2 >= 1] succeeds and
    [boundary_radius()] returns 0; the test [rb <= 0] of
    [generate_eos_data] succeeds too and the table is empty. *)
Lemma boundary_radius_zero_binary64_counterexample :
  TolmanIVCore_init f64_3e_162 f64_3_2e_162 = Ok (core64 f64_3e_162 f64_3_2e_162)
  /\ f_ltb (lit 0) f64_3e_162 = true
  /\ f_ltb f64_3e_162 f64_3_2e_162 = true
  /\ sq f64_3e_162 = sq f64_3_2e_162
  /\ pydiv (sq f64_3e_162) (sq f64_3_2e_162) = Ok 1%float
  /\ f_leb (lit 1) 1%float = true
  /\ boundary_radius (core64 f64_3e_162 f64_3_2e_162) = Ok 0%float
  /\ f_leb 0%float (lit 0) = true
  /\ generate_eos_data (core64 f64_3e_162 f64_3_2e_162) 100 = Ok [].
Proof. repeat split; vm_compute; reflexivity. Qed.

End Claims.

(** ** Further properties of the code *)

Section Extras.
Local Open Scope R_scope.

(** X1: in any arithmetic (binary64 included), a table returned by
    [generate_eos_data(n)] has at most [n] rows; it is empty when
    [rb <= 0], and otherwise its r column is the sampled grid filtered by the
    test [p >= 0 and rho > 0]; every row holds the fields at its radius and
    passes that test, so that on a table that is not empty the checks
    [positive_pressure] and [positive_density] are true. *)
Theorem table_invariants_any_arithmetic (F : Type) (PF : PyFloat F)
  (self : TolmanIVCore F) (n : nat) (rb : F) (out : list (RadialPoint F))
  (Hb : boundary_radius self = Ok rb)
  (Hg : generate_eos_data self n = Ok out) :
  (length out <= n)%nat
  /\ (if f_leb rb (lit 0) then out = []
      else map (@row_r F) out
           = filter (retained self) (linspace (lit 0) (f_mul rb (dec 999 1000)) n))
  /\ Forall (fun row => row_of_fields self row
                        /\ f_leb (lit 0) (row_p row) = true
                        /\ f_ltb (lit 0) (row_rho row) = true) out
  /\ (out <> [] ->
      positive_pressure (check_physical_conditions out) = true
      /\ positive_density (check_physical_conditions out) = true).
Proof.
  unfold generate_eos_data in Hg. rewrite Hb in Hg. cbn [bind] in Hg.
  destruct (f_leb rb (lit 0)).
  - injection Hg as <-. repeat split; try constructor; try contradiction.
    simpl. lia.
  - apply eos_rows_any in Hg. destruct Hg as (new & -> & Hr & Hf).
    rewrite enumerate_snd_any in Hr. cbn [app].
    split; [|split; [exact Hr|split; [exact Hf|intros _; split]]].
    + rewrite <- (length_map (@row_r F)), Hr.
      etransitivity; [apply filter_length_le|]. now rewrite linspace_length_any.
    + cbn [check_physical_conditions positive_pressure].
      apply forallb_forall. rewrite Forall_forall in Hf.
      intros row Hin. now destruct (Hf row Hin) as (_ & H & _).
    + cbn [check_physical_conditions positive_density].
      apply forallb_forall. rewrite Forall_forall in Hf.
      intros row Hin. now destruct (Hf row Hin) as (_ & _ & H).
Qed.

Lemma table_invariants_any_arithmetic_witness :
  exists rb out,
    boundary_radius (core64 5 8) = Ok rb
    /\ generate_eos_data (core64 5 8) 4 = Ok out
    /\ (length out <= 4)%nat
    /\ (if f_leb rb (lit 0) then out = []
        else map (@row_r float) out
             = filter (retained (core64 5 8))
                 (linspace (lit 0) (f_mul rb (dec 999 1000)) 4))
    /\ Forall (fun row => row_of_fields (core64 5 8) row
                          /\ f_leb (lit 0) (row_p row) = true
                          /\ f_ltb (lit 0) (row_rho row) = true) out
    /\ (out <> [] ->
        positive_pressure (check_physical_conditions out) = true
        /\ positive_density (check_physical_conditions out) = true).
Proof.
  do 2 eexists.
  split; [vm_compute; reflexivity|]. split; [vm_compute; reflexivity|].
  apply table_invariants_any_arithmetic; vm_compute; reflexivity.
Defined.

(** X2: in any arithmetic, [generate_eos_data] of tolman_iv_complete.py,
    which tests only [len(data) > 0] before the finite difference, returns
    what [generate_eos_data] of tolmanIV_modular.py returns (same table or
    same exception): the extra test [i > 0] never decides. *)
Theorem complete_generate_eos_data_same (F : Type) (PF : PyFloat F)
  (self : TolmanIVCore F) (n : nat) :
  Complete.generate_eos_data self n = generate_eos_data self n.
Proof.
  unfold Complete.generate_eos_data, generate_eos_data.
  destruct (boundary_radius self) as [rb|e]; [|reflexivity]. cbn [bind].
  destruct (f_leb rb (lit 0)); [reflexivity|].
  unfold enumerate. symmetry. apply eos_rows_index. now right.
Qed.

(** X3: in any arithmetic, whenever [generate_eos_data(n)] of
    tolmanIV_modular.py returns a table, [generate_data(n)] of tolman_IV.py
    returns [None] if [rb <= 0] and otherwise the same rows without the
    [cs2] column. *)
Theorem simple_generate_data_same_rows (F : Type) (PF : PyFloat F)
  (self : TolmanIVCore F) (n : nat) (rb : F) (out : list (RadialPoint F))
  (Hb : boundary_radius self = Ok rb)
  (Hg : generate_eos_data self n = Ok out) :
  Simple.generate_data self n
  = Ok (if f_leb rb (lit 0) then None else Some (map drop_cs2 out)).
Proof.
  unfold generate_eos_data in Hg. unfold Simple.generate_data.
  rewrite Hb in *. cbn [bind] in *.
  destruct (f_leb rb (lit 0)); [reflexivity|].
  unfold enumerate in Hg. rewrite eos_rows_index in Hg by now right.
  apply data_rows_of_eos_rows in Hg. cbn [map] in Hg.
  now rewrite Hg.
Qed.

Lemma simple_generate_data_same_rows_witness :
  exists rb out,
    boundary_radius (core64 5 8) = Ok rb
    /\ generate_eos_data (core64 5 8) 4 = Ok out
    /\ Simple.generate_data (core64 5 8) 4
       = Ok (if f_leb rb (lit 0) then None else Some (map drop_cs2 out)).
Proof.
  do 2 eexists.
  split; [vm_compute; reflexivity|]. split; [vm_compute; reflexivity|].
  apply simple_generate_data_same_rows; vm_compute; reflexivity.
Defined.

(** X4: in any arithmetic, the loop of [run_parameter_study] collects in
    [results] the summaries of the cases for which [process_single_case]
    returns one, in the order of the input; at its end
    [successful = len(results)] and
    [successful + failed = len(parameter_sets)]: every case is counted
    once. *)
Theorem study_loop_accounts (F : Type) (PF : PyFloat F)
  (parameter_sets : list (F * F)) (n : nat) :
  exists results successful failed,
    study_loop parameter_sets n [] 0 0 = (results, successful, failed)
    /\ results = kept_cases n parameter_sets
    /\ successful = length results
    /\ (successful + failed = length parameter_sets)%nat.
Proof.
  rewrite study_loop_spec. cbn [app Nat.add].
  assert (Hle : (length (kept_cases n parameter_sets) <= length parameter_sets)%nat).
  { induction parameter_sets as [|[A R] l IH]; simpl; [lia|].
    destruct (process_single_case A R n); simpl; lia. }
  do 3 eexists. split; [reflexivity|]. repeat split. lia.
Qed.

(** X5: in any arithmetic, with [n_points = 0] no case succeeds:
    [process_single_case] returns [None] whatever the parameters, and the
    loop of [run_parameter_study] ends with no result and every case counted
    as failed. *)
Theorem no_points_no_results (F : Type) (PF : PyFloat F)
  (A R : F) (parameter_sets : list (F * F)) :
  process_single_case A R 0 = None
  /\ study_loop parameter_sets 0 [] 0 0 = ([], 0%nat, length parameter_sets).
Proof.
  split; [apply process_single_case_no_points|].
  assert (Hk : kept_cases 0 parameter_sets = []).
  { induction parameter_sets as [|[A' R'] l IH]; [reflexivity|].
    cbn [kept_cases flat_map fst snd]. rewrite process_single_case_no_points.
    exact IH. }
  rewrite study_loop_spec, Hk. cbn [app length Nat.add].
  now rewrite Nat.sub_0_r.
Qed.

(** X6: for 0 < A < R and at least one sample the sound speed column of
    the table of [generate_eos_data] is 0 in the first row and, in every later row,
    either 0 or the quotient of the pressure and density differences to the
    row before; every value is 0 or lies in [1/5, 1).  The notebook's checks
    [sound_speed_ok] (0 <= cs2 <= 1) and "physically acceptable" hold for
    the table. *)
Theorem sound_speed_bounded (A RR : R) (n : nat) (HA : 0 < A) (HR : A < RR) :
  exists out,
    generate_eos_data (core A RR) (S n) = Ok out
    /\ cs2_chain None out
    /\ Forall (fun row => row_cs2 row = 0 \/ 1 / 5 <= row_cs2 row < 1) out
    /\ nb_sound_speed_ok (notebook_checks out) = true
    /\ nb_acceptable (notebook_checks out) = true.
Proof.
  assert (HA0 : A <> 0) by lra. assert (HR0 : RR <> 0) by lra.
  destruct (generate_eos_data_valid (S n) HA HR) as (out & Hg & Hr & Hf).
  pose proof (generate_cs2_chain (S n) HA HR Hg) as Hc.
  pose proof (rows_sound_speed HA HR Hf None I Hc) as Hb.
  pose proof (rows_energy HA0 HR0 Hf) as He.
  exists out. repeat (split; [assumption|]).
  rewrite Forall_forall in Hb, He, Hf.
  cbn [notebook_checks nb_sound_speed_ok nb_acceptable].
  rewrite !andb_true_iff, !forallb_forall.
  repeat split; intros row Hin.
  - apply Rleb_true. destruct (Hb row Hin); simpl in *; lra.
  - apply Rleb_true. destruct (Hb row Hin); simpl in *; lra.
  - apply Rleb_true. now apply He.
  - apply Rleb_true. now destruct (Hf row Hin) as (_ & _ & _ & _ & ? & _).
  - apply Rltb_true. now destruct (Hf row Hin) as (_ & _ & _ & _ & _ & ?).
Qed.

Lemma sound_speed_bounded_witness :
  exists out,
    generate_eos_data (core 5 8) (S 99) = Ok out
    /\ cs2_chain None out
    /\ Forall (fun row => row_cs2 row = 0 \/ 1 / 5 <= row_cs2 row < 1) out
    /\ nb_sound_speed_ok (notebook_checks out) = true
    /\ nb_acceptable (notebook_checks out) = true.
Proof. apply sound_speed_bounded; lra. Defined.

(** X7: for A > 0 and at least one sample, [process_single_case] returns a
    summary exactly when A < R < sqrt(3) * A; the summary then has
    [data_points = n_points] (no sample lost), the central values and the
    boundary radius of the core, [eos_error = 0], and every boolean check of
    [check_physical_conditions] true.  Otherwise it returns [None]. *)
Theorem process_single_case_outcome (A RR : R) (n : nat) (HA : 0 < A) :
  match process_single_case A RR (S n) with
  | Some s =>
      A < RR < sqrt 3 * A
      /\ cs_A s = A /\ cs_R s = RR
      /\ cs_data_points s = S n
      /\ generate_eos_data (core A RR) (S n) = Ok (cs_file s)
      /\ central_values (core A RR) = Ok (cs_central_density s, cs_central_pressure s)
      /\ boundary_radius (core A RR) = Ok (cs_boundary_radius s)
      /\ cs_eos_error s = Some 0
      /\ energy_condition (cs_physical_checks s) = true
      /\ positive_pressure (cs_physical_checks s) = true
      /\ positive_density (cs_physical_checks s) = true
      /\ causality (cs_physical_checks s) = true
      /\ pressure_monotonic (cs_physical_checks s) = true
      /\ density_monotonic (cs_physical_checks s) = true
  | None => RR <= A \/ sqrt 3 * A <= RR
  end.
Proof.
  destruct (Rle_dec RR A) as [Hle|Hgt].
  - rewrite process_single_case_config_error by assumption. now left.
  - apply Rnot_le_lt in Hgt.
    destruct (Rle_dec (sqrt 3 * A) RR) as [Hv|Hv].
    + rewrite process_single_case_gate by assumption. now right.
    + apply Rnot_le_lt in Hv.
      destruct (process_single_case_valid n HA Hgt Hv) as (out & Hg & Hlen & Hc & ->).
      cbn [cs_A cs_R cs_data_points cs_file cs_central_density cs_central_pressure
           cs_boundary_radius cs_eos_error cs_physical_checks].
      rewrite Hc. cbn.
      rewrite central_values_exact, boundary_radius_valid by lra.
      repeat split; try reflexivity; assumption.
Qed.

Lemma process_single_case_outcome_witness :
  match process_single_case (5 : R) 8 (S 99) with
  | Some s =>
      5 < 8 < sqrt 3 * 5
      /\ cs_A s = 5 /\ cs_R s = 8
      /\ cs_data_points s = S 99
      /\ generate_eos_data (core 5 8) (S 99) = Ok (cs_file s)
      /\ central_values (core 5 8) = Ok (cs_central_density s, cs_central_pressure s)
      /\ boundary_radius (core 5 8) = Ok (cs_boundary_radius s)
      /\ cs_eos_error s = Some 0
      /\ energy_condition (cs_physical_checks s) = true
      /\ positive_pressure (cs_physical_checks s) = true
      /\ positive_density (cs_physical_checks s) = true
      /\ causality (cs_physical_checks s) = true
      /\ pressure_monotonic (cs_physical_checks s) = true
      /\ density_monotonic (cs_physical_checks s) = true
  | None => 8 <= 5 \/ sqrt 3 * 5 <= 8
  end.
Proof. apply process_single_case_outcome. lra. Defined.

(** X8: when every case has A > 0 and at least one sample is asked for,
    the loop of [run_parameter_study] keeps exactly the cases with
    A < R < sqrt(3) * A, in the order of the input, each with all its
    samples and [eos_error = 0]. *)
Theorem study_loop_selects (parameter_sets : list (R * R)) (n : nat)
  (Hpos : Forall (fun AR => 0 < fst AR) parameter_sets) :
  exists results successful failed,
    study_loop parameter_sets (S n) [] 0 0 = (results, successful, failed)
    /\ map (fun s => (cs_A s, cs_R s)) results
       = filter (fun AR => Rltb (fst AR) (snd AR) && Rltb (snd AR) (sqrt 3 * fst AR))
           parameter_sets
    /\ Forall (fun s => cs_data_points s = S n /\ cs_eos_error s = Some 0) results.
Proof.
  rewrite study_loop_spec. cbn [app].
  do 3 eexists. split; [reflexivity|].
  induction Hpos as [|[A RR] rest HA _ [IH1 IH2]]; [split; [reflexivity|constructor]|].
  cbn [fst snd] in HA.
  cbn [kept_cases flat_map filter fst snd]. fold (kept_cases (S n) rest).
  destruct (Rltb A RR) eqn:E1; [destruct (Rltb RR (sqrt 3 * A)) eqn:E2|]; cbn [andb].
  - apply Rltb_true in E1. apply Rltb_true in E2.
    destruct (process_single_case_valid n HA E1 E2) as (out & _ & _ & _ & ->).
    cbn [app map cs_A cs_R]. split; [now rewrite IH1|].
    constructor; [now split|assumption].
  - apply Rltb_true in E1. apply Rltb_false in E2.
    rewrite process_single_case_gate by assumption. now split.
  - apply Rltb_false in E1.
    rewrite process_single_case_config_error by assumption. now split.
Qed.

Lemma study_loop_selects_witness :
  exists results successful failed,
    study_loop [(1, 3 / 2); (5, 10); (1, 1 / 2)] (S 99) [] 0 0
    = (results, successful, failed)
    /\ map (fun s => (cs_A s, cs_R s)) results
       = filter (fun AR => Rltb (fst AR) (snd AR) && Rltb (snd AR) (sqrt 3 * fst AR))
           [(1, 3 / 2); (5, 10); (1, 1 / 2)]
    /\ Forall (fun s => cs_data_points s = S 99 /\ cs_eos_error s = Some 0) results.
Proof.
  apply study_loop_selects.
  repeat constructor; simpl; lra.
Defined.

(** X9: for 0 < A < R and at least one sample, the first row of the table
    is the centre: r = 0, with the density and pressure of
    [central_values()] and sound speed 0; every row lies strictly inside the
    boundary and has strictly positive pressure; with two samples or more
    the last row is at 0.999 * rb. *)
Theorem table_end_points (A RR : R) (n : nat) (HA : 0 < A) (HR : A < RR) :
  exists rb first rest,
    boundary_radius (core A RR) = Ok rb
    /\ generate_eos_data (core A RR) (S n) = Ok (first :: rest)
    /\ row_r first = 0
    /\ central_values (core A RR) = Ok (row_rho first, row_p first)
    /\ row_cs2 first = 0
    /\ Forall (fun row => 0 <= row_r row < rb /\ 0 < row_p row) (first :: rest)
    /\ last (map (@row_r R) (first :: rest)) 0
       = if (n =? 0)%nat then 0 else rb * (999 / 1000).
Proof.
  assert (HA0 : A <> 0) by lra. assert (HR0 : RR <> 0) by lra.
  destruct (generate_eos_data_valid (S n) HA HR) as (out & Hg & Hr & Hf).
  destruct (table_first_row n HA HR Hg Hr Hf)
    as (first & rest & -> & H0 & Hrho & Hp & _ & Hc).
  pose proof (rb_positive (A := A) (RR := RR)) as Hrb.
  specialize (Hrb ltac:(lra) (sq_lt_of_lt HA HR)).
  exists (rb_value A RR), first, rest.
  split; [now apply boundary_radius_valid|]. split; [assumption|].
  split; [assumption|].
  split; [rewrite central_values_exact, Hrho, Hp by assumption; reflexivity|].
  split; [assumption|]. split.
  - eapply Forall_impl; [|exact Hf].
    intros row ([Hr0 Hr1] & Hrp & _).
    assert (Hin : 0 <= row_r row < rb_value A RR) by lra.
    split; [assumption|]. rewrite Hrp. now apply pressure_positive_inside.
  - rewrite Hr. destruct n as [|m].
    + rewrite linspace_exact. simpl. ring.
    + apply linspace_last.
Qed.

Lemma table_end_points_witness :
  exists rb first rest,
    boundary_radius (core 5 8) = Ok rb
    /\ generate_eos_data (core 5 8) (S 99) = Ok (first :: rest)
    /\ row_r first = 0
    /\ central_values (core 5 8) = Ok (row_rho first, row_p first)
    /\ row_cs2 first = 0
    /\ Forall (fun row => 0 <= row_r row < rb /\ 0 < row_p row) (first :: rest)
    /\ last (map (@row_r R) (first :: rest)) 0
       = if (99 =? 0)%nat then 0 else rb * (999 / 1000).
Proof. apply table_end_points; lra. Defined.

(** X10: [pressure], [density] and [central_values] raise exactly when
    A = 0 or R = 0, and [boundary_radius] exactly when R = 0; the exception
    is [ZeroDivisionError], and the radius r never causes one. *)
Theorem field_functions_raise_iff (A RR r : R) (e : exn) :
  (pressure (core A RR) r = Raise e <-> e = ZeroDivisionError /\ (A = 0 \/ RR = 0))
  /\ (density (core A RR) r = Raise e <-> e = ZeroDivisionError /\ (A = 0 \/ RR = 0))
  /\ (central_values (core A RR) = Raise e
      <-> e = ZeroDivisionError /\ (A = 0 \/ RR = 0))
  /\ (boundary_radius (core A RR) = Raise e <-> e = ZeroDivisionError /\ RR = 0).
Proof.
  assert (Hiff : forall (T : Type) (m : result T) (P : Prop),
             (m = Raise ZeroDivisionError /\ P) \/ ((exists v, m = Ok v) /\ ~ P) ->
             (m = Raise e <-> e = ZeroDivisionError /\ P)).
  { intros T m P [[-> HP] | [[v ->] HP]]; split.
    - intros H. injection H as <-. now split.
    - now intros [-> _].
    - discriminate.
    - intros [_ H]. contradiction. }
  destruct (Req_dec_T A 0) as [HA|HA], (Req_dec_T RR 0) as [HR|HR].
  - subst. split; [|split; [|split]]; apply Hiff; left;
      (split; [|auto]);
      first [apply pressure_raises | apply density_raises
            | apply central_values_raises | apply boundary_radius_R0]; auto.
  - subst. split; [|split; [|split]]; apply Hiff.
    + left. split; [apply pressure_raises|]; auto.
    + left. split; [apply density_raises|]; auto.
    + left. split; [apply central_values_raises|]; auto.
    + right. rewrite boundary_radius_cases by assumption. split; [eauto|assumption].
  - subst. split; [|split; [|split]]; apply Hiff; left;
      (split; [|auto]);
      first [apply pressure_raises | apply density_raises
            | apply central_values_raises | apply boundary_radius_R0]; auto.
  - split; [|split; [|split]]; apply Hiff; right.
    + rewrite pressure_exact by assumption. split; [eauto | tauto].
    + rewrite density_exact by assumption. split; [eauto | tauto].
    + rewrite central_values_exact by assumption. split; [eauto | tauto].
    + rewrite boundary_radius_cases by assumption. split; [eauto | assumption].
Qed.

(** X11: with A = 0 and R > 0 the constructor accepts the parameters
    (R > A), but the analysis divides by A: [analyze_solution] raises
    [ZeroDivisionError]; [process_single_case] catches it and returns
    [None], while [analyze_tolman_iv], which catches only [ValueError], lets
    it escape; so it is on binary64 for R = 1.0.  In exact arithmetic
    [boundary_radius] still returns a positive radius and
    [generate_eos_data] raises at its first sample (these two do not extend
    to every binary64 R: where R ** 2 underflows to 0, as at R = 1e-200,
    [boundary_radius] raises). *)
Theorem zero_A_divides_by_zero (RR : R) (n : nat) (HR : 0 < RR) :
  TolmanIVCore_init 0 RR = Ok (core 0 RR)
  /\ analyze_solution (core 0 RR) = Raise ZeroDivisionError
  /\ process_single_case 0 RR n = None
  /\ analyze_tolman_iv 0 RR n = Raise ZeroDivisionError
  /\ (exists rb, boundary_radius (core 0 RR) = Ok rb /\ 0 < rb)
  /\ generate_eos_data (core 0 RR) (S n) = Raise ZeroDivisionError
  /\ process_single_case 0%float 1%float 100 = None
  /\ analyze_tolman_iv 0%float 1%float 100 = Raise ZeroDivisionError.
Proof.
  pose proof (init_returns HR) as Hi.
  pose proof (analyze_solution_raises RR) as Ha.
  split; [assumption|]. split; [assumption|].
  split; [unfold process_single_case; now rewrite Hi; cbn [bind]; rewrite Ha|].
  split; [unfold analyze_tolman_iv; now rewrite Hi; cbn [bind]; rewrite Ha|].
  split.
  - exists (RR / sqrt 3). split; [apply boundary_radius_A0; lra|].
    apply Rdiv_lt_0_compat; [assumption | apply sqrt3_pos].
  - split; [now apply generate_eos_data_A0|].
    split; vm_compute; reflexivity.
Qed.

Lemma zero_A_divides_by_zero_witness :
  TolmanIVCore_init 0 1 = Ok (core 0 1)
  /\ analyze_solution (core 0 1) = Raise ZeroDivisionError
  /\ process_single_case (0 : R) 1 99 = None
  /\ analyze_tolman_iv (0 : R) 1 99 = Raise ZeroDivisionError
  /\ (exists rb, boundary_radius (core 0 1) = Ok rb /\ 0 < rb)
  /\ generate_eos_data (core 0 1) (S 99) = Raise ZeroDivisionError
  /\ process_single_case 0%float 1%float 100 = None
  /\ analyze_tolman_iv 0%float 1%float 100 = Raise ZeroDivisionError.
Proof. apply zero_A_divides_by_zero. lra. Defined.

(** X12: in exact arithmetic a core can be constructed without a boundary
    only with a negative A: for A < R with R^2 <= A^2 (both non-zero), A is
    negative, [boundary_radius] returns 0, [generate_eos_data] returns the
    empty table, [verify_equation_of_state] and [boundary_density] return
    [None], [generate_data] of tolman_IV.py returns [None], and both drivers
    return [None] without raising.  On binary64 a core without a boundary
    can be constructed with a positive A as well: at A = 3e-162,
    R = 3.2e-162 the squares round to the same number, [boundary_radius]
    returns 0 and the same functions return the empty table or [None]. *)
Theorem no_boundary_case (A RR : R) (n : nat)
  (HA : A <> 0) (HR : RR <> 0) (Hc : A < RR) (Hb : RR * RR <= A * A) :
  A < 0
  /\ boundary_radius (core A RR) = Ok 0
  /\ generate_eos_data (core A RR) n = Ok []
  /\ verify_equation_of_state (core A RR) n = Ok None
  /\ Complete.boundary_density (core A RR) = Ok None
  /\ Simple.generate_data (core A RR) n = Ok None
  /\ process_single_case A RR n = None
  /\ analyze_tolman_iv A RR n = Ok None
  /\ (f_ltb (lit 0) f64_3e_162 = true
      /\ TolmanIVCore_init f64_3e_162 f64_3_2e_162
         = Ok (core64 f64_3e_162 f64_3_2e_162)
      /\ boundary_radius (core64 f64_3e_162 f64_3_2e_162) = Ok 0%float
      /\ generate_eos_data (core64 f64_3e_162 f64_3_2e_162) 100 = Ok []
      /\ verify_equation_of_state (core64 f64_3e_162 f64_3_2e_162) 20 = Ok None
      /\ Complete.boundary_density (core64 f64_3e_162 f64_3_2e_162) = Ok None
      /\ Simple.generate_data (core64 f64_3e_162 f64_3_2e_162) 100 = Ok None
      /\ process_single_case f64_3e_162 f64_3_2e_162 100 = None
      /\ analyze_tolman_iv f64_3e_162 f64_3_2e_162 100 = Ok None).
Proof.
  assert (Hneg : A < 0).
  { destruct (Rlt_dec A 0); [assumption|]. exfalso. nra. }
  assert (Hrb : boundary_radius (core A RR) = Ok 0).
  { rewrite boundary_radius_cases by assumption.
    assert (E : Rltb (sq A) (sq RR) = false) by (apply Rltb_false; exact Hb).
    now rewrite E. }
  assert (E0 : Rleb 0 0 = true) by (apply Rleb_true; lra).
  assert (E1 : Rltb 0 0 = false) by (apply Rltb_false; lra).
  assert (Hg : generate_eos_data (core A RR) n = Ok []).
  { unfold generate_eos_data. rewrite Hrb. cbn [bind].
    change (f_leb 0 (lit 0)) with (Rleb 0 0). now rewrite E0. }
  split; [assumption|]. split; [assumption|]. split; [assumption|].
  split.
  { unfold verify_equation_of_state. rewrite Hrb. cbn [bind].
    change (f_leb 0 (lit 0)) with (Rleb 0 0). now rewrite E0. }
  split.
  { unfold Complete.boundary_density. rewrite Hrb. cbn [bind].
    change (f_ltb (lit 0) 0) with (Rltb 0 0). now rewrite E1. }
  split.
  { unfold Simple.generate_data. rewrite Hrb. cbn [bind].
    change (f_leb 0 (lit 0)) with (Rleb 0 0). now rewrite E0. }
  pose proof sqrt3_pos.
  assert (Hv : Rltb RR (sqrt 3 * A) = false).
  { apply Rltb_false. assert (sqrt 3 * A <= A); [|lra].
    pose proof sqrt3_above_3_2. nra. }
  split; [|split].
  - unfold process_single_case. rewrite init_returns by assumption. cbn [bind].
    rewrite analyze_solution_general by assumption. cbn [bind an_valid].
    now rewrite Hv, andb_false_r.
  - unfold analyze_tolman_iv. rewrite init_returns by assumption. cbn [bind].
    rewrite analyze_solution_general by assumption. cbn [bind].
    now rewrite Hg.
  - repeat split; vm_compute; reflexivity.
Qed.

Lemma no_boundary_case_witness :
  -2 < 0
  /\ boundary_radius (core (-2) 1) = Ok 0
  /\ generate_eos_data (core (-2) 1) 100 = Ok []
  /\ verify_equation_of_state (core (-2) 1) 100 = Ok None
  /\ Complete.boundary_density (core (-2) 1) = Ok None
  /\ Simple.generate_data (core (-2) 1) 100 = Ok None
  /\ process_single_case (-2) 1 100 = None
  /\ analyze_tolman_iv (-2) 1 100 = Ok None
  /\ (f_ltb (lit 0) f64_3e_162 = true
      /\ TolmanIVCore_init f64_3e_162 f64_3_2e_162
         = Ok (core64 f64_3e_162 f64_3_2e_162)
      /\ boundary_radius (core64 f64_3e_162 f64_3_2e_162) = Ok 0%float
      /\ generate_eos_data (core64 f64_3e_162 f64_3_2e_162) 100 = Ok []
      /\ verify_equation_of_state (core64 f64_3e_162 f64_3_2e_162) 20 = Ok None
      /\ Complete.boundary_density (core64 f64_3e_162 f64_3_2e_162) = Ok None
      /\ Simple.generate_data (core64 f64_3e_162 f64_3_2e_162) 100 = Ok None
      /\ process_single_case f64_3e_162 f64_3_2e_162 100 = None
      /\ analyze_tolman_iv f64_3e_162 f64_3_2e_162 100 = Ok None).
Proof. apply no_boundary_case; lra. Defined.

(** X13: for 0 < A < R, [boundary_density()] of tolman_iv_complete.py
    returns the density that [equation_of_state] gives for zero pressure;
    it is positive and at most the central density. *)
Theorem boundary_density_at_zero_pressure (A RR : R) (HA : 0 < A) (HR : A < RR) :
  exists rho_b rho_c p_c,
    Complete.boundary_density (core A RR) = Ok (Some rho_b)
    /\ equation_of_state (core A RR) 0 = Ok rho_b
    /\ central_values (core A RR) = Ok (rho_c, p_c)
    /\ 0 < rho_b <= rho_c.
Proof.
  assert (HA0 : A <> 0) by lra. assert (HR0 : RR <> 0) by lra.
  pose proof (sq_lt_of_lt HA HR) as Hlt.
  pose proof (rb_positive (A := A) (RR := RR)) as Hrb.
  specialize (Hrb ltac:(lra) Hlt).
  pose proof (rb_below_R (A := A) (RR := RR)) as Hlt_R.
  specialize (Hlt_R ltac:(lra) Hlt).
  assert (Hin : rb_value A RR * rb_value A RR <= RR * RR) by nra.
  exists (density_value A RR (rb_value A RR)), (rho_c_value A RR), (p_c_value A RR).
  split.
  { unfold Complete.boundary_density. rewrite boundary_radius_valid by assumption.
    cbn [bind]. change (f_ltb (lit 0) (rb_value A RR)) with (Rltb 0 (rb_value A RR)).
    apply Rltb_true in Hrb. rewrite Hrb.
    now rewrite density_exact by assumption. }
  split.
  { rewrite equation_of_state_exact by assumption. f_equal.
    rewrite <- (pressure_at_rb HA0 HR0 Hlt). now apply eos_identity. }
  split; [now apply central_values_exact|].
  split; [now apply density_positive|].
  rewrite <- center_density by assumption.
  apply density_decreasing; try assumption. lra.
Qed.

Lemma boundary_density_at_zero_pressure_witness :
  exists rho_b rho_c p_c,
    Complete.boundary_density (core 5 8) = Ok (Some rho_b)
    /\ equation_of_state (core 5 8) 0 = Ok rho_b
    /\ central_values (core 5 8) = Ok (rho_c, p_c)
    /\ 0 < rho_b <= rho_c.
Proof. apply boundary_density_at_zero_pressure; lra. Defined.

(** X14: for A, R > 0 the entry ['pc > 0'] of [check_validity_conditions]
    (R < sqrt(3) * A) is the sign of the central pressure of the variant
    scripts/tolmanIV.py, whose pressure is [term1 - term2]; the central
    pressure of [central_values()] is positive exactly when A < R. *)
Theorem validity_flag_is_improved_center_sign (A RR : R) (HA : 0 < A) (HR : 0 < RR) :
  exists p c rho_c p_c,
    Improved.pressure (core A RR) 0 = Ok p
    /\ check_validity_conditions (core A RR) = Ok c
    /\ central_values (core A RR) = Ok (rho_c, p_c)
    /\ (cond_pc_gt_0 c = true <-> 0 < p)
    /\ (0 < p <-> RR < sqrt 3 * A)
    /\ (0 < p_c <-> A < RR).
Proof.
  assert (HA0 : A <> 0) by lra. assert (HR0 : RR <> 0) by lra.
  do 4 eexists.
  rewrite improved_pressure_exact, check_validity_conditions_exact,
    central_values_exact by assumption.
  repeat (split; [reflexivity|]).
  pose proof (improved_center_sign HA0 HR0) as Hs.
  pose proof (below_sqrt3 HA HR) as Hq.
  pose proof (central_pressure_sign HA0 HR0) as Hc.
  cbn [cond_pc_gt_0]. rewrite Rltb_true.
  split; [tauto|]. split; [tauto|].
  rewrite Hc. split; intros H; nra.
Qed.

Lemma validity_flag_is_improved_center_sign_witness :
  exists p c rho_c p_c,
    Improved.pressure (core 1 2) 0 = Ok p
    /\ check_validity_conditions (core 1 2) = Ok c
    /\ central_values (core 1 2) = Ok (rho_c, p_c)
    /\ (cond_pc_gt_0 c = true <-> 0 < p)
    /\ (0 < p <-> 2 < sqrt 3 * 1)
    /\ (0 < p_c <-> 1 < 2).
Proof. apply validity_flag_is_improved_center_sign; lra. Defined.

(** X15: for non-zero A and R, [calculate_metric(r)] of scripts/tolmanIV.py
    raises [ZeroDivisionError] exactly when r^2 = R^2; it returns 1 at the
    centre and a value of at least 1 for r^2 < R^2. *)
Theorem calculate_metric_behaviour (A RR r : R) (HA : A <> 0) (HR : RR <> 0) :
  match Improved.calculate_metric (core A RR) r with
  | Ok v => r * r <> RR * RR /\ (r = 0 -> v = 1) /\ (r * r < RR * RR -> 1 <= v)
  | Raise e => e = ZeroDivisionError /\ r * r = RR * RR
  end.
Proof.
  destruct (Req_dec_T (r * r) (RR * RR)) as [E|E].
  - rewrite metric_raises by assumption. now split.
  - rewrite metric_exact by assumption.
    split; [assumption|]. split.
    + intros ->. unfold metric_value. rewrite sq_zero. field.
      split; now apply sq_neq.
    + intros Hlt. now apply metric_at_least_1.
Qed.

Lemma calculate_metric_behaviour_witness :
  match Improved.calculate_metric (core 1 2) 1 with
  | Ok v => 1 * 1 <> 2 * 2 /\ (1 = 0 -> v = 1) /\ (1 * 1 < 2 * 2 -> 1 <= v)
  | Raise e => e = ZeroDivisionError /\ 1 * 1 = 2 * 2
  end.
Proof. apply calculate_metric_behaviour; lra. Defined.

(** X16: for non-zero A and R, [pressure] and [density] of
    scripts/tolmanIV_corrected.py return the values of [pressure] and
    [density] of tolmanIV_modular.py, and [find_valid_parameters()] returns
    True exactly when A^2 < R^2, whatever the relation of R to
    sqrt(3) * A. *)
Theorem corrected_variant_agrees (A RR r : R) (HA : A <> 0) (HR : RR <> 0) :
  Corrected.pressure (core A RR) r = pressure (core A RR) r
  /\ Corrected.density (core A RR) r = density (core A RR) r
  /\ Corrected.find_valid_parameters (core A RR) = Ok (Rltb (A * A) (RR * RR)).
Proof.
  destruct (corrected_same_values r HA HR) as [Hp Hd].
  rewrite corrected_pressure_exact, corrected_density_exact,
    pressure_exact, density_exact by assumption.
  rewrite Hp, Hd. repeat split. now apply find_valid_parameters_exact.
Qed.

Lemma corrected_variant_agrees_witness :
  Corrected.pressure (core 1 2) (1 / 2) = pressure (core 1 2) (1 / 2)
  /\ Corrected.density (core 1 2) (1 / 2) = density (core 1 2) (1 / 2)
  /\ Corrected.find_valid_parameters (core 1 2) = Ok (Rltb (1 * 1) (2 * 2)).
Proof. apply corrected_variant_agrees; lra. Defined.

(** X17: for 0 < A < R <= 2 * A and at least one sample, the diagnostic
    [max_p_over_rho] of [check_physical_conditions] on the generated table
    is the central ratio p_c / rho_c = (R^2 - A^2) / (3 * (R^2 + A^2)). *)
Theorem max_p_over_rho_is_central (A RR : R) (n : nat)
  (HA : 0 < A) (HR : A < RR) (H2 : RR <= 2 * A) :
  exists out rho_c p_c,
    generate_eos_data (core A RR) (S n) = Ok out
    /\ central_values (core A RR) = Ok (rho_c, p_c)
    /\ max_p_over_rho (check_physical_conditions out) = Some (p_c / rho_c)
    /\ p_c / rho_c = (RR * RR - A * A) / (3 * (RR * RR + A * A)).
Proof.
  assert (HA0 : A <> 0) by lra. assert (HR0 : RR <> 0) by lra.
  destruct (generate_eos_data_valid (S n) HA HR) as (out & Hg & Hr & Hf).
  destruct (table_first_row n HA HR Hg Hr Hf)
    as (first & rest & -> & _ & _ & _ & Hq & _).
  exists (first :: rest), (rho_c_value A RR), (p_c_value A RR).
  split; [assumption|]. split; [now apply central_values_exact|]. split.
  - cbn [check_physical_conditions max_p_over_rho]. rewrite dropna_exact.
    cbn [map np_max]. f_equal.
    rewrite Hq. apply fold_max_head.
    inversion Hf as [|? ? _ Hrest]; subst.
    apply Forall_map. eapply Forall_impl; [|exact Hrest].
    intros row ([Hr0 _] & Hp & Hd & Hpq & Hp0 & Hd0).
    rewrite Hpq, Hp, Hd. rewrite Hp in Hp0. rewrite Hd in Hd0.
    now apply ratio_below_center.
  - unfold p_c_value, rho_c_value. exact_norm. pose proof PI_RGT_0.
    assert (0 < A * A) by nra. assert (0 < RR * RR) by nra.
    field. repeat split; try lra; nra.
Qed.

Lemma max_p_over_rho_is_central_witness :
  exists out rho_c p_c,
    generate_eos_data (core 5 8) (S 99) = Ok out
    /\ central_values (core 5 8) = Ok (rho_c, p_c)
    /\ max_p_over_rho (check_physical_conditions out) = Some (p_c / rho_c)
    /\ p_c / rho_c = (8 * 8 - 5 * 5) / (3 * (8 * 8 + 5 * 5)).
Proof. apply max_p_over_rho_is_central; lra. Defined.

(** X18: in the script tolmanIV_V1.py (A <> 0) the table has [Npoints]
    lines; on every line the density is positive and above the pressure,
    and the label is 1 exactly when r^2 <= A^2 (pressure not negative) and 0
    otherwise. *)
Theorem v1_table_labels (A RR : R) (n : nat) (HA : A <> 0) :
  length (v1_table A RR n) = n
  /\ Forall (fun line =>
               let '(r, rho, P, label) := line in
               rho = rho_tolmanIV r A /\ P = P_tolmanIV r A
               /\ 0 < rho /\ P < rho
               /\ (label = 1%nat <-> r * r <= A * A)
               /\ (label = 0%nat <-> A * A < r * r))
       (v1_table A RR n).
Proof.
  unfold v1_table. split.
  { rewrite length_map. apply linspace_length_any. }
  apply Forall_map, Forall_forall. intros r _.
  assert (Ha : 0 < A * A) by nra. assert (Hr : 0 <= r * r) by nra.
  assert (Hd : 0 < (A * A + r * r) * (A * A + r * r)) by nra.
  assert (Hrho : 0 < rho_tolmanIV r A).
  { unfold rho_tolmanIV. exact_norm. apply Rdiv_lt_0_compat; lra. }
  assert (Hlt : P_tolmanIV r A < rho_tolmanIV r A).
  { unfold rho_tolmanIV, P_tolmanIV. exact_norm.
    apply Rmult_lt_compat_r; [now apply Rinv_0_lt_compat | lra]. }
  assert (Hp : 0 <= P_tolmanIV r A <-> r * r <= A * A).
  { unfold P_tolmanIV. exact_norm. split; intros H.
    - destruct (Rle_dec (r * r) (A * A)) as [|Hn]; [assumption|]. exfalso.
      apply Rnot_le_lt in Hn.
      assert (0 < / ((A * A + r * r) * (A * A + r * r))) by now apply Rinv_0_lt_compat.
      unfold Rdiv in H. nra.
    - apply Rmult_le_pos; [lra | left; now apply Rinv_0_lt_compat]. }
  repeat (split; [reflexivity || assumption|]).
  change (f_leb (lit 0) (rho_tolmanIV r A)) with (Rleb 0 (rho_tolmanIV r A)).
  change (f_leb (lit 0) (P_tolmanIV r A)) with (Rleb 0 (P_tolmanIV r A)).
  assert (E : Rleb 0 (rho_tolmanIV r A) = true) by (apply Rleb_true; lra).
  rewrite E. cbn [andb].
  destruct (Rleb 0 (P_tolmanIV r A)) eqn:EP.
  - apply Rleb_true in EP. apply Hp in EP.
    split; split; intros H; try reflexivity; try assumption; try discriminate. lra.
  - apply Rleb_false in EP.
    assert (A * A < r * r).
    { destruct (Rlt_dec (A * A) (r * r)); [assumption|]. exfalso.
      assert (0 <= P_tolmanIV r A) by (apply Hp; lra). lra. }
    split; split; intros H'; try reflexivity; try assumption; try discriminate. lra.
Qed.

Lemma v1_table_labels_witness :
  length (v1_table 5 10 100) = 100%nat
  /\ Forall (fun line =>
               let '(r, rho, P, label) := line in
               rho = rho_tolmanIV r 5 /\ P = P_tolmanIV r 5
               /\ 0 < rho /\ P < rho
               /\ (label = 1%nat <-> r * r <= 5 * 5)
               /\ (label = 0%nat <-> 5 * 5 < r * r))
       (v1_table 5 10 100).
Proof. apply v1_table_labels. lra. Defined.

(** X19: [analyze_tolman_iv] has no validity gate: for every 0 < A < R
    (also with R >= sqrt(3) * A) and at least one sample it returns the full
    result, with a table of all [n_points] rows, the analysis report (whose
    [valid] is the test R < sqrt(3) * A), the physical checks of the table
    and the verification report with errors 0. *)
Theorem analyze_tolman_iv_returns_data (A RR : R) (n : nat) (HA : 0 < A) (HR : A < RR) :
  exists out,
    generate_eos_data (core A RR) (S n) = Ok out
    /\ length out = S n
    /\ analyze_tolman_iv A RR (S n)
       = Ok (Some {| fa_data := out;
                     fa_analysis :=
                       {| an_valid := Rltb RR (sqrt 3 * A);
                          an_rho_c := (3 / (A * A) + 3 / (RR * RR)) / (8 * PI);
                          an_p_c := (1 / (A * A) - 1 / (RR * RR)) / (8 * PI);
                          an_rb := RR / sqrt 3 * sqrt (1 - A * A / (RR * RR)) |};
                     fa_physical_checks := check_physical_conditions out;
                     fa_eos_verification :=
                       Some {| mean_error := Some 0; max_error := Some 0 |} |}).
Proof.
  destruct (generate_eos_data_valid (S n) HA HR) as (out & Hg & Hr & _).
  assert (Hlen : length out = S n).
  { now rewrite <- (length_map (@row_r R)), Hr, linspace_length. }
  exists out. split; [assumption|]. split; [assumption|].
  unfold analyze_tolman_iv.
  rewrite init_returns by assumption. cbn [bind].
  rewrite analyze_solution_exact by assumption. cbn [bind].
  rewrite Hg. cbn [bind]. rewrite Hlen. cbn [Nat.ltb Nat.leb].
  rewrite (verify_equation_of_state_exact 19 HA HR). cbn [bind except_ValueError].
  assert (E : Rltb A RR = true) by now apply Rltb_true.
  rewrite E. reflexivity.
Qed.

Lemma analyze_tolman_iv_returns_data_witness :
  exists out,
    generate_eos_data (core 1 2) (S 99) = Ok out
    /\ length out = S 99
    /\ analyze_tolman_iv 1 2 (S 99)
       = Ok (Some {| fa_data := out;
                     fa_analysis :=
                       {| an_valid := Rltb 2 (sqrt 3 * 1);
                          an_rho_c := (3 / (1 * 1) + 3 / (2 * 2)) / (8 * PI);
                          an_p_c := (1 / (1 * 1) - 1 / (2 * 2)) / (8 * PI);
                          an_rb := 2 / sqrt 3 * sqrt (1 - 1 * 1 / (2 * 2)) |};
                     fa_physical_checks := check_physical_conditions out;
                     fa_eos_verification :=
                       Some {| mean_error := Some 0; max_error := Some 0 |} |}).
Proof. apply analyze_tolman_iv_returns_data; lra. Defined.

(** X20: for 0 < A < R, [equation_of_state] returns the central density at
    the central pressure, and on pressures between 0 and the central
    pressure it is increasing, with a slope between 1 and 5:
    p2 - p1 <= rho(p2) - rho(p1) <= 5 * (p2 - p1). *)
Theorem equation_of_state_slope (A RR p1 p2 : R) (HA : 0 < A) (HR : A < RR)
  (H1 : 0 <= p1 <= p2)
  (H2 : p2 <= (1 / (A * A) - 1 / (RR * RR)) / (8 * PI)) :
  exists rho_c p_c rho1 rho2,
    central_values (core A RR) = Ok (rho_c, p_c)
    /\ equation_of_state (core A RR) p_c = Ok rho_c
    /\ equation_of_state (core A RR) p1 = Ok rho1
    /\ equation_of_state (core A RR) p2 = Ok rho2
    /\ p2 - p1 <= rho2 - rho1 <= 5 * (p2 - p1).
Proof.
  assert (HA0 : A <> 0) by lra. assert (HR0 : RR <> 0) by lra.
  exists (rho_c_value A RR), (p_c_value A RR),
    (eos_value A RR p1), (eos_value A RR p2).
  rewrite central_values_exact, !equation_of_state_exact by assumption.
  split; [reflexivity|]. split.
  { f_equal. unfold eos_value, sq. simpl.
    pose proof (sum_central_pos HA0 HR0). field. lra. }
  split; [reflexivity|]. split; [reflexivity|].
  pose proof (sum_central_pos HA0 HR0) as Hs.
  pose proof (central_ratio_below_third HA0 HR0) as H4.
  change ((1 / (A * A) - 1 / (RR * RR)) / (8 * PI)) with (p_c_value A RR) in H2.
  unfold eos_value, sq. simpl.
  set (pc := p_c_value A RR) in *. set (rc := rho_c_value A RR) in *.
  clearbody pc rc.
  set (k := 5 - 8 * (2 * pc - p1 - p2) / (rc + pc)).
  assert (Hk : rc - 5 * (pc - p2) + 8 * ((pc - p2) * (pc - p2)) / (rc + pc)
               - (rc - 5 * (pc - p1) + 8 * ((pc - p1) * (pc - p1)) / (rc + pc))
               = (p2 - p1) * k).
  { unfold k. field. lra. }
  assert (Hq : 0 <= 8 * (2 * pc - p1 - p2) / (rc + pc) < 4).
  { split.
    - apply Rmult_le_pos; [lra | left; now apply Rinv_0_lt_compat].
    - apply Rmult_lt_reg_r with (r := rc + pc); [assumption|].
      unfold Rdiv. rewrite Rmult_assoc, Rinv_l; lra. }
  rewrite Hk. assert (1 < k <= 5) by (unfold k; lra).
  split; nra.
Qed.

Lemma equation_of_state_slope_witness :
  exists rho_c p_c rho1 rho2,
    central_values (core 1 2) = Ok (rho_c, p_c)
    /\ equation_of_state (core 1 2) p_c = Ok rho_c
    /\ equation_of_state (core 1 2) 0 = Ok rho1
    /\ equation_of_state (core 1 2) ((1 / (1 * 1) - 1 / (2 * 2)) / (8 * PI)) = Ok rho2
    /\ (1 / (1 * 1) - 1 / (2 * 2)) / (8 * PI) - 0 <= rho2 - rho1
       <= 5 * ((1 / (1 * 1) - 1 / (2 * 2)) / (8 * PI) - 0).
Proof.
  assert (Hp : 0 <= (1 / (1 * 1) - 1 / (2 * 2)) / (8 * PI)).
  { pose proof PI_RGT_0.
    apply Rmult_le_pos; [lra | left; apply Rinv_0_lt_compat; lra]. }
  apply equation_of_state_slope; lra.
Defined.

End Extras.
